(** * KYC verification lifecycle: a shallow embedding of the service

    Sources embedded here:
    - [src/kyc/entities/kyc-verification.entity.ts]  (enums, limits table,
      the verification row)
    - [src/kyc/entities/kyc-audit-log.entity.ts]     (audit actions, audit row)
    - [src/kyc/providers/onfido.provider.ts]         (both provider classes:
      session calls, the Persona webhook signature check and payload mapping)
    - [src/kyc/kyc.service.ts]                       (the lifecycle service)
    - [src/kyc/kyc.guard.ts]                         (the route guard and its
      two decorators)
    - [src/kyc/kyc.controller.ts]                    (the routes of the user)

    Conventions of the model.
    - A JavaScript [Date] is its number of milliseconds since the epoch, in [Z].
    - A JavaScript [number] holding an amount of money or a counter is an
      integer in [Z]; the only fractional quantity of the service, the age of a
      webhook in seconds, is computed in [Q].
    - [T | null] is [option T].
    - The two repositories are tables: lists of rows in insertion order.
    - Every service method runs in the monad [M]: it threads the [World]
      (both tables, the emitted events, the outbound provider requests) and
      either returns a value or throws an [Exception].  A thrown exception does
      not roll the world back, exactly as in the source.
    - What the service cannot decide itself comes from an [Env]: the clock, the
      primary key the database generates, the answers of the two providers and
      the HMAC primitive.
    - A string is a sequence of code units below 256; a header value reaches
      the service in this form.
    - The ids of users and of records are opaque keys: each stands for a uuid
      value.  A text that is no uuid, such as the literal ['unknown'], is kept
      apart from them ([UuidInput]), because the [uuid] columns of the audit
      table refuse it.
    - The [Logger] lines of the service reach neither a table nor a caller
      and are left out. *)

From Stdlib Require Import ZArith QArith List String Ascii Bool Lia.
From Stdlib Require Import DecimalString Permutation Sorted.
Import ListNotations.

#[local] Open Scope Z_scope.
#[local] Open Scope string_scope.

(* ------------------------------------------------------------------------- *)
(** ** Entities *)

Module KycStatus.
Inductive t : Set :=
| PENDING | UNDER_REVIEW | APPROVED | REJECTED | EXPIRED | REQUIRES_ACTION.

(** The string value of the enum member. *)
Definition value (s : t) : string :=
  match s with
  | PENDING => "pending"
  | UNDER_REVIEW => "under_review"
  | APPROVED => "approved"
  | REJECTED => "rejected"
  | EXPIRED => "expired"
  | REQUIRES_ACTION => "requires_action"
  end.

Definition eqb (a b : t) : bool :=
  match a, b with
  | PENDING, PENDING | UNDER_REVIEW, UNDER_REVIEW | APPROVED, APPROVED
  | REJECTED, REJECTED | EXPIRED, EXPIRED
  | REQUIRES_ACTION, REQUIRES_ACTION => true
  | _, _ => false
  end.

End KycStatus.

Module KycLevel.
Inductive t : Set := NONE | BASIC | ENHANCED.

(** The numeric value of the enum member. *)
Definition value (l : t) : Z :=
  match l with NONE => 0 | BASIC => 1 | ENHANCED => 2 end.

Definition eqb (a b : t) : bool := Z.eqb (value a) (value b).
Definition leb (a b : t) : bool := Z.leb (value a) (value b).
Definition le (a b : t) : Prop := value a <= value b.
End KycLevel.

Module KycProvider.
Inductive t : Set := PERSONA | ONFIDO.

Definition value (p : t) : string :=
  match p with PERSONA => "persona" | ONFIDO => "onfido" end.
End KycProvider.

(** [KYC_MONTHLY_LIMITS]; [None] is the source's [null], unlimited. *)
Definition KYC_MONTHLY_LIMITS (l : KycLevel.t) : option Z :=
  match l with
  | KycLevel.NONE => Some 1000
  | KycLevel.BASIC => Some 10000
  | KycLevel.ENHANCED => None
  end.

(** Values stored in the [jsonb] columns and sent as event payloads. *)
#[local] Set Warnings "-register-all".
Inductive Json : Type :=
| JUndefined
| JNull
| JBool (b : bool)
| JNumber (n : Z)
| JString (s : string)
| JDate (ms : Z)
| JArray (items : list Json)
| JObject (fields : list (string * Json)).

Definition JsonObject : Type := list (string * Json).

Definition JOptDate (o : option Z) : Json :=
  match o with Some d => JDate d | None => JNull end.

Definition JOptNumber (o : option Z) : Json :=
  match o with Some n => JNumber n | None => JNull end.

Record KycVerification : Type := mkKycVerification {
  id : string;
  userId : string;
  level : KycLevel.t;
  status : KycStatus.t;
  provider : KycProvider.t;
  verificationId : option string;
  inquiryId : option string;
  sessionToken : option string;
  approvedAt : option Z;
  expiresAt : option Z;
  rejectionReason : option string;
  providerMetadata : JsonObject;
  attemptCount : Z;
  createdAt : Z;
  updatedAt : Z
}.

Module KycAuditAction.
Inductive t : Set :=
| INITIATED | DOCUMENT_SUBMITTED | STATUS_CHANGED | LEVEL_UPGRADED
| LEVEL_DOWNGRADED | EXPIRED | RENEWAL_STARTED | WEBHOOK_RECEIVED
| LIMIT_CHECKED | LIMIT_EXCEEDED.
End KycAuditAction.

(** A row of [kyc_audit_logs].  Its generated primary key is never read by
    the service and is left out. *)
Record KycAuditLog : Type := mkKycAuditLog {
  log_userId : string;
  log_verificationId : option string;
  log_action : KycAuditAction.t;
  log_details : JsonObject;
  log_ipAddress : option string;
  log_createdAt : Z
}.

(** A value given for a column of type [uuid]: a key of the model, which
    stands for a uuid value, or a text that is none. *)
Inductive UuidInput : Type :=
| Key (k : string)
| Text (text : string).

Module KYC_EVENTS.
Inductive t : Set := INITIATED | APPROVED | REJECTED | EXPIRED | LEVEL_CHANGED.

Definition value (e : t) : string :=
  match e with
  | INITIATED => "kyc.initiated"
  | APPROVED => "kyc.approved"
  | REJECTED => "kyc.rejected"
  | EXPIRED => "kyc.expired"
  | LEVEL_CHANGED => "kyc.level_changed"
  end.
End KYC_EVENTS.

(** 1 year in milliseconds *)
Definition VERIFICATION_TTL_MS : Z := 365 * 24 * 60 * 60 * 1000.

(** Levels that require Level 1 to be approved before starting Level 2 *)
Definition LEVEL_PREREQUISITES (l : KycLevel.t) : option KycLevel.t :=
  match l with
  | KycLevel.NONE => None
  | KycLevel.BASIC => None
  | KycLevel.ENHANCED => Some KycLevel.BASIC
  end.

(* ------------------------------------------------------------------------- *)
(** ** Strings, as the JavaScript library functions used by the service *)

Module Js.

(** [s.split(c)] for a one-character separator: never the empty list. *)
Fixpoint split (c : ascii) (s : string) : list string :=
  match s with
  | EmptyString => [EmptyString]
  | String a rest =>
      if Ascii.eqb a c then EmptyString :: split c rest
      else match split c rest with
           | [] => [String a EmptyString]
           | hd :: tl => String a hd :: tl
           end
  end.

(** [xs.join(sep)] *)
Definition join (sep : string) (xs : list string) : string :=
  String.concat sep xs.

(** [a || b] on strings: the empty string is falsy. *)
Definition or_else (a b : string) : string :=
  if String.eqb a "" then b else a.

(** Truthiness of [string | undefined]. *)
Definition truthy (o : option string) : bool :=
  match o with
  | Some s => negb (String.eqb s "")
  | None => false
  end.

(** [Object.fromEntries(entries)[key]]: the last entry with that key wins. *)
Fixpoint lookup (key : string) (entries : list (string * option string))
  : option string :=
  match entries with
  | [] => None
  | (k, v) :: rest =>
      match existsb (fun e => String.eqb (fst e) key) rest with
      | true => lookup key rest
      | false => if String.eqb k key then v else None
      end
  end.

(** The property names every object literal inherits from
    [Object.prototype]: [literal[key]] is then the inherited member (a
    function, or the prototype itself for [__proto__]) and not [undefined]. *)
Definition Object_prototype_keys : list string :=
  [ "constructor"; "toString"; "toLocaleString"; "valueOf";
    "hasOwnProperty"; "isPrototypeOf"; "propertyIsEnumerable"; "__proto__";
    "__defineGetter__"; "__defineSetter__"; "__lookupGetter__";
    "__lookupSetter__" ].

Definition inherited_key (key : string) : bool :=
  existsb (String.eqb key) Object_prototype_keys.

Definition is_digit (a : ascii) : bool :=
  let n := N_of_ascii a in (48 <=? n)%N && (n <=? 57)%N.

Definition digit_value (a : ascii) : Z := Z.of_N (N_of_ascii a) - 48.

(** White space and line terminators skipped by [parseInt], among the code
    units below 256: tab, LF, VT, FF, CR, space and the no-break space
    U+00A0. *)
Definition is_space (a : ascii) : bool :=
  let n := N_of_ascii a in
  ((9 <=? n)%N && (n <=? 13)%N) || (n =? 32)%N || (n =? 160)%N.

Fixpoint skip_spaces (s : string) : string :=
  match s with
  | String a rest => if is_space a then skip_spaces rest else s
  | EmptyString => s
  end.

(** The value of the longest prefix of decimal digits, [None] when the
    string does not start with a digit. *)
Fixpoint digits (acc : option Z) (s : string) : option Z :=
  match s with
  | String a rest =>
      if is_digit a
      then digits (Some (10 * match acc with Some n => n | None => 0 end
                         + digit_value a)) rest
      else acc
  | EmptyString => acc
  end.

(** [parseInt(s, 10)]; [None] is [NaN].  Leading white space is skipped, one
    sign is read, and the value is that of the longest run of decimal digits
    that follows; what comes after it is ignored. *)
Definition parseInt (s : string) : option Z :=
  match skip_spaces s with
  | String "-" rest => option_map Z.opp (digits None rest)
  | String "+" rest => digits None rest
  | t => digits None t
  end.

Definition hex_value (a : ascii) : option N :=
  let n := N_of_ascii a in
  if (48 <=? n)%N && (n <=? 57)%N then Some (n - 48)%N
  else if (65 <=? n)%N && (n <=? 70)%N then Some (n - 55)%N
  else if (97 <=? n)%N && (n <=? 102)%N then Some (n - 87)%N
  else None.

(** [Buffer.from(s, 'hex')]: decodes pairs of hexadecimal digits and stops
    at the first pair that is not one (or at a trailing single character). *)
Fixpoint Buffer_from_hex (s : string) : list N :=
  match s with
  | String a (String b rest) =>
      match hex_value a, hex_value b with
      | Some h, Some l => (16 * h + l)%N :: Buffer_from_hex rest
      | _, _ => []
      end
  | _ => []
  end.

Fixpoint bytes_eqb (a b : list N) : bool :=
  match a, b with
  | [], [] => true
  | x :: a', y :: b' => (x =? y)%N && bytes_eqb a' b'
  | _, _ => false
  end.

(** [crypto.timingSafeEqual(a, b)]: throws ([None]) when the two buffers
    differ in length. *)
Definition timingSafeEqual (a b : list N) : option bool :=
  if Nat.eqb (List.length a) (List.length b)
  then Some (bytes_eqb a b) else None.

(** [String(n)] for an integer. *)
Definition of_number (n : Z) : string :=
  NilZero.string_of_int (Z.to_int n).

Fixpoint group3 (rev_digits : list ascii) (k : nat) (acc : string) : string :=
  match rev_digits with
  | [] => acc
  | d :: rest =>
      match k with
      | S (S (S _)) => group3 rest 1%nat (String d (String "," acc))
      | _ => group3 rest (S k) (String d acc)
      end
  end.

(** [n.toLocaleString()] for a non-negative integer, in the en-US locale:
    decimal digits in groups of three. *)
Definition toLocaleString (n : Z) : string :=
  group3 (rev (list_ascii_of_string (of_number n))) 0%nat "".

End Js.

(* ------------------------------------------------------------------------- *)
(** ** The world of the service, exceptions and the monad of its methods *)

Inductive Exception : Type :=
| BadRequestException (message : string)
| ForbiddenException (message : string)
| EntityNotFoundError
| QueryFailedError
| FetchError (message : string).

(** An outbound HTTP request to a provider, as issued by its [request]. *)
Record Request : Type := mkRequest {
  req_provider : KycProvider.t;
  req_method : string;
  req_path : string
}.

Definition Event : Type := (KYC_EVENTS.t * JsonObject)%type.

Record World : Type := mkWorld {
  kycRepo : list KycVerification;
  auditRepo : list KycAuditLog;
  emitted : list Event;
  requests : list Request
}.

Definition M (A : Type) : Type := World -> (Exception + A) * World.

Definition ret {A} (a : A) : M A := fun w => (inr a, w).

Definition bind {A B} (m : M A) (k : A -> M B) : M B :=
  fun w =>
    match m w with
    | (inr a, w') => k a w'
    | (inl e, w') => (inl e, w')
    end.

Definition throw {A} (e : Exception) : M A := fun w => (inl e, w).

(** [try { m } catch (err) { handler(err) }] *)
Definition try_catch {A} (m : M A) (handler : Exception -> M A) : M A :=
  fun w =>
    match m w with
    | (inr a, w') => (inr a, w')
    | (inl e, w') => handler e w'
    end.

Definition gets {A} (f : World -> A) : M A := fun w => (inr (f w), w).

Definition modify (f : World -> World) : M unit := fun w => (inr tt, f w).

Declare Scope kyc_scope.
Delimit Scope kyc_scope with kyc.

Notation "x <- m ;; k" := (bind m (fun x => k))
  (at level 100, m at next level, right associativity) : kyc_scope.
Notation "m ;;; k" := (bind m (fun _ => k))
  (at level 100, right associativity) : kyc_scope.

#[local] Open Scope kyc_scope.

(** [for (const x of xs) { body(x) }] *)
Fixpoint for_of {A} (xs : list A) (body : A -> M unit) : M unit :=
  match xs with
  | [] => ret tt
  | x :: rest => body x ;;; for_of rest body
  end.

(** The answer of a provider to one HTTP request: a 2xx body, a non-2xx
    response with the detail its error body carries, or a [fetch] that
    rejects (network failure, 15 s timeout). *)
Inductive Http (A : Type) : Type :=
| Ok (body : A)
| NotOk (detail : string)
| Rejected (message : string).
Arguments Ok {A} body.
Arguments NotOk {A} detail.
Arguments Rejected {A} message.

Record Env : Type := mkEnv {
  (** [Date.now()] while the method runs *)
  now : Z;
  (** the primary key the database generates for the next verification row *)
  uuid : string;
  (** Persona, [POST /inquiries]: the inquiry id and its session token *)
  persona_inquiries :
    string -> KycLevel.t -> option string -> Http (string * string);
  (** Persona, [POST /inquiries/{id}/resume]: a fresh session token *)
  persona_resume : string -> Http string;
  (** Onfido, [POST /applicants]: the applicant id *)
  onfido_applicants : string -> Http string;
  (** Onfido, [POST /workflow_runs]: the workflow run id *)
  onfido_workflow_runs : string -> Http string;
  (** Onfido, [POST /sdk_token]: the SDK token *)
  onfido_sdk_token : string -> Http string;
  (** [createHmac('sha256', key).update(message).digest('hex')] *)
  hmac_sha256_hex : string -> string -> string;
  PERSONA_WEBHOOK_SECRET : string
}.

(* ------------------------------------------------------------------------- *)
(** ** The repository operations used by the service *)

Module Repo.

(** [Partial<KycVerification>]: [None] is an absent key. *)
Record Updates : Type := mkUpdates {
  u_status : option KycStatus.t;
  u_verificationId : option (option string);
  u_inquiryId : option (option string);
  u_sessionToken : option (option string);
  u_approvedAt : option (option Z);
  u_expiresAt : option (option Z);
  u_rejectionReason : option (option string);
  u_providerMetadata : option JsonObject
}.

Definition pick {A} (u : option A) (old : A) : A :=
  match u with Some x => x | None => old end.

(** [{ ...v, ...u }] *)
Definition assign (v : KycVerification) (u : Updates) : KycVerification :=
  {| id := id v;
     userId := userId v;
     level := level v;
     status := pick (u_status u) (status v);
     provider := provider v;
     verificationId := pick (u_verificationId u) (verificationId v);
     inquiryId := pick (u_inquiryId u) (inquiryId v);
     sessionToken := pick (u_sessionToken u) (sessionToken v);
     approvedAt := pick (u_approvedAt u) (approvedAt v);
     expiresAt := pick (u_expiresAt u) (expiresAt v);
     rejectionReason := pick (u_rejectionReason u) (rejectionReason v);
     providerMetadata := pick (u_providerMetadata u) (providerMetadata v);
     attemptCount := attemptCount v;
     createdAt := createdAt v;
     updatedAt := updatedAt v |}.

Definition touch (t : Z) (v : KycVerification) : KycVerification :=
  {| id := id v; userId := userId v; level := level v; status := status v;
     provider := provider v; verificationId := verificationId v;
     inquiryId := inquiryId v; sessionToken := sessionToken v;
     approvedAt := approvedAt v; expiresAt := expiresAt v;
     rejectionReason := rejectionReason v;
     providerMetadata := providerMetadata v;
     attemptCount := attemptCount v; createdAt := createdAt v;
     updatedAt := t |}.

(** [repo.update(key, u)]: every row with that primary key takes the
    updates; the [UpdateDateColumn] is set to the time of the update. *)
Definition update (t : Z) (key : string) (u : Updates)
  (rows : list KycVerification) : list KycVerification :=
  map (fun v => if String.eqb (id v) key then touch t (assign v u) else v)
      rows.

(** [repo.save(row)] of a new row *)
Definition save (row : KycVerification) (rows : list KycVerification)
  : list KycVerification :=
  (rows ++ [row])%list.

(** [repo.delete(key)] *)
Definition delete (key : string) (rows : list KycVerification)
  : list KycVerification :=
  filter (fun v => negb (String.eqb (id v) key)) rows.

(** [repo.findOne({ where })]: the first row that matches. *)
Definition findOne (where_ : KycVerification -> bool)
  (rows : list KycVerification) : option KycVerification :=
  List.find where_ rows.

(** [repo.find({ where })] *)
Definition find (where_ : KycVerification -> bool)
  (rows : list KycVerification) : list KycVerification :=
  filter where_ rows.

(** [repo.count({ where })] *)
Definition count (where_ : KycVerification -> bool)
  (rows : list KycVerification) : Z :=
  Z.of_nat (List.length (filter where_ rows)).

Fixpoint insert_by_level_desc (v : KycVerification)
  (sorted : list KycVerification) : list KycVerification :=
  match sorted with
  | [] => [v]
  | x :: rest =>
      if KycLevel.leb (level x) (level v) then v :: sorted
      else x :: insert_by_level_desc v rest
  end.

(** [order: { level: 'DESC' }]: rows of equal level keep their order. *)
Definition order_by_level_desc (rows : list KycVerification)
  : list KycVerification :=
  fold_right insert_by_level_desc [] rows.

(** [a] stands before [b] under [order: { level: 'DESC', createdAt: 'DESC' }],
    ties included. *)
Definition stands_before (a b : KycVerification) : bool :=
  Z.ltb (KycLevel.value (level b)) (KycLevel.value (level a))
  || (KycLevel.eqb (level a) (level b) && Z.leb (createdAt b) (createdAt a)).

Fixpoint insert_by_level_created_desc (v : KycVerification)
  (sorted : list KycVerification) : list KycVerification :=
  match sorted with
  | [] => [v]
  | x :: rest =>
      if stands_before v x then v :: sorted
      else x :: insert_by_level_created_desc v rest
  end.

(** [order: { level: 'DESC', createdAt: 'DESC' }]: rows equal on both keys
    keep their order. *)
Definition order_by_level_created_desc (rows : list KycVerification)
  : list KycVerification :=
  fold_right insert_by_level_created_desc [] rows.

End Repo.

Definition set_kycRepo (f : list KycVerification -> list KycVerification)
  (w : World) : World :=
  {| kycRepo := f (kycRepo w); auditRepo := auditRepo w;
     emitted := emitted w; requests := requests w |}.

Definition add_audit (entry : KycAuditLog) (w : World) : World :=
  {| kycRepo := kycRepo w; auditRepo := auditRepo w ++ [entry];
     emitted := emitted w; requests := requests w |}.

Definition add_event (e : Event) (w : World) : World :=
  {| kycRepo := kycRepo w; auditRepo := auditRepo w;
     emitted := emitted w ++ [e]; requests := requests w |}.

Definition add_request (r : Request) (w : World) : World :=
  {| kycRepo := kycRepo w; auditRepo := auditRepo w;
     emitted := emitted w; requests := requests w ++ [r] |}.

(** [eventEmitter.emit(name, payload)] *)
Definition emit (name : KYC_EVENTS.t) (payload : JsonObject) : M unit :=
  modify (add_event (name, payload)).

(* ------------------------------------------------------------------------- *)
(** ** Providers *)

(** The canonical outcome both providers map their vocabulary to. *)
Inductive ResultStatus : Set := approved | declined | needs_review | pending.

Definition ResultStatus_value (s : ResultStatus) : string :=
  match s with
  | approved => "approved"
  | declined => "declined"
  | needs_review => "needs_review"
  | pending => "pending"
  end.

(** What the lookup [statusMap[raw] ?? 'pending'] of a provider yields.  The
    table is an object literal: for one of its own keys the lookup gives the
    canonical status written there, for a key inherited from
    [Object.prototype] it gives the inherited member, which is not nullish
    and is none of the four statuses, and for any other key it gives
    [undefined], hence ['pending']. *)
Inductive MappedStatus : Type :=
| Canonical (s : ResultStatus)
| Inherited (key : string).

Module PersonaInquirySession.
Record t : Type := mk {
  inquiryId : string;
  sessionToken : string;
  widgetUrl : string
}.
End PersonaInquirySession.

Module PersonaVerificationResult.
Record t : Type := mk {
  inquiryId : string;
  verificationId : string;
  status : MappedStatus;
  declinedReasons : list string;
  referenceId : option string;
  completedAt : option string;
  providerMetadata : JsonObject
}.
End PersonaVerificationResult.

(** The inquiry object of a Persona webhook, [payload.data.attributes.payload.data],
    with the attributes the provider reads; [None] is an absent key. *)
Record PersonaAttributes : Type := mkPersonaAttributes {
  attr_status : option string;
  attr_verification_id : option string;
  attr_declined_reasons : option (list string);
  attr_reference_id : option string;
  attr_completed_at : option string;
  attr_inquiry_template_id : option string;
  attr_fields : option Json
}.

Record PersonaInquiry : Type := mkPersonaInquiry {
  inquiry_id : string;
  inquiry_attributes : option PersonaAttributes
}.

Module OnfidoApplicantSession.
Record t : Type := mk {
  applicantId : string;
  workflowRunId : string;
  sdkToken : string
}.
End OnfidoApplicantSession.

Module PersonaProvider.

(** [request(method, path, body)]: the request is issued, and a non-2xx
    answer is thrown as a [BadRequestException]. *)
Definition request {A} (method path : string) (answer : Http A) : M A :=
  modify (add_request (mkRequest KycProvider.PERSONA method path)) ;;;
  match answer with
  | Ok body => ret body
  | NotOk detail =>
      throw (BadRequestException ("Persona API error: " ++ detail))
  | Rejected message => throw (FetchError message)
  end.

Definition widget_url (inquiry token : string) : string :=
  "https://withpersona.com/verify?inquiry-id=" ++ inquiry
    ++ "&session-token=" ++ token.

Definition createInquiry (env : Env) (userId : string)
  (targetLevel : KycLevel.t) (redirectUrl : option string)
  : M PersonaInquirySession.t :=
  response <- request "POST" "/inquiries"
                (persona_inquiries env userId targetLevel redirectUrl) ;;
  let '(id, token) := response in
  ret (PersonaInquirySession.mk id token (widget_url id token)).

Definition resumeInquiry (env : Env) (inquiryId : string) : M string :=
  request "POST" ("/inquiries/" ++ inquiryId ++ "/resume")
    (persona_resume env inquiryId).

(** [a > b] on rationals *)
Definition Qgtb (a b : Q) : bool := negb (Qle_bool a b).

(** [Date.now() / 1000 - parseInt(timestamp, 10)], in seconds.  For an
    integer clock and an integer timestamp the double-precision result is
    on the same side of 300 as this exact quotient. *)
Definition webhookAge (env : Env) (t : Z) : Q :=
  (inject_Z (now env) / inject_Z 1000 - inject_Z t)%Q.

(** Replay attack prevention — reject webhooks older than 5 minutes.
    A timestamp [parseInt] cannot read gives [NaN], and [NaN > 300] is
    false. *)
Definition too_old (env : Env) (timestamp : string) : bool :=
  match Js.parseInt timestamp with
  | Some t => Qgtb (webhookAge env t) (inject_Z 300)
  | None => false
  end.

Definition entry_of_part (part : string) : string * option string :=
  match Js.split "=" part with
  | k :: v :: _ => (k, Some v)
  | k :: [] => (k, None)
  | [] => (EmptyString, None)
  end.

(** Format: [t=<timestamp>,v1=<hex_signature>].  Every exception of the
    [try] block is caught and answered [false]. *)
Definition verifyWebhookSignature (env : Env)
  (rawBody signatureHeader : string) : bool :=
  let parts := map entry_of_part (Js.split "," signatureHeader) in
  let timestamp := Js.lookup "t" parts in
  let receivedSig := Js.lookup "v1" parts in
  match timestamp, receivedSig with
  | Some timestamp, Some receivedSig =>
      if String.eqb timestamp "" || String.eqb receivedSig "" then false
      else if too_old env timestamp then false
      else
        let signedPayload := timestamp ++ "." ++ rawBody in
        let expected :=
          hmac_sha256_hex env (PERSONA_WEBHOOK_SECRET env) signedPayload in
        match Js.timingSafeEqual (Js.Buffer_from_hex expected)
                                 (Js.Buffer_from_hex receivedSig) with
        | Some equal => equal
        | None => false
        end
  | _, _ => false
  end.

(** [statusMap[rawStatus] ?? 'pending']: the provider's status vocabulary,
    then the keys the table inherits, then the default. *)
Definition statusMap (rawStatus : string) : MappedStatus :=
  if String.eqb rawStatus "approved" then Canonical approved
  else if String.eqb rawStatus "declined" then Canonical declined
  else if String.eqb rawStatus "failed" then Canonical declined
  else if String.eqb rawStatus "needs_review" then Canonical needs_review
  else if String.eqb rawStatus "pending" then Canonical pending
  else if String.eqb rawStatus "created" then Canonical pending
  else if String.eqb rawStatus "completed" then Canonical approved
  else if Js.inherited_key rawStatus then Inherited rawStatus
  else Canonical pending.

Definition no_attributes : PersonaAttributes :=
  mkPersonaAttributes None None None None None None None.

Definition mapInquiryToResult (data : PersonaInquiry)
  : PersonaVerificationResult.t :=
  let attr := match inquiry_attributes data with
              | Some a => a | None => no_attributes end in
  let rawStatus := match attr_status attr with
                   | Some s => s | None => "pending" end in
  {| PersonaVerificationResult.inquiryId := inquiry_id data;
     PersonaVerificationResult.verificationId :=
       match attr_verification_id attr with
       | Some v => v | None => inquiry_id data end;
     PersonaVerificationResult.status := statusMap rawStatus;
     PersonaVerificationResult.declinedReasons :=
       match attr_declined_reasons attr with
       | Some rs => rs | None => [] end;
     PersonaVerificationResult.referenceId := attr_reference_id attr;
     PersonaVerificationResult.completedAt := attr_completed_at attr;
     PersonaVerificationResult.providerMetadata :=
       [ ("templateId",
          match attr_inquiry_template_id attr with
          | Some t => JString t | None => JUndefined end);
         ("sessionToken", JUndefined);
         ("rawStatus", JString rawStatus);
         ("fields",
          match attr_fields attr with
          | Some f => f | None => JObject [] end) ] |}.

(** [inquiry] is the value found at [payload?.data?.attributes?.payload?.data],
    [None] when it is missing. *)
Definition parseWebhookPayload (inquiry : option PersonaInquiry)
  : M PersonaVerificationResult.t :=
  match inquiry with
  | None =>
      throw (BadRequestException "Invalid Persona webhook payload structure")
  | Some data => ret (mapInquiryToResult data)
  end.

End PersonaProvider.

Module OnfidoVerificationResult.
Record t : Type := mk {
  checkId : string;
  applicantId : string;
  workflowRunId : string;
  status : MappedStatus;
  result : option string;
  declinedReasons : list string;
  completedAt : option string;
  providerMetadata : JsonObject
}.
End OnfidoVerificationResult.

(** The [output] object of an Onfido workflow run: the two keys the provider
    reads, and the object itself as it is stored in the metadata. *)
Record OnfidoOutput : Type := mkOnfidoOutput {
  output_result : option string;
  output_reasons : option (list string);
  output_json : Json
}.

(** The workflow run of an Onfido webhook, [payload.object]; [None] is an
    absent key. *)
Record OnfidoWorkflowRun : Type := mkOnfidoWorkflowRun {
  run_id : option string;
  run_applicant_id : option string;
  run_status : option string;
  run_workflow_id : option string;
  run_completed_at : option string;
  run_output : option OnfidoOutput
}.

Record OnfidoPayload : Type := mkOnfidoPayload {
  resource_type : option string;
  payload_object : option OnfidoWorkflowRun
}.

Module OnfidoProvider.

Definition request {A} (method path : string) (answer : Http A) : M A :=
  modify (add_request (mkRequest KycProvider.ONFIDO method path)) ;;;
  match answer with
  | Ok body => ret body
  | NotOk detail =>
      throw (BadRequestException ("Onfido API error: " ++ detail))
  | Rejected message => throw (FetchError message)
  end.

(** POST /applicants  → POST /workflow_runs  → POST /sdk_token *)
Definition createApplicantSession (env : Env) (userId : string)
  : M OnfidoApplicantSession.t :=
  applicant <- request "POST" "/applicants" (onfido_applicants env userId) ;;
  workflowRun <- request "POST" "/workflow_runs"
                   (onfido_workflow_runs env applicant) ;;
  sdkToken <- request "POST" "/sdk_token" (onfido_sdk_token env applicant) ;;
  ret (OnfidoApplicantSession.mk applicant workflowRun sdkToken).

(** Onfido sends the signature in the [X-SHA2-Signature] header: the bare
    hexadecimal HMAC of the body under the webhook token of the provider. *)
Definition verifyWebhookSignature (env : Env)
  (webhookToken rawBody signatureHeader : string) : bool :=
  let expected := hmac_sha256_hex env webhookToken rawBody in
  match Js.timingSafeEqual (Js.Buffer_from_hex expected)
                           (Js.Buffer_from_hex signatureHeader) with
  | Some equal => equal
  | None => false
  end.

(** [statusMap[run?.status] ?? 'pending']: the provider's status
    vocabulary, then the keys the table inherits, then the default; a run
    without status looks up the key [undefined], which the table lacks. *)
Definition statusMap (rawStatus : option string) : MappedStatus :=
  match rawStatus with
  | Some raw =>
      if String.eqb raw "approved" then Canonical approved
      else if String.eqb raw "declined" then Canonical declined
      else if String.eqb raw "review" then Canonical needs_review
      else if String.eqb raw "awaiting_input" then Canonical pending
      else if String.eqb raw "processing" then Canonical pending
      else if String.eqb raw "error" then Canonical declined
      else if Js.inherited_key raw then Inherited raw
      else Canonical pending
  | None => Canonical pending
  end.

Definition or_empty (o : option string) : string :=
  match o with Some s => s | None => EmptyString end.

Definition JOrUndefined (o : option string) : Json :=
  match o with Some s => JString s | None => JUndefined end.

(** [run] is [None] when the payload has no [object]. *)
Definition mapWorkflowRunToResult (run : option OnfidoWorkflowRun)
  : OnfidoVerificationResult.t :=
  let field {A} (get : OnfidoWorkflowRun -> option A) : option A :=
    match run with Some r => get r | None => None end in
  let output := field run_output in
  {| OnfidoVerificationResult.checkId := or_empty (field run_id);
     OnfidoVerificationResult.applicantId := or_empty (field run_applicant_id);
     OnfidoVerificationResult.workflowRunId := or_empty (field run_id);
     OnfidoVerificationResult.status := statusMap (field run_status);
     OnfidoVerificationResult.result :=
       match output with Some o => output_result o | None => None end;
     OnfidoVerificationResult.declinedReasons :=
       match output with
       | Some o => match output_reasons o with Some rs => rs | None => [] end
       | None => []
       end;
     OnfidoVerificationResult.completedAt := field run_completed_at;
     OnfidoVerificationResult.providerMetadata :=
       [ ("workflowId", JOrUndefined (field run_workflow_id));
         ("status", JOrUndefined (field run_status));
         ("output", match output with
                    | Some o => output_json o | None => JObject [] end) ] |}.

Definition parseWebhookPayload (payload : OnfidoPayload)
  : M OnfidoVerificationResult.t :=
  match resource_type payload with
  | Some resource =>
      if String.eqb resource "workflow_run"
      then ret (mapWorkflowRunToResult (payload_object payload))
      else throw (BadRequestException
                    ("Unsupported Onfido webhook resource: " ++ resource))
  | None =>
      throw (BadRequestException
               "Unsupported Onfido webhook resource: undefined")
  end.

End OnfidoProvider.

(* ------------------------------------------------------------------------- *)
(** ** Request and response objects of the service *)

Record StartKycDto : Type := mkStartKycDto {
  targetLevel : KycLevel.t;
  dto_provider : option KycProvider.t;
  redirectUrl : option string
}.

Module StartKycResponseDto.
Record t : Type := mk {
  verificationRecordId : string;
  inquiryId : string;
  sessionToken : string;
  widgetUrl : string
}.
End StartKycResponseDto.

Record ManualReviewDto : Type := mkManualReviewDto {
  reviewedBy : string;
  review_status : KycStatus.t;
  notes : option string
}.

Record KycLimitDto : Type := mkKycLimitDto {
  limit_level : KycLevel.t;
  monthlyLimitUsd : option Z;
  currentMonthUsageUsd : Z;
  remainingUsd : option Z;
  isLimitReached : bool
}.

Record ComplianceReportDto : Type := mkComplianceReportDto {
  reportDate : Z;
  totalVerifications : Z;
  report_approved : Z;
  report_pending : Z;
  report_rejected : Z;
  report_expired : Z;
  byLevel : list (string * Z);
  byProvider : list (string * Z);
  renewalsDue : Z
}.

(** The argument of [applyVerificationResult]. *)
Module VerificationResult.
Record t : Type := mk {
  status : ResultStatus;
  verificationId : string;
  declinedReasons : list string;
  providerMetadata : JsonObject
}.
End VerificationResult.

(* ------------------------------------------------------------------------- *)
(** ** KycService *)

Module KycService.

Definition JLevel (l : KycLevel.t) : Json := JNumber (KycLevel.value l).
Definition JStatus (s : KycStatus.t) : Json := JString (KycStatus.value s).

(** [auditRepo.save(auditRepo.create({...}))]: the row is appended to the
    audit table.  Its [userId] column is [uuid NOT NULL]: for a text that is
    no uuid the insert fails with a [QueryFailedError] and nothing is
    written. *)
Definition auditRepo_save (env : Env) (userId : UuidInput)
  (verificationId : option string) (action : KycAuditAction.t)
  (details : JsonObject) (ipAddress : option string) : M unit :=
  match userId with
  | Key u =>
      modify (add_audit {| log_userId := u;
                           log_verificationId := verificationId;
                           log_action := action;
                           log_details := details;
                           log_ipAddress := ipAddress;
                           log_createdAt := now env |})
  | Text _ => throw QueryFailedError
  end.

(** [audit]: the insert in a [try]; the [catch] only logs, so a refused
    entry is lost and the caller goes on. *)
Definition audit (env : Env) (userId : UuidInput)
  (verificationId : option string) (action : KycAuditAction.t)
  (details : JsonObject) (ipAddress : option string) : M unit :=
  try_catch
    (auditRepo_save env userId verificationId action details ipAddress)
    (fun _ => ret tt).

(** The [status] of a provider result inside the [details] of an audit
    entry, a [jsonb] column: a canonical status is its string; an inherited
    function is left out by the serialization, and the inherited [__proto__],
    the prototype object, is stored as the empty object. *)
Definition JMappedStatus (m : MappedStatus) : Json :=
  match m with
  | Canonical s => JString (ResultStatus_value s)
  | Inherited key =>
      if String.eqb key "__proto__" then JObject [] else JUndefined
  end.

Definition where_user_level_status (u : string) (l : KycLevel.t)
  (s : KycStatus.t) (v : KycVerification) : bool :=
  String.eqb (userId v) u && KycLevel.eqb (level v) l
    && KycStatus.eqb (status v) s.

Definition getApprovedVerification (u : string) (l : KycLevel.t)
  : M (option KycVerification) :=
  gets (fun w =>
          Repo.findOne (where_user_level_status u l KycStatus.APPROVED)
                       (kycRepo w)).

Definition getAttemptCount (u : string) (l : KycLevel.t) : M Z :=
  gets (fun w =>
          Repo.count (fun v => String.eqb (userId v) u
                               && KycLevel.eqb (level v) l) (kycRepo w)).

(** Calculate current month's transaction volume for the user.
    Returning 0 as a placeholder until integrated. *)
Definition getCurrentMonthUsage (u : string) : M Z := ret 0.

(* ─── Resume Pending Verification ─── *)

Definition resumeKyc (env : Env) (verification : KycVerification)
  : M StartKycResponseDto.t :=
  match inquiryId verification with
  | Some inquiry =>
      if String.eqb inquiry ""
      then throw (BadRequestException "No active inquiry to resume")
      else
        token <- PersonaProvider.resumeInquiry env inquiry ;;
        modify (set_kycRepo
                  (Repo.update (now env) (id verification)
                     {| Repo.u_status := None;
                        Repo.u_verificationId := None;
                        Repo.u_inquiryId := None;
                        Repo.u_sessionToken := Some (Some token);
                        Repo.u_approvedAt := None;
                        Repo.u_expiresAt := None;
                        Repo.u_rejectionReason := None;
                        Repo.u_providerMetadata := None |})) ;;;
        ret {| StartKycResponseDto.verificationRecordId := id verification;
               StartKycResponseDto.inquiryId := inquiry;
               StartKycResponseDto.sessionToken := token;
               StartKycResponseDto.widgetUrl :=
                 "https://withpersona.com/verify?inquiry-id=" ++ inquiry
                   ++ "&session-token=" ++ token |}
  | None => throw (BadRequestException "No active inquiry to resume")
  end.

(* ─── Initiate KYC ─── *)

Definition prerequisite_message (target prereq : KycLevel.t) : string :=
  "Level " ++ Js.of_number (KycLevel.value target)
    ++ " KYC requires an approved Level "
    ++ Js.of_number (KycLevel.value prereq) ++ " verification first".

(** Check prerequisite: Level 2 requires approved Level 1
    ([startKyc], the block on [LEVEL_PREREQUISITES]). *)
Definition checkPrerequisite (u : string) (target : KycLevel.t) : M unit :=
  match LEVEL_PREREQUISITES target with
  | Some prereq =>
      prereqVerification <- getApprovedVerification u prereq ;;
      match prereqVerification with
      | Some _ => ret tt
      | None =>
          throw (BadRequestException (prerequisite_message target prereq))
      end
  | None => ret tt
  end.

(** The row [kycRepo.create] builds and [kycRepo.save] inserts: the columns
    the service does not give take their defaults. *)
Definition newVerification (env : Env) (u : string) (l : KycLevel.t)
  (p : KycProvider.t) (attempts : Z) : KycVerification :=
  {| id := uuid env; userId := u; level := l;
     status := KycStatus.PENDING; provider := p;
     verificationId := None; inquiryId := None; sessionToken := None;
     approvedAt := None; expiresAt := None; rejectionReason := None;
     providerMetadata := []; attemptCount := attempts;
     createdAt := now env; updatedAt := now env |}.

(** The [try] block of [startKyc]: open the provider session, store its
    handles, write the audit entry and publish the event. *)
Definition openSession (env : Env) (u : string) (dto : StartKycDto)
  (ipAddress : option string) (p : KycProvider.t) (attempt : Z)
  (verification : KycVerification) : M StartKycResponseDto.t :=
  response <-
    match p with
    | KycProvider.PERSONA =>
        session <- PersonaProvider.createInquiry env u (targetLevel dto)
                     (redirectUrl dto) ;;
        modify (set_kycRepo
                  (Repo.update (now env) (id verification)
                     {| Repo.u_status := None;
                        Repo.u_verificationId := None;
                        Repo.u_inquiryId :=
                          Some (Some (PersonaInquirySession.inquiryId session));
                        Repo.u_sessionToken :=
                          Some (Some (PersonaInquirySession.sessionToken session));
                        Repo.u_approvedAt := None;
                        Repo.u_expiresAt := None;
                        Repo.u_rejectionReason := None;
                        Repo.u_providerMetadata := None |})) ;;;
        ret {| StartKycResponseDto.verificationRecordId := id verification;
               StartKycResponseDto.inquiryId :=
                 PersonaInquirySession.inquiryId session;
               StartKycResponseDto.sessionToken :=
                 PersonaInquirySession.sessionToken session;
               StartKycResponseDto.widgetUrl :=
                 PersonaInquirySession.widgetUrl session |}
    | KycProvider.ONFIDO =>
        session <- OnfidoProvider.createApplicantSession env u ;;
        modify (set_kycRepo
                  (Repo.update (now env) (id verification)
                     {| Repo.u_status := None;
                        Repo.u_verificationId :=
                          Some (Some (OnfidoApplicantSession.applicantId session));
                        Repo.u_inquiryId :=
                          Some (Some (OnfidoApplicantSession.workflowRunId session));
                        Repo.u_sessionToken :=
                          Some (Some (OnfidoApplicantSession.sdkToken session));
                        Repo.u_approvedAt := None;
                        Repo.u_expiresAt := None;
                        Repo.u_rejectionReason := None;
                        Repo.u_providerMetadata := None |})) ;;;
        ret {| StartKycResponseDto.verificationRecordId := id verification;
               StartKycResponseDto.inquiryId :=
                 OnfidoApplicantSession.workflowRunId session;
               StartKycResponseDto.sessionToken :=
                 OnfidoApplicantSession.sdkToken session;
               StartKycResponseDto.widgetUrl := "" |}
    end ;;
  audit env (Key u) (Some (id verification)) KycAuditAction.INITIATED
    [ ("level", JLevel (targetLevel dto));
      ("provider", JString (KycProvider.value p));
      ("attemptCount", JNumber (attempt + 1)) ]
    ipAddress ;;;
  emit KYC_EVENTS.INITIATED
    [ ("userId", JString u);
      ("level", JLevel (targetLevel dto));
      ("verificationId", JString (id verification)) ] ;;;
  ret response.

(** [startKyc] from the creation of the record on: insert the PENDING row,
    then the [try] block; on any exception of it, delete the row and
    rethrow. *)
Definition createVerification (env : Env) (u : string) (dto : StartKycDto)
  (ipAddress : option string) : M StartKycResponseDto.t :=
  let p := match dto_provider dto with
           | Some p => p | None => KycProvider.PERSONA end in
  attempt <- getAttemptCount u (targetLevel dto) ;;
  let verification := newVerification env u (targetLevel dto) p (attempt + 1) in
  modify (set_kycRepo (Repo.save verification)) ;;;
  try_catch
    (openSession env u dto ipAddress p attempt verification)
    (fun err =>
       modify (set_kycRepo (Repo.delete (id verification))) ;;;
       throw err).

(** [startKyc] after the prerequisite check: resume the pending record of
    this user and level when it has an inquiry, else create a new one. *)
Definition resumeOrCreate (env : Env) (u : string) (dto : StartKycDto)
  (ipAddress : option string) : M StartKycResponseDto.t :=
  existing <- gets (fun w =>
                      Repo.findOne
                        (where_user_level_status u (targetLevel dto)
                           KycStatus.PENDING)
                        (kycRepo w)) ;;
  match existing with
  | Some e =>
      if Js.truthy (inquiryId e) then resumeKyc env e
      else createVerification env u dto ipAddress
  | None => createVerification env u dto ipAddress
  end.

Definition startKyc (env : Env) (u : string) (dto : StartKycDto)
  (ipAddress : option string) : M StartKycResponseDto.t :=
  if KycLevel.eqb (targetLevel dto) KycLevel.NONE
  then throw (BadRequestException "Cannot initiate KYC for level 0")
  else
    checkPrerequisite u (targetLevel dto) ;;;
    resumeOrCreate env u dto ipAddress.

(* ─── Core Result Application ─── *)

(** The [updates] object [applyVerificationResult] builds from the result:
    the two keys it always carries, then the [switch] on the status. *)
Definition resultUpdates (env : Env) (result : VerificationResult.t)
  : Repo.Updates :=
  let vid := Some (Some (VerificationResult.verificationId result)) in
  let meta := Some (VerificationResult.providerMetadata result) in
  match VerificationResult.status result with
  | approved =>
      {| Repo.u_status := Some KycStatus.APPROVED;
         Repo.u_verificationId := vid;
         Repo.u_inquiryId := None;
         Repo.u_sessionToken := None;
         Repo.u_approvedAt := Some (Some (now env));
         Repo.u_expiresAt := Some (Some (now env + VERIFICATION_TTL_MS));
         Repo.u_rejectionReason := Some None;
         Repo.u_providerMetadata := meta |}
  | declined =>
      {| Repo.u_status := Some KycStatus.REJECTED;
         Repo.u_verificationId := vid;
         Repo.u_inquiryId := None;
         Repo.u_sessionToken := None;
         Repo.u_approvedAt := None;
         Repo.u_expiresAt := None;
         Repo.u_rejectionReason :=
           Some (Some (Js.or_else
                         (Js.join "; " (VerificationResult.declinedReasons result))
                         "Verification declined"));
         Repo.u_providerMetadata := meta |}
  | needs_review =>
      {| Repo.u_status := Some KycStatus.UNDER_REVIEW;
         Repo.u_verificationId := vid;
         Repo.u_inquiryId := None;
         Repo.u_sessionToken := None;
         Repo.u_approvedAt := None;
         Repo.u_expiresAt := None;
         Repo.u_rejectionReason := None;
         Repo.u_providerMetadata := meta |}
  | pending =>
      {| Repo.u_status := Some KycStatus.PENDING;
         Repo.u_verificationId := vid;
         Repo.u_inquiryId := None;
         Repo.u_sessionToken := None;
         Repo.u_approvedAt := None;
         Repo.u_expiresAt := None;
         Repo.u_rejectionReason := None;
         Repo.u_providerMetadata := meta |}
  end.

Definition JOptStatus (o : option KycStatus.t) : Json :=
  match o with Some s => JStatus s | None => JUndefined end.

Definition JUpdated {A} (inj : A -> Json) (o : option (option A)) : Json :=
  match o with
  | Some (Some a) => inj a
  | Some None => JNull
  | None => JUndefined
  end.

Definition applyVerificationResult (env : Env)
  (verification : KycVerification) (result : VerificationResult.t)
  : M unit :=
  let previousStatus := status verification in
  let updates := resultUpdates env result in
  modify (set_kycRepo (Repo.update (now env) (id verification) updates)) ;;;
  audit env (Key (userId verification)) (Some (id verification))
    KycAuditAction.STATUS_CHANGED
    [ ("from", JStatus previousStatus);
      ("to", JOptStatus (Repo.u_status updates));
      ("verificationId", JString (VerificationResult.verificationId result)) ]
    None ;;;
  match Repo.u_status updates with
  | Some KycStatus.APPROVED =>
      emit KYC_EVENTS.APPROVED
        [ ("userId", JString (userId verification));
          ("level", JLevel (level verification));
          ("verificationId", JString (id verification));
          ("expiresAt", JUpdated JDate (Repo.u_expiresAt updates)) ] ;;;
      emit KYC_EVENTS.LEVEL_CHANGED
        [ ("userId", JString (userId verification));
          ("newLevel", JLevel (level verification)) ]
  | Some KycStatus.REJECTED =>
      emit KYC_EVENTS.REJECTED
        [ ("userId", JString (userId verification));
          ("level", JLevel (level verification));
          ("reason", JUpdated JString (Repo.u_rejectionReason updates)) ]
  | _ => ret tt
  end.

(** [applyVerificationResult] on a result whose [status] is none of the four
    statuses of its declared type, which nothing checks at run time (the
    value is the inherited member a provider's [statusMap] returned): no
    [case] of the [switch] matches, so [updates] keeps the two keys it was
    built with. *)
Definition unmappedUpdates (verificationId : string)
  (providerMetadata : JsonObject) : Repo.Updates :=
  {| Repo.u_status := None;
     Repo.u_verificationId := Some (Some verificationId);
     Repo.u_inquiryId := None;
     Repo.u_sessionToken := None;
     Repo.u_approvedAt := None;
     Repo.u_expiresAt := None;
     Repo.u_rejectionReason := None;
     Repo.u_providerMetadata := Some providerMetadata |}.

(** The rest of [applyVerificationResult] on such a result: the update, the
    audit entry, whose [to] is [undefined], and no event, as [updates.status]
    is neither APPROVED nor REJECTED. *)
Definition applyUnmappedResult (env : Env) (verification : KycVerification)
  (verificationId : string) (providerMetadata : JsonObject) : M unit :=
  let previousStatus := status verification in
  let updates := unmappedUpdates verificationId providerMetadata in
  modify (set_kycRepo (Repo.update (now env) (id verification) updates)) ;;;
  audit env (Key (userId verification)) (Some (id verification))
    KycAuditAction.STATUS_CHANGED
    [ ("from", JStatus previousStatus);
      ("to", JOptStatus (Repo.u_status updates));
      ("verificationId", JString verificationId) ]
    None.

(** The call [applyVerificationResult(verification, { status, ... })] of a
    webhook handler, on whatever the provider's [statusMap] returned. *)
Definition applyProviderResult (env : Env) (verification : KycVerification)
  (mapped : MappedStatus) (verificationId : string)
  (declinedReasons : list string) (providerMetadata : JsonObject) : M unit :=
  match mapped with
  | Canonical s =>
      applyVerificationResult env verification
        {| VerificationResult.status := s;
           VerificationResult.verificationId := verificationId;
           VerificationResult.declinedReasons := declinedReasons;
           VerificationResult.providerMetadata := providerMetadata |}
  | Inherited _ =>
      applyUnmappedResult env verification verificationId providerMetadata
  end.

(* ─── Webhook Processing ─── *)

(** The first audit entry is written under [result.referenceId ?? 'unknown'].
    The reference id of an inquiry is the user id [createInquiry] gave it, a
    key; the literal ['unknown'] is no uuid. *)
Definition processPersonaWebhook (env : Env) (rawBody signature : string)
  (payload : option PersonaInquiry) : M unit :=
  if negb (PersonaProvider.verifyWebhookSignature env rawBody signature)
  then throw (BadRequestException "Invalid webhook signature")
  else
    result <- PersonaProvider.parseWebhookPayload payload ;;
    audit env
      (match PersonaVerificationResult.referenceId result with
       | Some r => Key r | None => Text "unknown" end)
      None KycAuditAction.WEBHOOK_RECEIVED
      [ ("provider", JString "persona");
        ("inquiryId", JString (PersonaVerificationResult.inquiryId result));
        ("status", JMappedStatus (PersonaVerificationResult.status result)) ]
      None ;;;
    verification <- gets (fun w =>
                            Repo.findOne
                              (fun v =>
                                 match inquiryId v with
                                 | Some i =>
                                     String.eqb i
                                       (PersonaVerificationResult.inquiryId result)
                                 | None => false
                                 end)
                              (kycRepo w)) ;;
    match verification with
    | None => ret tt
    | Some v =>
        applyProviderResult env v
          (PersonaVerificationResult.status result)
          (PersonaVerificationResult.verificationId result)
          (PersonaVerificationResult.declinedReasons result)
          (PersonaVerificationResult.providerMetadata result)
    end.

(* ─── Manual Review ─── *)

Definition reviewUpdates (env : Env) (dto : ManualReviewDto) : Repo.Updates :=
  let approving := KycStatus.eqb (review_status dto) KycStatus.APPROVED in
  {| Repo.u_status := Some (review_status dto);
     Repo.u_verificationId := None;
     Repo.u_inquiryId := None;
     Repo.u_sessionToken := None;
     Repo.u_approvedAt := if approving then Some (Some (now env)) else None;
     Repo.u_expiresAt :=
       if approving then Some (Some (now env + VERIFICATION_TTL_MS)) else None;
     Repo.u_rejectionReason :=
       if Js.truthy (notes dto) then Some (notes dto) else None;
     Repo.u_providerMetadata := None |}.

Definition manualReview (env : Env) (verificationId : string)
  (dto : ManualReviewDto) (ipAddress : option string) : M KycVerification :=
  found <- gets (fun w =>
                   Repo.findOne (fun v => String.eqb (id v) verificationId)
                                (kycRepo w)) ;;
  match found with
  | None => throw EntityNotFoundError
  | Some verification =>
      let updates := reviewUpdates env dto in
      modify (set_kycRepo (Repo.update (now env) verificationId updates)) ;;;
      audit env (Key (userId verification)) (Some verificationId)
        KycAuditAction.STATUS_CHANGED
        [ ("reviewedBy", JString (reviewedBy dto));
          ("status", JStatus (review_status dto));
          ("notes", match notes dto with
                    | Some n => JString n | None => JUndefined end);
          ("manual", JBool true) ]
        ipAddress ;;;
      (if KycStatus.eqb (review_status dto) KycStatus.APPROVED
       then emit KYC_EVENTS.APPROVED
              [ ("userId", JString (userId verification));
                ("level", JLevel (level verification));
                ("verificationId", JString verificationId);
                ("manual", JBool true) ]
       else ret tt) ;;;
      ret (Repo.assign verification updates)
  end.

(* ─── Status Query ─── *)

(** [!v.expiresAt || v.expiresAt > new Date()] *)
Definition unexpired (env : Env) (v : KycVerification) : bool :=
  match expiresAt v with
  | None => true
  | Some e => Z.ltb (now env) e
  end.

(** The [for] loop of [getActiveKycLevel] over the rows found. *)
Fixpoint highestUnexpired (env : Env) (rows : list KycVerification)
  : KycLevel.t :=
  match rows with
  | [] => KycLevel.NONE
  | v :: rest =>
      if unexpired env v then level v else highestUnexpired env rest
  end.

Definition where_user_status (u : string) (s : KycStatus.t)
  (v : KycVerification) : bool :=
  String.eqb (userId v) u && KycStatus.eqb (status v) s.

Definition getActiveKycLevel (env : Env) (u : string) : M KycLevel.t :=
  approved <- gets (fun w =>
                      Repo.order_by_level_desc
                        (Repo.find (where_user_status u KycStatus.APPROVED)
                                   (kycRepo w))) ;;
  ret (highestUnexpired env approved).

(* ─── Limit Enforcement ─── *)

Definition limit_message (monthlyLimit : option Z) : string :=
  "Monthly limit of $"
    ++ match monthlyLimit with
       | Some l => Js.toLocaleString l | None => "undefined" end
    ++ " reached. Upgrade your KYC level to continue.".

Definition checkMonthlyLimit (env : Env) (u : string)
  (requestedAmountUsd : Z) : M KycLimitDto :=
  lvl <- getActiveKycLevel env u ;;
  let monthlyLimit := KYC_MONTHLY_LIMITS lvl in
  currentMonthUsageUsd <- getCurrentMonthUsage u ;;
  let remaining := match monthlyLimit with
                   | None => None
                   | Some l => Some (l - currentMonthUsageUsd)
                   end in
  let isLimitReached :=
    match monthlyLimit with
    | None => false
    | Some l => Z.gtb (currentMonthUsageUsd + requestedAmountUsd) l
    end in
  audit env (Key u) None
    (if isLimitReached then KycAuditAction.LIMIT_EXCEEDED
     else KycAuditAction.LIMIT_CHECKED)
    [ ("level", JLevel lvl);
      ("monthlyLimit", JOptNumber monthlyLimit);
      ("currentUsage", JNumber currentMonthUsageUsd);
      ("requested", JNumber requestedAmountUsd) ]
    None ;;;
  if isLimitReached
  then throw (ForbiddenException (limit_message monthlyLimit))
  else ret {| limit_level := lvl;
              monthlyLimitUsd := monthlyLimit;
              currentMonthUsageUsd := currentMonthUsageUsd;
              remainingUsd := remaining;
              isLimitReached := false |}.

(* ─── Expiry Management (scheduled job) ─── *)

(** [{ status: APPROVED, expiresAt: LessThan(new Date()) }]; a row whose
    [expiresAt] is null does not match. *)
Definition where_approved_expired (env : Env) (v : KycVerification) : bool :=
  KycStatus.eqb (status v) KycStatus.APPROVED
    && match expiresAt v with
       | Some e => Z.ltb e (now env)
       | None => false
       end.

(** [{ status: KycStatus.EXPIRED }] *)
Definition toExpired : Repo.Updates :=
  {| Repo.u_status := Some KycStatus.EXPIRED;
     Repo.u_verificationId := None;
     Repo.u_inquiryId := None;
     Repo.u_sessionToken := None;
     Repo.u_approvedAt := None;
     Repo.u_expiresAt := None;
     Repo.u_rejectionReason := None;
     Repo.u_providerMetadata := None |}.

(** The body of the loop of [expireVerifications]. *)
Definition expireOne (env : Env) (v : KycVerification) : M unit :=
  modify (set_kycRepo (Repo.update (now env) (id v) toExpired)) ;;;
  audit env (Key (userId v)) (Some (id v)) KycAuditAction.EXPIRED
    [ ("expiredAt", JOptDate (expiresAt v));
      ("level", JLevel (level v)) ]
    None ;;;
  emit KYC_EVENTS.EXPIRED
    [ ("userId", JString (userId v));
      ("level", JLevel (level v));
      ("verificationId", JString (id v)) ].

Definition expireVerifications (env : Env) : M unit :=
  expired <- gets (fun w =>
                     Repo.find (where_approved_expired env) (kycRepo w)) ;;
  for_of expired (expireOne env).

(* ─── Onfido webhook ─── *)

(** [webhookToken] is the token the Onfido provider of the service was
    configured with. *)
Definition processOnfidoWebhook (env : Env) (webhookToken : string)
  (rawBody signature : string) (payload : OnfidoPayload) : M unit :=
  if negb (OnfidoProvider.verifyWebhookSignature env webhookToken rawBody
             signature)
  then throw (BadRequestException "Invalid webhook signature")
  else
    result <- OnfidoProvider.parseWebhookPayload payload ;;
    verification <- gets (fun w =>
                            Repo.findOne
                              (fun v =>
                                 match inquiryId v with
                                 | Some i =>
                                     String.eqb i
                                       (OnfidoVerificationResult.workflowRunId
                                          result)
                                 | None => false
                                 end)
                              (kycRepo w)) ;;
    match verification with
    | None => ret tt
    | Some v =>
        audit env (Key (userId v)) (Some (id v))
          KycAuditAction.WEBHOOK_RECEIVED
          [ ("provider", JString "onfido");
            ("workflowRunId",
             JString (OnfidoVerificationResult.workflowRunId result));
            ("status", JMappedStatus (OnfidoVerificationResult.status result)) ]
          None ;;;
        applyProviderResult env v
          (OnfidoVerificationResult.status result)
          (OnfidoVerificationResult.checkId result)
          (OnfidoVerificationResult.declinedReasons result)
          (OnfidoVerificationResult.providerMetadata result)
    end.

(* ─── Status Query, all records ─── *)

Definition getUserKycStatus (u : string) : M (list KycVerification) :=
  gets (fun w =>
          Repo.order_by_level_created_desc
            (Repo.find (fun v => String.eqb (userId v) u) (kycRepo w))).

(* ─── Compliance Report ─── *)

Definition where_status (s : KycStatus.t) (v : KycVerification) : bool :=
  KycStatus.eqb (status v) s.

(** [GROUP BY k.level] over the APPROVED rows: one entry per level that
    occurs, keyed [level_<n>], with its number of rows. *)
Definition countByLevel (rows : list KycVerification) : list (string * Z) :=
  flat_map
    (fun l =>
       let n := Repo.count (fun v => where_status KycStatus.APPROVED v
                                     && KycLevel.eqb (level v) l) rows in
       if Z.eqb n 0 then []
       else [("level_" ++ Js.of_number (KycLevel.value l), n)])
    [KycLevel.NONE; KycLevel.BASIC; KycLevel.ENHANCED].

Definition provider_eqb (a b : KycProvider.t) : bool :=
  match a, b with
  | KycProvider.PERSONA, KycProvider.PERSONA
  | KycProvider.ONFIDO, KycProvider.ONFIDO => true
  | _, _ => false
  end.

(** [GROUP BY k.provider] over all rows. *)
Definition countByProvider (rows : list KycVerification)
  : list (string * Z) :=
  flat_map
    (fun p =>
       let n := Repo.count (fun v => provider_eqb (provider v) p) rows in
       if Z.eqb n 0 then [] else [(KycProvider.value p, n)])
    [KycProvider.PERSONA; KycProvider.ONFIDO].

(** Verifications expiring in the next 30 days:
    [{ status: APPROVED, expiresAt: LessThan(thirtyDaysFromNow) }]. *)
Definition where_renewal_due (env : Env) (v : KycVerification) : bool :=
  where_status KycStatus.APPROVED v
    && match expiresAt v with
       | Some e => Z.ltb e (now env + 30 * 24 * 60 * 60 * 1000)
       | None => false
       end.

Definition generateComplianceReport (env : Env) : M ComplianceReportDto :=
  gets (fun w =>
          let rows := kycRepo w in
          {| reportDate := now env;
             totalVerifications := Repo.count (fun _ => true) rows;
             report_approved := Repo.count (where_status KycStatus.APPROVED) rows;
             report_pending := Repo.count (where_status KycStatus.PENDING) rows;
             report_rejected := Repo.count (where_status KycStatus.REJECTED) rows;
             report_expired := Repo.count (where_status KycStatus.EXPIRED) rows;
             byLevel := countByLevel rows;
             byProvider := countByProvider rows;
             renewalsDue := Repo.count (where_renewal_due env) rows |}).

End KycService.

(* ------------------------------------------------------------------------- *)
(** ** KycGuard *)

Module KycGuard.

Definition level_message (requiredLevel activeLevel : KycLevel.t) : string :=
  "This action requires KYC Level "
    ++ Js.of_number (KycLevel.value requiredLevel)
    ++ ". Your current level is "
    ++ Js.of_number (KycLevel.value activeLevel) ++ ". "
    ++ "Please complete identity verification to proceed.".

(** What [RequireKycLevel] and [RequireKycAmount] were written with at one
    place of a controller; [None]: the decorator is not written there. *)
Record Decorators : Type := mkDecorators {
  RequireKycLevel : option KycLevel.t;
  RequireKycAmount : option Z
}.

(** A route: the decorators on its handler method and those on its
    controller class. *)
Record Route : Type := mkRoute {
  on_handler : Decorators;
  on_class : Decorators
}.

(** [Reflect.getMetadata(key, context.getHandler())].  Both decorators are
    [Reflect.metadata(key, value)]: written on a method, it records the value
    for the prototype of the class and the name of the method, whereas this
    lookup asks for the metadata of the function object itself, which has
    none. *)
Definition handler_metadata {A} (written : option A) : option A := None.

(** [Reflect.getMetadata(key, context.getClass())]: written on a class,
    [Reflect.metadata(key, value)] records the value for the constructor,
    where this lookup finds it. *)
Definition class_metadata {A} (written : option A) : option A := written.

(** [reflector.getAllAndOverride(key, [handler, class])]: the first of the
    two lookups that is defined. *)
Definition getAllAndOverride {A} (of_handler of_class : option A)
  : option A :=
  match of_handler with
  | Some value => Some value
  | None => of_class
  end.

(** [userId] is [request.user?.id]. *)
Definition canActivate (env : Env) (route : Route) (userId : option string)
  : M bool :=
  let requiredLevel :=
    getAllAndOverride
      (handler_metadata (RequireKycLevel (on_handler route)))
      (class_metadata (RequireKycLevel (on_class route))) in
  let requiredAmount :=
    getAllAndOverride
      (handler_metadata (RequireKycAmount (on_handler route)))
      (class_metadata (RequireKycAmount (on_class route))) in
  match requiredLevel, requiredAmount with
  | None, None => ret true
  | _, _ =>
      if negb (Js.truthy userId) then ret true
      else
        let u := match userId with Some u => u | None => EmptyString end in
        activeLevel <- KycService.getActiveKycLevel env u ;;
        match requiredLevel with
        | Some required =>
            if Z.ltb (KycLevel.value activeLevel) (KycLevel.value required)
            then throw (ForbiddenException (level_message required activeLevel))
            else ret tt
        | None => ret tt
        end ;;;
        match requiredAmount with
        | Some amount =>
            _ <- KycService.checkMonthlyLimit env u amount ;; ret tt
        | None => ret tt
        end ;;;
        ret true
  end.

End KycGuard.

(* ------------------------------------------------------------------------- *)
(** ** KycController *)

Module KycController.

(** [(req.headers['x-forwarded-for'] as string)?.split(',')[0] ?? req.ip] *)
Definition clientIp (forwardedFor ip : option string) : option string :=
  match forwardedFor with
  | Some header => Some (hd EmptyString (Js.split "," header))
  | None => ip
  end.

Definition startKyc (env : Env) (userId : string) (dto : StartKycDto)
  (forwardedFor ip : option string) : M StartKycResponseDto.t :=
  KycService.startKyc env userId dto (clientIp forwardedFor ip).

Definition getMyLevel (env : Env) (userId : string) : M KycLevel.t :=
  KycService.getActiveKycLevel env userId.

Definition getMyLimits (env : Env) (userId : string) : M KycLimitDto :=
  KycService.checkMonthlyLimit env userId 0.

Definition manualReview (env : Env) (verificationId : string)
  (dto : ManualReviewDto) (forwardedFor ip : option string)
  : M KycVerification :=
  KycService.manualReview env verificationId dto (clientIp forwardedFor ip).

End KycController.

(* ------------------------------------------------------------------------- *)
(** ** Sample environments and tables, used to run the model *)

Module Sample.

(** Stands for the keyed digest in the runs below; the theorems hold for
    every [Env], hence for the real HMAC-SHA256. *)
Definition digest : string :=
  "00112233445566778899aabbccddeeff00112233445566778899aabbccddeeff".

Definition env_with (persona : Http (string * string))
  (onfido_run : Http string) (t : Z) : Env :=
  {| now := t;
     uuid := "v-new";
     persona_inquiries := fun _ _ _ => persona;
     persona_resume := fun _ => Ok "tok-resumed";
     onfido_applicants := fun _ => Ok "app-1";
     onfido_workflow_runs := fun _ => onfido_run;
     onfido_sdk_token := fun _ => Ok "sdk-1";
     hmac_sha256_hex := fun _ _ => digest;
     PERSONA_WEBHOOK_SECRET := "whsec" |}.

Definition env (t : Z) : Env :=
  env_with (Ok ("inq-1", "tok-1")) (Ok "wfr-1") t.

Definition row (key user : string) (l : KycLevel.t) (s : KycStatus.t)
  (p : KycProvider.t) (inquiry : option string) (expires : option Z)
  : KycVerification :=
  {| id := key; userId := user; level := l; status := s; provider := p;
     verificationId := None; inquiryId := inquiry; sessionToken := None;
     approvedAt := option_map (fun e => e - VERIFICATION_TTL_MS) expires;
     expiresAt := expires; rejectionReason := None; providerMetadata := [];
     attemptCount := 1; createdAt := 0; updatedAt := 0 |}.

Definition world (rows : list KycVerification) : World :=
  {| kycRepo := rows; auditRepo := []; emitted := []; requests := [] |}.

Definition result (s : ResultStatus) (reasons : list string)
  : VerificationResult.t :=
  {| VerificationResult.status := s;
     VerificationResult.verificationId := "ver-1";
     VerificationResult.declinedReasons := reasons;
     VerificationResult.providerMetadata := [] |}.

Definition statuses (w : World) : list (string * KycStatus.t) :=
  map (fun v => (id v, status v)) (kycRepo w).

(** BASIC, approved, valid until instant 100. *)
Definition basic_until_100 : KycVerification :=
  row "v1" "u1" KycLevel.BASIC KycStatus.APPROVED KycProvider.PERSONA
      (Some "inq-0") (Some 100).

(** ENHANCED, approved, valid until instant 500. *)
Definition enhanced_until_500 : KycVerification :=
  row "v2" "u1" KycLevel.ENHANCED KycStatus.APPROVED KycProvider.PERSONA
      (Some "inq-9") (Some 500).

(** BASIC, pending with Onfido, workflow run stored. *)
Definition pending_onfido : KycVerification :=
  row "v3" "u1" KycLevel.BASIC KycStatus.PENDING KycProvider.ONFIDO
      (Some "wfr-7") None.

(** BASIC, rejected. *)
Definition rejected_basic : KycVerification :=
  row "v4" "u1" KycLevel.BASIC KycStatus.REJECTED KycProvider.PERSONA
      (Some "inq-4") None.

(** BASIC, pending, no provider session yet. *)
Definition pending_fresh : KycVerification :=
  row "v5" "u1" KycLevel.BASIC KycStatus.PENDING KycProvider.PERSONA
      None None.

Definition enhanced_persona : StartKycDto :=
  {| targetLevel := KycLevel.ENHANCED; dto_provider := None;
     redirectUrl := None |}.

Definition basic_with (p : KycProvider.t) : StartKycDto :=
  {| targetLevel := KycLevel.BASIC; dto_provider := Some p;
     redirectUrl := None |}.

(** An Onfido workflow-run webhook for run [run] in raw status [raw]. *)
Definition onfido_payload (run raw : string) (reasons : option (list string))
  : OnfidoPayload :=
  {| resource_type := Some "workflow_run";
     payload_object :=
       Some {| run_id := Some run;
               run_applicant_id := Some "app-1";
               run_status := Some raw;
               run_workflow_id := Some "wf-1";
               run_completed_at := None;
               run_output :=
                 Some {| output_result := None;
                         output_reasons := reasons;
                         output_json := JObject [] |} |} |}.


(** BASIC, rejected for a blurry document. *)
Definition rejected_blurry : KycVerification :=
  {| id := "v6"; userId := "u1"; level := KycLevel.BASIC;
     status := KycStatus.REJECTED; provider := KycProvider.PERSONA;
     verificationId := Some "ver-6"; inquiryId := Some "inq-6";
     sessionToken := None; approvedAt := None; expiresAt := None;
     rejectionReason := Some "document blurry"; providerMetadata := [];
     attemptCount := 1; createdAt := 0; updatedAt := 10 |}.


End Sample.

(* ------------------------------------------------------------------------- *)
(** ** Predicates of the statements *)

(** [b] does not rank above [a]: the order of [level: 'DESC']. *)
Definition not_above (a b : KycVerification) : Prop :=
  KycLevel.le (level b) (level a).

(** What no update of a record may change: its keys, its owner, its level,
    its provider, its attempt number and its creation stamp. *)
Definition identity_of (v : KycVerification)
  : string * string * KycLevel.t * KycProvider.t * Z * Z :=
  (id v, userId v, level v, provider v, attemptCount v, createdAt v).

(** [a] may stand before [b] in the status list of a user: a higher level
    first, and within a level the later creation first. *)
Definition listed_before (a b : KycVerification) : Prop :=
  KycLevel.value (level b) < KycLevel.value (level a)
  \/ (KycLevel.value (level a) = KycLevel.value (level b)
      /\ createdAt b <= createdAt a).

(** The sum of the counts of a grouped query. *)
Definition total_of (groups : list (string * Z)) : Z :=
  fold_right Z.add 0 (map snd groups).

(** Two worlds with the same tables and the same published events; they
    may differ in the requests sent to the providers. *)
Definition same_tables (w1 w2 : World) : Prop :=
  kycRepo w1 = kycRepo w2 /\ auditRepo w1 = auditRepo w2
  /\ emitted w1 = emitted w2.

(* ------------------------------------------------------------------------- *)
(** ** Proof support *)

(** Unfolds the monad of the service down to functions on worlds. *)
Ltac run :=
  cbv beta iota delta [bind ret throw gets modify try_catch emit
                       KycService.audit KycService.auditRepo_save] in *.

(** Proves that a table written out row by row has a primary key. *)
Ltac primary_key :=
  repeat constructor; cbn; intuition discriminate.

(* ------------------------------------------------------------------------- *)
(** ** Enumerations and rows *)

Lemma KycStatus_eqb_spec a b : reflect (a = b) (KycStatus.eqb a b).
Proof. destruct a, b; simpl; constructor; congruence. Qed.

Lemma KycStatus_eqb_eq a b : KycStatus.eqb a b = true <-> a = b.
Proof. destruct (KycStatus_eqb_spec a b); split; congruence. Qed.

Lemma KycLevel_eqb_eq a b : KycLevel.eqb a b = true <-> a = b.
Proof. destruct a, b; cbv; split; congruence. Qed.

Lemma toExpired_idempotent t v :
  Repo.touch t (Repo.assign (Repo.touch t (Repo.assign v KycService.toExpired))
                  KycService.toExpired)
  = Repo.touch t (Repo.assign v KycService.toExpired).
Proof. reflexivity. Qed.

(** A world is its four components. *)
Lemma World_eta w :
  {| kycRepo := kycRepo w; auditRepo := auditRepo w;
     emitted := emitted w; requests := requests w |} = w.
Proof. now destruct w. Qed.

(* ------------------------------------------------------------------------- *)
(** ** The repository *)

Section RepoFacts.

Variable t : Z.
Variable key : string.
Variable u : Repo.Updates.

Lemma update_In_key rows v' :
  In v' (Repo.update t key u rows) -> id v' = key ->
  exists v, In v rows /\ id v = key /\ v' = Repo.touch t (Repo.assign v u).
Proof.
  unfold Repo.update. rewrite in_map_iff. intros [v [Hv Hin]] Hid.
  destruct (String.eqb (id v) key) eqn:E.
  - apply String.eqb_eq in E. exists v. auto.
  - subst v'. apply String.eqb_neq in E. contradiction.
Qed.

Lemma update_In_same rows v :
  In v rows -> id v = key ->
  In (Repo.touch t (Repo.assign v u)) (Repo.update t key u rows).
Proof.
  intros Hin Hid. unfold Repo.update. apply in_map_iff. exists v.
  split; [| assumption].
  subst key. now rewrite String.eqb_refl.
Qed.

End RepoFacts.

Lemma findOne_None where_ rows :
  Repo.findOne where_ rows = None <->
  forall v, In v rows -> where_ v = false.
Proof.
  unfold Repo.findOne. split.
  - intros H v Hin. exact (find_none _ _ H v Hin).
  - induction rows as [| x rows IH]; simpl; intros H; [reflexivity |].
    rewrite (H x (or_introl eq_refl)). apply IH. intros v Hv. apply H. now right.
Qed.

Lemma findOne_Some where_ rows v :
  Repo.findOne where_ rows = Some v -> In v rows /\ where_ v = true.
Proof. apply find_some. Qed.

Lemma primary_key_unique rows a b :
  NoDup (map id rows) -> In a rows -> In b rows -> id a = id b -> a = b.
Proof.
  induction rows as [| x rows IH]; simpl; [tauto |].
  intros Hnd Ha Hb Hid. inversion Hnd as [| ? ? Hnotin Hnd']; subst.
  destruct Ha as [-> | Ha], Hb as [-> | Hb]; auto.
  - exfalso. apply Hnotin. rewrite Hid. now apply in_map.
  - exfalso. apply Hnotin. rewrite <- Hid. now apply in_map.
Qed.

(** Updating by the primary key of each row of [l] in turn, with updates
    that are idempotent, is one pass over the table. *)
Lemma fold_update_map t u l :
  (forall v, Repo.touch t (Repo.assign (Repo.touch t (Repo.assign v u)) u)
             = Repo.touch t (Repo.assign v u)) ->
  forall rows,
    fold_left (fun rows x => Repo.update t (id x) u rows) l rows
    = map (fun r => if existsb (fun x => String.eqb (id r) (id x)) l
                    then Repo.touch t (Repo.assign r u) else r) rows.
Proof.
  intros Hidem. induction l as [| x l IH]; intros rows; simpl.
  - symmetry. apply map_id.
  - rewrite IH. unfold Repo.update. rewrite map_map. apply map_ext.
    intros r. destruct (String.eqb (id r) (id x)); simpl; [| reflexivity].
    rewrite Hidem. now destruct (existsb _ l).
Qed.

(* ------------------------------------------------------------------------- *)
(** ** The expiry sweep *)

Section Sweep.

Variable env : Env.

Let overdue := KycService.where_approved_expired env.

Lemma where_approved_expired_spec v :
  KycService.where_approved_expired env v = true <->
  status v = KycStatus.APPROVED /\
  exists e, expiresAt v = Some e /\ e < now env.
Proof.
  unfold KycService.where_approved_expired.
  rewrite andb_true_iff, KycStatus_eqb_eq.
  destruct (expiresAt v) as [e |].
  - rewrite Z.ltb_lt. split.
    + intros [Hs He]. split; [assumption |]. now exists e.
    + intros [Hs [e' [He' Hlt]]]. inversion He'; subst. now split.
  - split.
    + intros [_ H]. discriminate.
    + intros [_ [e [H _]]]. discriminate.
Qed.

Lemma expired_row_not_overdue v :
  overdue (Repo.touch (now env) (Repo.assign v KycService.toExpired)) = false.
Proof. reflexivity. Qed.

(** The loop, run over any list of rows. *)
Lemma for_of_expireOne l : forall w,
  for_of l (KycService.expireOne env) w
  = (inr tt,
     {| kycRepo :=
          fold_left
            (fun rows x => Repo.update (now env) (id x) KycService.toExpired rows)
            l (kycRepo w);
        auditRepo :=
          auditRepo w
            ++ map (fun v =>
                      {| log_userId := userId v;
                         log_verificationId := Some (id v);
                         log_action := KycAuditAction.EXPIRED;
                         log_details :=
                           [ ("expiredAt", JOptDate (expiresAt v));
                             ("level", JNumber (KycLevel.value (level v))) ];
                         log_ipAddress := None;
                         log_createdAt := now env |}) l;
        emitted :=
          emitted w
            ++ map (fun v =>
                      (KYC_EVENTS.EXPIRED,
                       [ ("userId", JString (userId v));
                         ("level", JNumber (KycLevel.value (level v)));
                         ("verificationId", JString (id v)) ])) l;
        requests := requests w |}).
Proof.
  induction l as [| x l IH]; intros w.
  - simpl. unfold ret. rewrite !app_nil_r. now rewrite World_eta.
  - cbn [for_of]. unfold bind at 1.
    unfold KycService.expireOne. run. cbn [fst snd].
    rewrite IH. cbn. now rewrite <- !app_assoc.
Qed.

(** With a primary key, a row is updated by the loop exactly when it was
    found by the query. *)
Lemma found_by_key rows r :
  NoDup (map id rows) -> In r rows ->
  existsb (fun x => String.eqb (id r) (id x)) (filter overdue rows)
  = overdue r.
Proof.
  intros Hnd Hin. destruct (overdue r) eqn:Hr.
  - apply existsb_exists. exists r. split.
    + apply filter_In. now split.
    + apply String.eqb_refl.
  - destruct (existsb _ _) eqn:E; [| reflexivity].
    apply existsb_exists in E. destruct E as [x [Hx Heq]].
    apply filter_In in Hx. destruct Hx as [Hx Hov].
    apply String.eqb_eq in Heq.
    rewrite (primary_key_unique rows r x Hnd Hin Hx Heq) in Hr. congruence.
Qed.

(** Whatever the keys, no row the loop leaves behind is overdue. *)
Lemma nothing_overdue_after sel rows :
  incl (filter overdue rows) sel ->
  filter overdue
    (map (fun r =>
            if existsb (fun x => String.eqb (id r) (id x)) sel
            then Repo.touch (now env) (Repo.assign r KycService.toExpired)
            else r) rows)
  = [].
Proof.
  induction rows as [| r rows IH]; intros Hsel; [reflexivity |].
  cbn [map filter].
  assert (Hrest : incl (filter overdue rows) sel).
  { intros x Hx. apply Hsel. cbn [filter].
    destruct (overdue r); [now right | assumption]. }
  destruct (existsb (fun x => String.eqb (id r) (id x)) sel) eqn:E.
  - rewrite expired_row_not_overdue. now apply IH.
  - destruct (overdue r) eqn:Hr; [| now apply IH].
    exfalso. assert (Hin : In r sel).
    { apply Hsel. cbn [filter]. rewrite Hr. now left. }
    assert (existsb (fun x => String.eqb (id r) (id x)) sel = true).
    { apply existsb_exists. exists r. split; [assumption |].
      apply String.eqb_refl. }
    congruence.
Qed.

Lemma expireVerifications_run w :
  KycService.expireVerifications env w
  = for_of (filter overdue (kycRepo w)) (KycService.expireOne env) w.
Proof. reflexivity. Qed.

Lemma sweep_kycRepo w :
  kycRepo (snd (KycService.expireVerifications env w))
  = map (fun r =>
           if existsb (fun x => String.eqb (id r) (id x))
                      (filter overdue (kycRepo w))
           then Repo.touch (now env) (Repo.assign r KycService.toExpired)
           else r) (kycRepo w).
Proof.
  rewrite expireVerifications_run, for_of_expireOne. cbn [snd kycRepo].
  apply fold_update_map. intros v. apply toExpired_idempotent.
Qed.

Lemma sweep_twice w :
  let w' := snd (KycService.expireVerifications env w) in
  KycService.expireVerifications env w' = (inr tt, w').
Proof.
  intros w'. rewrite expireVerifications_run.
  assert (Hnone : filter overdue (kycRepo w') = []).
  { subst w'. rewrite sweep_kycRepo. apply nothing_overdue_after.
    apply incl_refl. }
  rewrite Hnone. reflexivity.
Qed.

End Sweep.

(** C5, as stated, fails at the boundary: a record whose [expiresAt] equals
    the instant of the sweep satisfies [expiresAt <= now] and is APPROVED,
    yet the sweep does not select it: the table, the audit log and the events
    are left as they were. *)
Lemma sweep_skips_record_expiring_now :
  status Sample.basic_until_100 = KycStatus.APPROVED /\
  expiresAt Sample.basic_until_100 = Some 100 /\
  100 <= now (Sample.env 100) /\
  KycService.expireVerifications (Sample.env 100)
    (Sample.world [Sample.basic_until_100])
  = (inr tt, Sample.world [Sample.basic_until_100]).
Proof.
  split; [reflexivity |]. split; [reflexivity |].
  split; [cbn; lia | reflexivity].
Qed.

(** C5, amended: the expiry sweep selects exactly the APPROVED records with
    [expiresAt < now] (strictly; a null [expiresAt] never matches).  On a
    table with a primary key it turns each selected record to EXPIRED,
    keeping its other columns but the update stamp, leaves every other record
    as it is, appends one EXPIRED audit entry and one EXPIRED event per
    selected record, in the order of the table, and sends nothing to the
    providers.  Running it again at once on the resulting world changes
    nothing: no record matches the filter any more. *)
Theorem sweep_expires_overdue_and_is_idempotent (env : Env) (w : World) :
  NoDup (map id (kycRepo w)) ->
  let expire v := Repo.touch (now env) (Repo.assign v KycService.toExpired) in
  let selected := filter (KycService.where_approved_expired env) (kycRepo w) in
  (forall v,
      KycService.where_approved_expired env v = true <->
      status v = KycStatus.APPROVED /\
      exists e, expiresAt v = Some e /\ e < now env) /\
  (forall v,
      status (expire v) = KycStatus.EXPIRED /\ id (expire v) = id v /\
      userId (expire v) = userId v /\ level (expire v) = level v /\
      approvedAt (expire v) = approvedAt v /\
      expiresAt (expire v) = expiresAt v) /\
  exists w',
    KycService.expireVerifications env w = (inr tt, w') /\
    kycRepo w'
    = map (fun v => if KycService.where_approved_expired env v
                    then expire v else v) (kycRepo w) /\
    auditRepo w'
    = (auditRepo w
        ++ map (fun v =>
                  {| log_userId := userId v;
                     log_verificationId := Some (id v);
                     log_action := KycAuditAction.EXPIRED;
                     log_details :=
                       [ ("expiredAt", JOptDate (expiresAt v));
                         ("level", JNumber (KycLevel.value (level v))) ];
                     log_ipAddress := None;
                     log_createdAt := now env |}) selected)%list /\
    emitted w'
    = (emitted w
        ++ map (fun v =>
                  (KYC_EVENTS.EXPIRED,
                   [ ("userId", JString (userId v));
                     ("level", JNumber (KycLevel.value (level v)));
                     ("verificationId", JString (id v)) ])) selected)%list /\
    requests w' = requests w /\
    KycService.expireVerifications env w' = (inr tt, w').
Proof.
  intros Hkey expire selected.
  split; [apply where_approved_expired_spec |].
  split; [intros v; repeat split |].
  exists (snd (KycService.expireVerifications env w)).
  split; [rewrite expireVerifications_run, for_of_expireOne; reflexivity |].
  split.
  { rewrite sweep_kycRepo. apply map_ext_in. intros r Hr.
    now rewrite (found_by_key env (kycRepo w) r Hkey Hr). }
  rewrite expireVerifications_run at 1 2 3.
  rewrite for_of_expireOne. cbn [snd auditRepo emitted requests].
  repeat split. apply sweep_twice.
Qed.

Lemma sweep_expires_overdue_and_is_idempotent_witness :
  NoDup (map id (kycRepo (Sample.world
                            [Sample.basic_until_100; Sample.enhanced_until_500;
                             Sample.pending_onfido]))) /\
  exists w',
    KycService.expireVerifications (Sample.env 101)
      (Sample.world [Sample.basic_until_100; Sample.enhanced_until_500;
                     Sample.pending_onfido])
    = (inr tt, w') /\
    Sample.statuses w'
    = [("v1", KycStatus.EXPIRED); ("v2", KycStatus.APPROVED);
       ("v3", KycStatus.PENDING)] /\
    KycService.expireVerifications (Sample.env 101) w' = (inr tt, w').
Proof.
  assert (Hkey : NoDup (map id (kycRepo (Sample.world
                            [Sample.basic_until_100; Sample.enhanced_until_500;
                             Sample.pending_onfido])))) by primary_key.
  split; [exact Hkey |].
  destruct (sweep_expires_overdue_and_is_idempotent (Sample.env 101) _ Hkey)
    as [_ [_ [w' [Hrun [Hrepo [_ [_ [_ Hagain]]]]]]]].
  exists w'. split; [exact Hrun |]. split; [| exact Hagain].
  unfold Sample.statuses. rewrite Hrepo. reflexivity.
Defined.

(* ------------------------------------------------------------------------- *)
(** ** Applying a provider result, manual review *)

Section Transitions.

Variable env : Env.

Lemma applyVerificationResult_returns verification result w :
  fst (KycService.applyVerificationResult env verification result w) = inr tt.
Proof.
  unfold KycService.applyVerificationResult, KycService.resultUpdates. run.
  now destruct (VerificationResult.status result).
Qed.

Lemma applyVerificationResult_kycRepo verification result w :
  kycRepo (snd (KycService.applyVerificationResult env verification result w))
  = Repo.update (now env) (id verification)
      (KycService.resultUpdates env result) (kycRepo w).
Proof.
  unfold KycService.applyVerificationResult, KycService.resultUpdates. run.
  now destruct (VerificationResult.status result).
Qed.

Lemma applyUnmappedResult_run verification verificationId providerMetadata w :
  KycService.applyUnmappedResult env verification verificationId
    providerMetadata w
  = (inr tt,
     {| kycRepo :=
          Repo.update (now env) (id verification)
            (KycService.unmappedUpdates verificationId providerMetadata)
            (kycRepo w);
        auditRepo :=
          auditRepo w
            ++ [ {| log_userId := userId verification;
                    log_verificationId := Some (id verification);
                    log_action := KycAuditAction.STATUS_CHANGED;
                    log_details :=
                      [ ("from", JString (KycStatus.value (status verification)));
                        ("to", JUndefined);
                        ("verificationId", JString verificationId) ];
                    log_ipAddress := None;
                    log_createdAt := now env |} ];
        emitted := emitted w;
        requests := requests w |}).
Proof. reflexivity. Qed.

Lemma applyProviderResult_kycRepo verification mapped verificationId
  declinedReasons providerMetadata w :
  exists updates,
    kycRepo (snd (KycService.applyProviderResult env verification mapped
                    verificationId declinedReasons providerMetadata w))
    = Repo.update (now env) (id verification) updates (kycRepo w).
Proof.
  destruct mapped as [s | key]; cbn [KycService.applyProviderResult].
  - eexists. apply applyVerificationResult_kycRepo.
  - eexists. now rewrite applyUnmappedResult_run.
Qed.

Lemma manualReview_kycRepo key dto ip w verification :
  Repo.findOne (fun v => String.eqb (id v) key) (kycRepo w)
  = Some verification ->
  kycRepo (snd (KycService.manualReview env key dto ip w))
  = Repo.update (now env) key (KycService.reviewUpdates env dto) (kycRepo w).
Proof.
  intros Hfound. unfold KycService.manualReview. run. rewrite Hfound.
  now destruct (KycStatus.eqb (review_status dto) KycStatus.APPROVED).
Qed.

Lemma manualReview_not_found key dto ip w :
  Repo.findOne (fun v => String.eqb (id v) key) (kycRepo w) = None ->
  KycService.manualReview env key dto ip w = (inl EntityNotFoundError, w).
Proof.
  intros Hnone. unfold KycService.manualReview. run. now rewrite Hnone.
Qed.

End Transitions.

(** C1, as stated, fails: a REJECTED record to which an "approved" provider
    result is applied becomes APPROVED, and a manual review with status
    EXPIRED moves a PENDING record straight to EXPIRED. *)
Lemma terminal_records_are_moved_again :
  status Sample.rejected_basic = KycStatus.REJECTED /\
  Sample.statuses
    (snd (KycService.applyVerificationResult (Sample.env 200)
            Sample.rejected_basic (Sample.result approved [])
            (Sample.world [Sample.rejected_basic])))
  = [("v4", KycStatus.APPROVED)] /\
  status Sample.pending_fresh = KycStatus.PENDING /\
  Sample.statuses
    (snd (KycService.manualReview (Sample.env 200) "v5"
            {| reviewedBy := "admin"; review_status := KycStatus.EXPIRED;
               notes := None |}
            None (Sample.world [Sample.pending_fresh])))
  = [("v5", KycStatus.EXPIRED)].
Proof. repeat split. Qed.

(** C1, amended: on a table with a primary key the expiry sweep leaves every
    record that is not APPROVED exactly as it is, so it never changes an
    EXPIRED, REJECTED or PENDING record.  Applying a provider result gives the
    record the status mapped from the result whatever its current status was,
    and that status is never EXPIRED.  A manual review gives the record the
    requested status whatever its current status was. *)
Theorem status_is_overwritten_except_by_the_sweep (env : Env) (w : World) :
  (NoDup (map id (kycRepo w)) ->
   forall v, In v (kycRepo w) -> status v <> KycStatus.APPROVED ->
             In v (kycRepo (snd (KycService.expireVerifications env w)))) /\
  (forall verification result v',
      In v' (kycRepo (snd (KycService.applyVerificationResult
                             env verification result w))) ->
      id v' = id verification ->
      status v' = match VerificationResult.status result with
                  | approved => KycStatus.APPROVED
                  | declined => KycStatus.REJECTED
                  | needs_review => KycStatus.UNDER_REVIEW
                  | pending => KycStatus.PENDING
                  end
      /\ status v' <> KycStatus.EXPIRED) /\
  (forall key dto ip v',
      In v' (kycRepo (snd (KycService.manualReview env key dto ip w))) ->
      id v' = key ->
      status v' = review_status dto).
Proof.
  split; [| split].
  - intros Hkey v Hin Hstatus. rewrite sweep_kycRepo.
    apply in_map_iff. exists v. split; [| assumption].
    rewrite (found_by_key env (kycRepo w) v Hkey Hin).
    destruct (KycService.where_approved_expired env v) eqn:E; [| reflexivity].
    apply where_approved_expired_spec in E. tauto.
  - intros verification result v' Hin Hid.
    rewrite applyVerificationResult_kycRepo in Hin.
    destruct (update_In_key _ _ _ _ _ Hin Hid) as [v [_ [_ ->]]].
    unfold KycService.resultUpdates.
    destruct (VerificationResult.status result); cbn; split;
      (reflexivity || discriminate).
  - intros key dto ip v' Hin Hid.
    destruct (Repo.findOne (fun v => String.eqb (id v) key) (kycRepo w))
      as [verification |] eqn:Hfound.
    + rewrite (manualReview_kycRepo env key dto ip w verification Hfound) in Hin.
      destruct (update_In_key _ _ _ _ _ Hin Hid) as [v [_ [_ ->]]].
      reflexivity.
    + rewrite (manualReview_not_found env key dto ip w Hfound) in Hin.
      cbn [snd] in Hin.
      pose proof (proj1 (findOne_None _ _) Hfound v' Hin) as Hneq.
      cbn beta in Hneq. apply String.eqb_neq in Hneq. contradiction.
Qed.

Lemma status_is_overwritten_except_by_the_sweep_witness :
  In Sample.rejected_basic
     (kycRepo (snd (KycService.expireVerifications (Sample.env 1000)
                      (Sample.world
                         [Sample.basic_until_100; Sample.rejected_basic])))).
Proof.
  apply (proj1 (status_is_overwritten_except_by_the_sweep
                  (Sample.env 1000)
                  (Sample.world [Sample.basic_until_100; Sample.rejected_basic]))).
  - primary_key.
  - cbn. auto.
  - discriminate.
Defined.

(** C3, as stated, fails on one input shape: a declined result whose list of
    reasons is not empty but holds a single empty string.  The joined string
    is then empty, and the record gets the default reason, not the joined
    one. *)
Lemma declined_with_an_empty_reason_gets_the_default :
  [EmptyString] <> [] /\
  Js.join "; " [EmptyString] = EmptyString /\
  map rejectionReason
    (kycRepo (snd (KycService.applyVerificationResult (Sample.env 200)
                     Sample.pending_fresh (Sample.result declined [EmptyString])
                     (Sample.world [Sample.pending_fresh]))))
  = [Some "Verification declined"].
Proof. split; [discriminate |]. split; reflexivity. Qed.

(** C3, amended: applying a canonical provider result to a record returns
    normally and maps the result status as follows.  approved sets status
    APPROVED with [approvedAt = now] and [expiresAt = now + 365 days];
    declined sets status REJECTED with [rejectionReason] equal to the declined
    reasons joined with "; " when that joined string is not empty, and to the
    default "Verification declined" when it is empty, as it is for the empty
    list; needs_review sets UNDER_REVIEW; pending sets PENDING. *)
Theorem applyVerificationResult_maps_the_result
  (env : Env) (verification : KycVerification) (result : VerificationResult.t)
  (w : World) :
  let w' := snd (KycService.applyVerificationResult env verification result w) in
  let joined := Js.join "; " (VerificationResult.declinedReasons result) in
  fst (KycService.applyVerificationResult env verification result w) = inr tt /\
  (In verification (kycRepo w) ->
   exists v', In v' (kycRepo w') /\ id v' = id verification) /\
  forall v',
    In v' (kycRepo w') -> id v' = id verification ->
    match VerificationResult.status result with
    | approved =>
        status v' = KycStatus.APPROVED /\
        approvedAt v' = Some (now env) /\
        expiresAt v' = Some (now env + 365 * (24 * 60 * 60 * 1000))
    | declined =>
        status v' = KycStatus.REJECTED /\
        (joined <> EmptyString -> rejectionReason v' = Some joined) /\
        (joined = EmptyString ->
         rejectionReason v' = Some "Verification declined") /\
        (VerificationResult.declinedReasons result = [] ->
         rejectionReason v' = Some "Verification declined")
    | needs_review => status v' = KycStatus.UNDER_REVIEW
    | pending => status v' = KycStatus.PENDING
    end.
Proof.
  intros w' joined. subst w'.
  split; [apply applyVerificationResult_returns |].
  rewrite applyVerificationResult_kycRepo. split.
  - intros Hin. eexists. split.
    + apply update_In_same; [exact Hin | reflexivity].
    + reflexivity.
  - intros v' Hin Hid.
    destruct (update_In_key _ _ _ _ _ Hin Hid) as [v [_ [_ ->]]].
    unfold KycService.resultUpdates.
    destruct (VerificationResult.status result) eqn:Hs; cbn.
    + repeat split.
    + fold joined. unfold Js.or_else.
      split; [reflexivity |]. split; [| split].
      * intros Hne. apply String.eqb_neq in Hne. now rewrite Hne.
      * intros ->. reflexivity.
      * intros Hnil. subst joined. rewrite Hnil. reflexivity.
    + reflexivity.
    + reflexivity.
Qed.

Lemma applyVerificationResult_maps_the_result_witness :
  exists v',
    In v' (kycRepo (snd (KycService.applyVerificationResult (Sample.env 200)
                           Sample.pending_fresh (Sample.result approved [])
                           (Sample.world [Sample.pending_fresh])))) /\
    status v' = KycStatus.APPROVED /\
    approvedAt v' = Some 200 /\
    expiresAt v' = Some (200 + 31536000000).
Proof.
  destruct (applyVerificationResult_maps_the_result (Sample.env 200)
              Sample.pending_fresh (Sample.result approved [])
              (Sample.world [Sample.pending_fresh]))
    as [_ [Hex Hall]].
  destruct Hex as [v' [Hin Hid]]; [cbn; auto |].
  exists v'. split; [exact Hin |]. exact (Hall v' Hin Hid).
Defined.

(* ------------------------------------------------------------------------- *)
(** ** The active level *)

Section Ordering.

Lemma insert_by_level_desc_perm v l :
  Permutation (Repo.insert_by_level_desc v l) (v :: l).
Proof.
  induction l as [| x l IH]; cbn [Repo.insert_by_level_desc].
  - apply Permutation_refl.
  - destruct (KycLevel.leb (level x) (level v)).
    + apply Permutation_refl.
    + eapply perm_trans; [apply perm_skip, IH | apply perm_swap].
Qed.

Lemma order_by_level_desc_perm rows :
  Permutation (Repo.order_by_level_desc rows) rows.
Proof.
  induction rows as [| v rows IH]; cbn; [constructor |].
  eapply perm_trans; [apply insert_by_level_desc_perm |].
  now apply perm_skip.
Qed.

Lemma insert_by_level_desc_sorted v l :
  StronglySorted not_above l ->
  StronglySorted not_above (Repo.insert_by_level_desc v l).
Proof.
  induction 1 as [| x l Hsorted IH Hall]; cbn [Repo.insert_by_level_desc].
  - repeat constructor.
  - destruct (KycLevel.leb (level x) (level v)) eqn:E;
      unfold KycLevel.leb in E.
    + apply Z.leb_le in E. constructor; [now constructor |].
      constructor; [exact E |].
      eapply Forall_impl; [| exact Hall].
      intros b Hb. unfold not_above, KycLevel.le in *. lia.
    + apply Z.leb_gt in E. constructor; [exact IH |].
      eapply Permutation_Forall;
        [apply Permutation_sym, insert_by_level_desc_perm |].
      constructor; [| exact Hall].
      unfold not_above, KycLevel.le. lia.
Qed.

Lemma order_by_level_desc_sorted rows :
  StronglySorted not_above (Repo.order_by_level_desc rows).
Proof.
  induction rows as [| v rows IH]; cbn; [constructor |].
  now apply insert_by_level_desc_sorted.
Qed.

End Ordering.

Section ActiveLevel.

Variable env : Env.

Lemma unexpired_spec v :
  KycService.unexpired env v = true <->
  expiresAt v = None \/ exists e, expiresAt v = Some e /\ now env < e.
Proof.
  unfold KycService.unexpired. destruct (expiresAt v) as [e |].
  - rewrite Z.ltb_lt. split.
    + intros H. right. now exists e.
    + intros [H | [e' [H Hlt]]]; [discriminate |]. now inversion H; subst.
  - split; [now left | reflexivity].
Qed.

Lemma highestUnexpired_find rows :
  KycService.highestUnexpired env rows
  = match find (KycService.unexpired env) rows with
    | Some v => level v
    | None => KycLevel.NONE
    end.
Proof.
  induction rows as [| v rows IH]; cbn; [reflexivity |].
  now destruct (KycService.unexpired env v).
Qed.

(** In a list in descending order the first hit of a search ranks highest
    among all hits. *)
Lemma first_hit_ranks_highest (p : KycVerification -> bool) rows :
  StronglySorted not_above rows ->
  forall v, find p rows = Some v ->
  forall v', In v' rows -> p v' = true -> not_above v v'.
Proof.
  induction 1 as [| x l Hsorted IH Hall]; cbn; [discriminate |].
  intros v Hfind v' Hin Hp. destruct (p x) eqn:Hx.
  - inversion Hfind; subst. destruct Hin as [-> | Hin].
    + unfold not_above, KycLevel.le. lia.
    + rewrite Forall_forall in Hall. now apply Hall.
  - destruct Hin as [-> | Hin]; [congruence |]. now apply (IH v).
Qed.

Lemma where_user_status_spec u s v :
  KycService.where_user_status u s v = true <->
  userId v = u /\ status v = s.
Proof.
  unfold KycService.where_user_status.
  now rewrite andb_true_iff, String.eqb_eq, KycStatus_eqb_eq.
Qed.

Lemma getActiveKycLevel_run u w :
  KycService.getActiveKycLevel env u w
  = (inr (KycService.highestUnexpired env
            (Repo.order_by_level_desc
               (Repo.find (KycService.where_user_status u KycStatus.APPROVED)
                          (kycRepo w)))),
     w).
Proof. reflexivity. Qed.

End ActiveLevel.

(** C4: the active-level lookup takes the APPROVED records of the user in
    descending level order and returns the level of the first whose
    [expiresAt] is null or in the future, NONE when there is none.  Hence the
    result is the highest level among the user's APPROVED records that are
    still valid; a record with [expiresAt <= now] is skipped although the
    lookup writes nothing, so that its stored status is still APPROVED. *)
Theorem getActiveKycLevel_highest_valid_approved
  (env : Env) (u : string) (w : World) :
  let valid v :=
    expiresAt v = None \/ exists e, expiresAt v = Some e /\ now env < e in
  let mine v :=
    In v (kycRepo w) /\ userId v = u /\ status v = KycStatus.APPROVED in
  exists rows lvl,
    KycService.getActiveKycLevel env u w = (inr lvl, w) /\
    (forall v, In v rows <-> mine v) /\
    Permutation rows
      (filter (KycService.where_user_status u KycStatus.APPROVED) (kycRepo w)) /\
    StronglySorted (fun a b => KycLevel.value (level b) <= KycLevel.value (level a))
      rows /\
    (forall v, KycService.unexpired env v = true <-> valid v) /\
    lvl = match find (KycService.unexpired env) rows with
          | Some v => level v
          | None => KycLevel.NONE
          end /\
    (forall v, mine v -> valid v ->
               KycLevel.value (level v) <= KycLevel.value lvl) /\
    ((exists v, mine v /\ valid v) ->
     exists v, mine v /\ valid v /\ level v = lvl) /\
    ((forall v, mine v -> ~ valid v) -> lvl = KycLevel.NONE) /\
    (forall v e, mine v -> expiresAt v = Some e -> e <= now env ->
                 ~ valid v /\ KycService.unexpired env v = false /\
                 In v (kycRepo (snd (KycService.getActiveKycLevel env u w)))).
Proof.
  intros valid mine.
  set (found := filter (KycService.where_user_status u KycStatus.APPROVED)
                       (kycRepo w)).
  set (rows := Repo.order_by_level_desc found).
  assert (Hperm : Permutation rows found) by apply order_by_level_desc_perm.
  assert (Hsorted : StronglySorted not_above rows)
    by apply order_by_level_desc_sorted.
  assert (Hmine : forall v, In v rows <-> mine v).
  { intros v. unfold mine. split.
    - intros Hin. apply (Permutation_in _ Hperm) in Hin.
      apply filter_In in Hin. destruct Hin as [Hin Hw].
      apply where_user_status_spec in Hw. tauto.
    - intros [Hin [Hu Hs]]. apply (Permutation_in _ (Permutation_sym Hperm)).
      apply filter_In. split; [assumption |].
      apply where_user_status_spec. now split. }
  exists rows.
  exists (match find (KycService.unexpired env) rows with
          | Some v => level v
          | None => KycLevel.NONE
          end).
  split; [rewrite getActiveKycLevel_run, highestUnexpired_find; reflexivity |].
  split; [exact Hmine |]. split; [exact Hperm |]. split; [exact Hsorted |].
  split; [apply unexpired_spec |]. split; [reflexivity |].
  destruct (find (KycService.unexpired env) rows) as [top |] eqn:Hfind.
  - destruct (find_some _ _ Hfind) as [Htop Hvalid].
    split; [| split; [| split]].
    + intros v Hv Hval. apply Hmine in Hv. apply unexpired_spec in Hval.
      exact (first_hit_ranks_highest _ rows Hsorted top Hfind v Hv Hval).
    + intros _. exists top. split; [now apply Hmine |].
      split; [now apply unexpired_spec | reflexivity].
    + intros Hnone. exfalso. apply (Hnone top); [now apply Hmine |].
      now apply unexpired_spec.
    + intros v e Hv He Hle. split; [| split].
      * intros [H | [e' [H Hlt]]]; [congruence |].
        rewrite He in H. inversion H; subst. lia.
      * unfold KycService.unexpired. rewrite He. apply Z.ltb_ge. exact Hle.
      * rewrite getActiveKycLevel_run. cbn [snd]. apply Hv.
  - split; [| split; [| split]].
    + intros v Hv Hval. apply Hmine in Hv. apply unexpired_spec in Hval.
      pose proof (find_none _ _ Hfind v Hv). congruence.
    + intros [v [Hv Hval]]. apply Hmine in Hv. apply unexpired_spec in Hval.
      pose proof (find_none _ _ Hfind v Hv). congruence.
    + reflexivity.
    + intros v e Hv He Hle. split; [| split].
      * intros [H | [e' [H Hlt]]]; [congruence |].
        rewrite He in H. inversion H; subst. lia.
      * unfold KycService.unexpired. rewrite He. apply Z.ltb_ge. exact Hle.
      * rewrite getActiveKycLevel_run. cbn [snd]. apply Hv.
Qed.

Lemma getActiveKycLevel_highest_valid_approved_witness :
  KycService.unexpired (Sample.env 100) Sample.basic_until_100 = false /\
  In Sample.basic_until_100
     (kycRepo (snd (KycService.getActiveKycLevel (Sample.env 100) "u1"
                      (Sample.world
                         [Sample.basic_until_100; Sample.pending_onfido])))).
Proof.
  destruct (getActiveKycLevel_highest_valid_approved (Sample.env 100) "u1"
              (Sample.world [Sample.basic_until_100; Sample.pending_onfido]))
    as [rows [lvl [_ [_ [_ [_ [_ [_ [_ [_ [_ Hskip]]]]]]]]]]].
  destruct (Hskip Sample.basic_until_100 100) as [_ [Hskipped Hkept]].
  - cbn. auto.
  - reflexivity.
  - cbn. lia.
  - split; assumption.
Defined.

(* ------------------------------------------------------------------------- *)
(** ** The monthly limit *)

Section Limit.

Variable env : Env.

Lemma getCurrentMonthUsage_run u w :
  KycService.getCurrentMonthUsage u w = (inr 0, w).
Proof. reflexivity. Qed.

(** One run of [checkMonthlyLimit], as a function of the active level. *)
Lemma checkMonthlyLimit_run u amount w lvl :
  KycService.getActiveKycLevel env u w = (inr lvl, w) ->
  KycService.checkMonthlyLimit env u amount w
  = (match KYC_MONTHLY_LIMITS lvl with
     | Some l =>
         if Z.gtb (0 + amount) l
         then inl (ForbiddenException
                     (KycService.limit_message (KYC_MONTHLY_LIMITS lvl)))
         else inr {| limit_level := lvl;
                     monthlyLimitUsd := Some l;
                     currentMonthUsageUsd := 0;
                     remainingUsd := Some (l - 0);
                     isLimitReached := false |}
     | None =>
         inr {| limit_level := lvl;
                monthlyLimitUsd := None;
                currentMonthUsageUsd := 0;
                remainingUsd := None;
                isLimitReached := false |}
     end,
     add_audit
       {| log_userId := u;
          log_verificationId := None;
          log_action :=
            match KYC_MONTHLY_LIMITS lvl with
            | Some l => if Z.gtb (0 + amount) l
                        then KycAuditAction.LIMIT_EXCEEDED
                        else KycAuditAction.LIMIT_CHECKED
            | None => KycAuditAction.LIMIT_CHECKED
            end;
          log_details :=
            [ ("level", JNumber (KycLevel.value lvl));
              ("monthlyLimit", JOptNumber (KYC_MONTHLY_LIMITS lvl));
              ("currentUsage", JNumber 0);
              ("requested", JNumber amount) ];
          log_ipAddress := None;
          log_createdAt := now env |}
       w).
Proof.
  intros Hlvl. unfold KycService.checkMonthlyLimit.
  unfold bind at 1. rewrite Hlvl.
  unfold KycService.getCurrentMonthUsage. run.
  destruct (KYC_MONTHLY_LIMITS lvl) as [l |]; [| reflexivity].
  now destruct (Z.gtb (0 + amount) l).
Qed.

End Limit.

(** C6: [checkMonthlyLimit] throws (a [ForbiddenException]) after writing a
    LIMIT_EXCEEDED audit entry exactly when the limit of the active level is
    not null and [usage + requested > limit]; otherwise it returns the level,
    the limit, the usage and the remaining amount after writing a
    LIMIT_CHECKED entry.  One audit entry is written in both branches, and
    nothing else of the world changes. *)
Theorem checkMonthlyLimit_rejects_exactly_over_the_limit
  (env : Env) (u : string) (requested : Z) (w : World) :
  exists lvl usage,
    KycService.getActiveKycLevel env u w = (inr lvl, w) /\
    KycService.getCurrentMonthUsage u w = (inr usage, w) /\
    let limit := KYC_MONTHLY_LIMITS lvl in
    let exceeded := exists l, limit = Some l /\ usage + requested > l in
    let entry action :=
      {| log_userId := u;
         log_verificationId := None;
         log_action := action;
         log_details :=
           [ ("level", JNumber (KycLevel.value lvl));
             ("monthlyLimit", JOptNumber limit);
             ("currentUsage", JNumber usage);
             ("requested", JNumber requested) ];
         log_ipAddress := None;
         log_createdAt := now env |} in
    (exceeded ->
     KycService.checkMonthlyLimit env u requested w
     = (inl (ForbiddenException (KycService.limit_message limit)),
        add_audit (entry KycAuditAction.LIMIT_EXCEEDED) w)) /\
    (~ exceeded ->
     KycService.checkMonthlyLimit env u requested w
     = (inr {| limit_level := lvl;
               monthlyLimitUsd := limit;
               currentMonthUsageUsd := usage;
               remainingUsd := option_map (fun l => l - usage) limit;
               isLimitReached := false |},
        add_audit (entry KycAuditAction.LIMIT_CHECKED) w)) /\
    ((exists e, fst (KycService.checkMonthlyLimit env u requested w) = inl e)
     <-> exceeded) /\
    (exists written,
        auditRepo (snd (KycService.checkMonthlyLimit env u requested w))
        = (auditRepo w ++ [written])%list /\
        (log_action written = KycAuditAction.LIMIT_EXCEEDED <-> exceeded) /\
        (log_action written = KycAuditAction.LIMIT_CHECKED <-> ~ exceeded)).
Proof.
  eexists. exists 0.
  split; [apply getActiveKycLevel_run |].
  split; [reflexivity |].
  intros limit exceeded entry.
  rewrite (checkMonthlyLimit_run env u requested w _ (getActiveKycLevel_run env u w)).
  fold limit. subst exceeded entry. cbn beta.
  destruct limit as [l |].
  - destruct (Z.gtb (0 + requested) l) eqn:E.
    + assert (Hex : exists l0, Some l = Some l0 /\ 0 + requested > l0).
      { exists l. split; [reflexivity |]. apply Z.gtb_gt in E. lia. }
      split; [reflexivity |]. split; [tauto |]. cbn [fst snd].
      split; [split; [intros _; exact Hex | intros _; eexists; reflexivity] |].
      eexists. split; [reflexivity |]. cbn [log_action].
      split; split; (tauto || discriminate || (intros; exact Hex)).
    + assert (Hno : ~ exists l0, Some l = Some l0 /\ 0 + requested > l0).
      { intros [l0 [Hl Hgt]]. inversion Hl; subst.
        rewrite Z.gtb_ltb in E. apply Z.ltb_ge in E. lia. }
      split; [tauto |].
      split; [intros _; cbn; now rewrite Z.sub_0_r |]. cbn [fst snd].
      split; [split; [intros [e He]; discriminate | tauto] |].
      eexists. split; [reflexivity |]. cbn [log_action].
      split; split; (tauto || discriminate || (intros; exact Hno)).
  - assert (Hno : ~ exists l0, @None Z = Some l0 /\ 0 + requested > l0).
    { intros [l0 [Hl _]]. discriminate. }
    split; [tauto |]. split; [reflexivity |]. cbn [fst snd].
    split; [split; [intros [e He]; discriminate | tauto] |].
    eexists. split; [reflexivity |]. cbn [log_action].
    split; split; (tauto || discriminate || (intros; exact Hno)).
Qed.

Lemma checkMonthlyLimit_rejects_exactly_over_the_limit_witness :
  (exists e,
      fst (KycService.checkMonthlyLimit (Sample.env 100) "u1" 1001
             (Sample.world [Sample.basic_until_100])) = inl e) /\
  ~ (exists e,
        fst (KycService.checkMonthlyLimit (Sample.env 100) "u1" 1000
               (Sample.world [Sample.basic_until_100])) = inl e).
Proof.
  split.
  - destruct (checkMonthlyLimit_rejects_exactly_over_the_limit
                (Sample.env 100) "u1" 1001 (Sample.world [Sample.basic_until_100]))
      as [lvl [usage [Hlvl [Husage [_ [_ [Hiff _]]]]]]].
    apply Hiff. inversion Hlvl; subst lvl. inversion Husage; subst usage.
    exists 1000. split; [reflexivity | lia].
  - destruct (checkMonthlyLimit_rejects_exactly_over_the_limit
                (Sample.env 100) "u1" 1000 (Sample.world [Sample.basic_until_100]))
      as [lvl [usage [Hlvl [Husage [_ [_ [Hiff _]]]]]]].
    intros H. apply Hiff in H. inversion Hlvl; subst lvl.
    inversion Husage; subst usage.
    destruct H as [l [Hl Hgt]]. inversion Hl; subst l. lia.
Defined.

(** C9: the current-month usage the limit check reads is always 0, so the
    check throws exactly when the requested amount alone exceeds the limit of
    the active level, a null limit never being exceeded. *)
Theorem checkMonthlyLimit_sees_no_usage
  (env : Env) (u : string) (requested : Z) (w : World) :
  KycService.getCurrentMonthUsage u w = (inr 0, w) /\
  exists lvl,
    KycService.getActiveKycLevel env u w = (inr lvl, w) /\
    ((exists e, fst (KycService.checkMonthlyLimit env u requested w) = inl e)
     <-> exists l, KYC_MONTHLY_LIMITS lvl = Some l /\ requested > l).
Proof.
  split; [reflexivity |].
  eexists. split; [apply getActiveKycLevel_run |].
  rewrite (checkMonthlyLimit_run env u requested w _ (getActiveKycLevel_run env u w)).
  cbn [fst]. rewrite Z.add_0_l.
  destruct (KYC_MONTHLY_LIMITS _) as [l |].
  - destruct (Z.gtb requested l) eqn:E.
    + split; [| intros _; eexists; reflexivity].
      intros _. exists l. split; [reflexivity |]. now apply Z.gtb_gt.
    + split; [intros [e He]; discriminate |].
      intros [l0 [Hl Hgt]]. inversion Hl; subst.
      apply Z.gtb_gt in Hgt. congruence.
  - split; [intros [e He]; discriminate |].
    intros [l0 [Hl _]]. discriminate.
Qed.

(* ------------------------------------------------------------------------- *)
(** ** Starting and resuming a verification *)

Section Providers.

Variable env : Env.

(** A request is logged whatever its answer, and touches nothing else. *)
Lemma persona_request_run {A} method path (answer : Http A) w :
  PersonaProvider.request method path answer w
  = (match answer with
     | Ok body => inr body
     | NotOk detail =>
         inl (BadRequestException ("Persona API error: " ++ detail))
     | Rejected message => inl (FetchError message)
     end,
     add_request (mkRequest KycProvider.PERSONA method path) w).
Proof. unfold PersonaProvider.request. run. now destruct answer. Qed.

Lemma onfido_request_run {A} method path (answer : Http A) w :
  OnfidoProvider.request method path answer w
  = (match answer with
     | Ok body => inr body
     | NotOk detail =>
         inl (BadRequestException ("Onfido API error: " ++ detail))
     | Rejected message => inl (FetchError message)
     end,
     add_request (mkRequest KycProvider.ONFIDO method path) w).
Proof. unfold OnfidoProvider.request. run. now destruct answer. Qed.

Lemma createInquiry_frame u l redirect w :
  same_tables w (snd (PersonaProvider.createInquiry env u l redirect w)).
Proof.
  unfold PersonaProvider.createInquiry, bind.
  rewrite persona_request_run.
  destruct (persona_inquiries env u l redirect) as [[i t] | d | m];
    now repeat split.
Qed.

Lemma createApplicantSession_frame u w :
  same_tables w (snd (OnfidoProvider.createApplicantSession env u w)).
Proof.
  unfold OnfidoProvider.createApplicantSession, bind.
  rewrite onfido_request_run.
  destruct (onfido_applicants env u) as [a | d | m];
    [| now repeat split | now repeat split].
  rewrite onfido_request_run.
  destruct (onfido_workflow_runs env a) as [r | d | m];
    [| now repeat split | now repeat split].
  rewrite onfido_request_run.
  destruct (onfido_sdk_token env a) as [t | d | m]; now repeat split.
Qed.

Lemma resumeInquiry_run inquiry w :
  PersonaProvider.resumeInquiry env inquiry w
  = (match persona_resume env inquiry with
     | Ok body => inr body
     | NotOk detail =>
         inl (BadRequestException ("Persona API error: " ++ detail))
     | Rejected message => inl (FetchError message)
     end,
     add_request
       (mkRequest KycProvider.PERSONA "POST"
          ("/inquiries/" ++ inquiry ++ "/resume")) w).
Proof. apply persona_request_run. Qed.

End Providers.

Section Start.

Variable env : Env.

Lemma where_user_level_status_spec u l s v :
  KycService.where_user_level_status u l s v = true <->
  userId v = u /\ level v = l /\ status v = s.
Proof.
  unfold KycService.where_user_level_status.
  rewrite !andb_true_iff, String.eqb_eq, KycLevel_eqb_eq, KycStatus_eqb_eq.
  tauto.
Qed.

(** The prerequisite check reads the table and writes nothing. *)
Lemma checkPrerequisite_run u target w :
  KycService.checkPrerequisite u target w
  = (match LEVEL_PREREQUISITES target with
     | Some prereq =>
         match Repo.findOne
                 (KycService.where_user_level_status u prereq KycStatus.APPROVED)
                 (kycRepo w) with
         | Some _ => inr tt
         | None =>
             inl (BadRequestException
                    (KycService.prerequisite_message target prereq))
         end
     | None => inr tt
     end, w).
Proof.
  unfold KycService.checkPrerequisite, KycService.getApprovedVerification.
  run. destruct (LEVEL_PREREQUISITES target); [| reflexivity].
  now destruct (Repo.findOne _ _).
Qed.

Lemma startKyc_after_prerequisite u dto ip w :
  targetLevel dto <> KycLevel.NONE ->
  fst (KycService.checkPrerequisite u (targetLevel dto) w) = inr tt ->
  KycService.startKyc env u dto ip w
  = KycService.resumeOrCreate env u dto ip w.
Proof.
  intros Hlevel Hpre. unfold KycService.startKyc.
  destruct (KycLevel.eqb (targetLevel dto) KycLevel.NONE) eqn:E.
  - apply KycLevel_eqb_eq in E. contradiction.
  - unfold bind at 1. rewrite checkPrerequisite_run in *. cbn [fst] in Hpre.
    now rewrite Hpre.
Qed.

Lemma delete_save_fresh v rows :
  ~ In (id v) (map id rows) ->
  Repo.delete (id v) (Repo.save v rows) = rows.
Proof.
  intros Hfresh. unfold Repo.delete, Repo.save. rewrite filter_app. cbn.
  rewrite String.eqb_refl. cbn. rewrite app_nil_r.
  induction rows as [| x rows IH]; [reflexivity |]. cbn in *.
  destruct (String.eqb (id x) (id v)) eqn:E.
  - apply String.eqb_eq in E. exfalso. apply Hfresh. now left.
  - cbn. f_equal. apply IH. tauto.
Qed.

(** When the provider call of the [try] block throws, so does the block, and
    it has written to no table and published nothing. *)
Lemma openSession_fails u dto ip p attempt verification e w :
  match p with
  | KycProvider.PERSONA =>
      fst (PersonaProvider.createInquiry env u (targetLevel dto)
             (redirectUrl dto) w) = inl e
  | KycProvider.ONFIDO =>
      fst (OnfidoProvider.createApplicantSession env u w) = inl e
  end ->
  exists w',
    KycService.openSession env u dto ip p attempt verification w = (inl e, w')
    /\ same_tables w w'.
Proof.
  intros Hfail. unfold KycService.openSession. destruct p.
  - pose proof (createInquiry_frame env u (targetLevel dto) (redirectUrl dto) w)
      as Hframe.
    unfold bind at 1 2.
    destruct (PersonaProvider.createInquiry env u (targetLevel dto)
                (redirectUrl dto) w) as [[e' | session] w'];
      cbn [fst snd] in *; [| discriminate].
    inversion Hfail; subst. now exists w'.
  - pose proof (createApplicantSession_frame env u w) as Hframe.
    unfold bind at 1 2.
    destruct (OnfidoProvider.createApplicantSession env u w)
      as [[e' | session] w']; cbn [fst snd] in *; [| discriminate].
    inversion Hfail; subst. now exists w'.
Qed.

End Start.

Section Resume.

Variable env : Env.

(** One run of [resumeKyc] on a record that has an inquiry id. *)
Lemma resumeKyc_run verification inquiry w :
  inquiryId verification = Some inquiry ->
  inquiry <> EmptyString ->
  KycService.resumeKyc env verification w
  = let sent :=
      add_request
        (mkRequest KycProvider.PERSONA "POST"
           ("/inquiries/" ++ inquiry ++ "/resume")) w in
    match persona_resume env inquiry with
    | Ok token =>
        (inr {| StartKycResponseDto.verificationRecordId := id verification;
                StartKycResponseDto.inquiryId := inquiry;
                StartKycResponseDto.sessionToken := token;
                StartKycResponseDto.widgetUrl :=
                  "https://withpersona.com/verify?inquiry-id=" ++ inquiry
                    ++ "&session-token=" ++ token |},
         set_kycRepo
           (Repo.update (now env) (id verification)
              {| Repo.u_status := None;
                 Repo.u_verificationId := None;
                 Repo.u_inquiryId := None;
                 Repo.u_sessionToken := Some (Some token);
                 Repo.u_approvedAt := None;
                 Repo.u_expiresAt := None;
                 Repo.u_rejectionReason := None;
                 Repo.u_providerMetadata := None |})
           sent)
    | NotOk detail =>
        (inl (BadRequestException ("Persona API error: " ++ detail)), sent)
    | Rejected message => (inl (FetchError message), sent)
    end.
Proof.
  intros Hinquiry Hne. apply String.eqb_neq in Hne.
  unfold KycService.resumeKyc. rewrite Hinquiry, Hne.
  unfold bind at 1. rewrite resumeInquiry_run. run.
  now destruct (persona_resume env inquiry).
Qed.

End Resume.

(** C2, as stated, fails: the only BASIC record of the user is APPROVED with
    an [expiresAt] in the past, so no APPROVED BASIC record is still valid,
    and yet starting ENHANCED passes the prerequisite check and opens a
    session. *)
Lemma enhanced_starts_on_an_expired_basic_approval :
  status Sample.basic_until_100 = KycStatus.APPROVED /\
  expiresAt Sample.basic_until_100 = Some 100 /\
  100 < now (Sample.env 200) /\
  fst (KycService.startKyc (Sample.env 200) "u1" Sample.enhanced_persona None
         (Sample.world [Sample.basic_until_100]))
  = inr {| StartKycResponseDto.verificationRecordId := "v-new";
           StartKycResponseDto.inquiryId := "inq-1";
           StartKycResponseDto.sessionToken := "tok-1";
           StartKycResponseDto.widgetUrl :=
             "https://withpersona.com/verify?inquiry-id=inq-1&session-token=tok-1" |}.
Proof.
  split; [reflexivity |]. split; [reflexivity |].
  split; [cbn; lia | reflexivity].
Qed.

(** C2, amended: starting ENHANCED throws the prerequisite error (a
    [BadRequestException]) and leaves the world as it is unless the user has
    a BASIC record whose status is APPROVED; when the user has one, whatever
    its [expiresAt], the prerequisite check passes and the call goes on to
    resume or create the verification. *)
Theorem enhanced_requires_an_approved_basic
  (env : Env) (u : string) (dto : StartKycDto) (ip : option string) (w : World) :
  targetLevel dto = KycLevel.ENHANCED ->
  let approved_basic :=
    exists v, In v (kycRepo w) /\ userId v = u /\ level v = KycLevel.BASIC
              /\ status v = KycStatus.APPROVED in
  (~ approved_basic ->
   KycService.startKyc env u dto ip w
   = (inl (BadRequestException
             "Level 2 KYC requires an approved Level 1 verification first"),
      w)) /\
  (approved_basic ->
   KycService.checkPrerequisite u (targetLevel dto) w = (inr tt, w) /\
   KycService.startKyc env u dto ip w
   = KycService.resumeOrCreate env u dto ip w).
Proof.
  intros Htarget approved_basic.
  destruct (Repo.findOne
              (KycService.where_user_level_status u KycLevel.BASIC
                 KycStatus.APPROVED) (kycRepo w)) as [found |] eqn:Hfind.
  - assert (Hhas : approved_basic).
    { apply findOne_Some in Hfind. destruct Hfind as [Hin Hw].
      apply where_user_level_status_spec in Hw. exists found. tauto. }
    assert (Hpass : KycService.checkPrerequisite u (targetLevel dto) w
                    = (inr tt, w)).
    { rewrite checkPrerequisite_run, Htarget. cbn [LEVEL_PREREQUISITES].
      now rewrite Hfind. }
    split; [tauto |]. intros _. split; [exact Hpass |].
    apply startKyc_after_prerequisite.
    + rewrite Htarget. discriminate.
    + now rewrite Hpass.
  - assert (Hnone : ~ approved_basic).
    { intros [v [Hin Hv]]. apply where_user_level_status_spec in Hv.
      pose proof (proj1 (findOne_None _ _) Hfind v Hin). congruence. }
    split; [| tauto]. intros _.
    unfold KycService.startKyc. rewrite Htarget. cbn [KycLevel.eqb KycLevel.value Z.eqb].
    unfold bind at 1. rewrite checkPrerequisite_run. cbn [LEVEL_PREREQUISITES].
    now rewrite Hfind.
Qed.

Lemma enhanced_requires_an_approved_basic_witness :
  targetLevel Sample.enhanced_persona = KycLevel.ENHANCED /\
  KycService.startKyc (Sample.env 200) "u2" Sample.enhanced_persona None
    (Sample.world [Sample.basic_until_100])
  = (inl (BadRequestException
            "Level 2 KYC requires an approved Level 1 verification first"),
     Sample.world [Sample.basic_until_100]).
Proof.
  split; [reflexivity |].
  apply (proj1 (enhanced_requires_an_approved_basic (Sample.env 200) "u2"
                  Sample.enhanced_persona None
                  (Sample.world [Sample.basic_until_100]) eq_refl)).
  intros [v [Hin [Hu _]]]. cbn in Hin. destruct Hin as [<- | []]. discriminate.
Defined.

(** C8: when a call of [startKyc] creates a new record (the level is not
    NONE, the prerequisite check passes, no pending record with an inquiry is
    there to resume, and the database hands out a fresh primary key), the
    PENDING record is inserted first, without provider handles, and the
    provider session is opened with the record in the table: the call ends as
    that block ends, except that on an exception the record is deleted again
    before the exception is rethrown.  So when the provider's session
    creation throws, the block stops with the record still in the table and
    untouched, and the call throws that same error with the tables as before
    the call: the created record is gone, hence no orphan PENDING record, no
    audit entry is written and no event is published. *)
Theorem failed_session_creation_rolls_back
  (env : Env) (u : string) (dto : StartKycDto) (ip : option string)
  (w : World) :
  targetLevel dto <> KycLevel.NONE ->
  fst (KycService.checkPrerequisite u (targetLevel dto) w) = inr tt ->
  (forall v,
      Repo.findOne
        (KycService.where_user_level_status u (targetLevel dto) KycStatus.PENDING)
        (kycRepo w) = Some v ->
      Js.truthy (inquiryId v) = false) ->
  ~ In (uuid env) (map id (kycRepo w)) ->
  let p := match dto_provider dto with
           | Some p => p | None => KycProvider.PERSONA end in
  let attempt :=
    Repo.count (fun v => String.eqb (userId v) u
                         && KycLevel.eqb (level v) (targetLevel dto))
               (kycRepo w) in
  let created :=
    KycService.newVerification env u (targetLevel dto) p (attempt + 1) in
  let inserted := set_kycRepo (Repo.save created) w in
  kycRepo inserted = (kycRepo w ++ [created])%list /\
  status created = KycStatus.PENDING /\
  inquiryId created = None /\
  KycService.startKyc env u dto ip w
  = match KycService.openSession env u dto ip p attempt created inserted with
    | (inr response, after) => (inr response, after)
    | (inl err, after) =>
        (inl err, set_kycRepo (Repo.delete (id created)) after)
    end /\
  forall e,
    match p with
    | KycProvider.PERSONA =>
        fst (PersonaProvider.createInquiry env u (targetLevel dto)
               (redirectUrl dto) inserted) = inl e
    | KycProvider.ONFIDO =>
        fst (OnfidoProvider.createApplicantSession env u inserted) = inl e
    end ->
    exists stopped w',
      KycService.openSession env u dto ip p attempt created inserted
      = (inl e, stopped) /\
      kycRepo stopped = (kycRepo w ++ [created])%list /\
      KycService.startKyc env u dto ip w = (inl e, w') /\
      kycRepo w' = Repo.delete (id created) (kycRepo stopped) /\
      kycRepo w' = kycRepo w /\
      auditRepo w' = auditRepo w /\
      emitted w' = emitted w /\
      requests w' = requests stopped /\
      ~ In created (kycRepo w') /\
      (forall v, In v (kycRepo w') -> id v <> id created).
Proof.
  intros Hlevel Hpre Hnothing Hfresh p attempt created inserted.
  assert (Hlaw :
            KycService.startKyc env u dto ip w
            = match KycService.openSession env u dto ip p attempt created
                      inserted with
              | (inr response, after) => (inr response, after)
              | (inl err, after) =>
                  (inl err, set_kycRepo (Repo.delete (id created)) after)
              end).
  { rewrite (startKyc_after_prerequisite env u dto ip w Hlevel Hpre).
    assert (Hcreate :
              KycService.resumeOrCreate env u dto ip w
              = KycService.createVerification env u dto ip w).
    { unfold KycService.resumeOrCreate. run.
      destruct (Repo.findOne _ (kycRepo w)) as [existing |] eqn:Hfind;
        [| reflexivity].
      now rewrite (Hnothing existing eq_refl). }
    rewrite Hcreate.
    unfold KycService.createVerification, KycService.getAttemptCount. run.
    fold p. fold attempt. fold created. fold inserted.
    now destruct (KycService.openSession env u dto ip p attempt created inserted)
      as [[err | response] after]. }
  split; [reflexivity |]. split; [reflexivity |]. split; [reflexivity |].
  split; [exact Hlaw |].
  intros e Hfail.
  destruct (openSession_fails env u dto ip p attempt created e inserted Hfail)
    as [stopped [Hrun [Hrepo [Haudit Hevents]]]].
  rewrite Hlaw, Hrun.
  assert (Hback : Repo.delete (id created) (kycRepo stopped) = kycRepo w).
  { rewrite <- Hrepo. apply (delete_save_fresh created). exact Hfresh. }
  exists stopped. eexists. split; [reflexivity |].
  split; [now rewrite <- Hrepo |]. split; [reflexivity |].
  cbn [kycRepo auditRepo emitted requests set_kycRepo].
  split; [reflexivity |]. split; [exact Hback |].
  split; [now rewrite <- Haudit |]. split; [now rewrite <- Hevents |].
  split; [reflexivity |]. rewrite Hback. split.
  - intros Hin. apply Hfresh.
    change (uuid env) with (id created). now apply in_map.
  - intros v Hin Hid. apply Hfresh.
    change (uuid env) with (id created). rewrite <- Hid. now apply in_map.
Qed.

Lemma failed_session_creation_rolls_back_witness :
  exists stopped w',
    KycService.openSession
      (Sample.env_with (NotOk "template not found") (Ok "wfr-1") 200)
      "u2" (Sample.basic_with KycProvider.PERSONA) None KycProvider.PERSONA 0
      (KycService.newVerification
         (Sample.env_with (NotOk "template not found") (Ok "wfr-1") 200)
         "u2" KycLevel.BASIC KycProvider.PERSONA 1)
      (set_kycRepo
         (Repo.save
            (KycService.newVerification
               (Sample.env_with (NotOk "template not found") (Ok "wfr-1") 200)
               "u2" KycLevel.BASIC KycProvider.PERSONA 1))
         (Sample.world [Sample.basic_until_100]))
    = (inl (BadRequestException "Persona API error: template not found"),
       stopped) /\
    map id (kycRepo stopped) = ["v1"; "v-new"] /\
    KycService.startKyc
      (Sample.env_with (NotOk "template not found") (Ok "wfr-1") 200)
      "u2" (Sample.basic_with KycProvider.PERSONA) None
      (Sample.world [Sample.basic_until_100])
    = (inl (BadRequestException "Persona API error: template not found"), w')
    /\ kycRepo w' = [Sample.basic_until_100].
Proof.
  destruct (failed_session_creation_rolls_back
              (Sample.env_with (NotOk "template not found") (Ok "wfr-1") 200)
              "u2" (Sample.basic_with KycProvider.PERSONA) None
              (Sample.world [Sample.basic_until_100]))
    as [_ [_ [_ [_ Hfails]]]].
  - discriminate.
  - reflexivity.
  - cbn. discriminate.
  - cbn. intuition discriminate.
  - destruct (Hfails (BadRequestException
                        "Persona API error: template not found") eq_refl)
      as [stopped [w' [Hstop [Hrows [Hrun [_ [Hrepo _]]]]]]].
    exists stopped, w'.
    split; [exact Hstop |]. split; [now rewrite Hrows |].
    split; [exact Hrun | exact Hrepo].
Defined.

(** C10: resuming a record that has an inquiry id sends its one request to
    Persona, [POST /inquiries/{id}/resume], whatever the provider stored on
    the record; when Persona answers with a token, the token is stored on the
    record and the response carries the Persona widget URL built from the
    inquiry id and the token.  [startKyc] takes this path for the PENDING
    record it finds for the user and level, an Onfido record included. *)
Theorem resume_goes_through_persona
  (env : Env) (verification : KycVerification) (inquiry : string) (w : World) :
  inquiryId verification = Some inquiry ->
  inquiry <> EmptyString ->
  let call :=
    mkRequest KycProvider.PERSONA "POST" ("/inquiries/" ++ inquiry ++ "/resume") in
  requests (snd (KycService.resumeKyc env verification w))
  = (requests w ++ [call])%list /\
  (forall token,
      persona_resume env inquiry = Ok token ->
      fst (KycService.resumeKyc env verification w)
      = inr {| StartKycResponseDto.verificationRecordId := id verification;
               StartKycResponseDto.inquiryId := inquiry;
               StartKycResponseDto.sessionToken := token;
               StartKycResponseDto.widgetUrl :=
                 "https://withpersona.com/verify?inquiry-id=" ++ inquiry
                   ++ "&session-token=" ++ token |}
      /\ forall v',
          In v' (kycRepo (snd (KycService.resumeKyc env verification w))) ->
          id v' = id verification ->
          sessionToken v' = Some token) /\
  (forall u dto ip,
      targetLevel dto <> KycLevel.NONE ->
      fst (KycService.checkPrerequisite u (targetLevel dto) w) = inr tt ->
      Repo.findOne
        (KycService.where_user_level_status u (targetLevel dto) KycStatus.PENDING)
        (kycRepo w) = Some verification ->
      KycService.startKyc env u dto ip w
      = KycService.resumeKyc env verification w).
Proof.
  intros Hinquiry Hne call.
  pose proof (resumeKyc_run env verification inquiry w Hinquiry Hne) as Hrun.
  cbn zeta in Hrun.
  split; [| split].
  - rewrite Hrun. now destruct (persona_resume env inquiry).
  - intros token Hanswer. rewrite Hrun, Hanswer. cbn [fst snd].
    split; [reflexivity |].
    intros v' Hin Hid. cbn [kycRepo set_kycRepo add_request] in Hin.
    destruct (update_In_key _ _ _ _ _ Hin Hid) as [v [_ [_ ->]]].
    reflexivity.
  - intros u dto ip Hlevel Hpre Hfind.
    rewrite (startKyc_after_prerequisite env u dto ip w Hlevel Hpre).
    unfold KycService.resumeOrCreate. run. rewrite Hfind.
    unfold Js.truthy. rewrite Hinquiry.
    apply String.eqb_neq in Hne. now rewrite Hne.
Qed.

Lemma resume_goes_through_persona_witness :
  provider Sample.pending_onfido = KycProvider.ONFIDO /\
  requests (snd (KycService.resumeKyc (Sample.env 200) Sample.pending_onfido
                   (Sample.world [Sample.pending_onfido])))
  = [mkRequest KycProvider.PERSONA "POST" "/inquiries/wfr-7/resume"] /\
  KycService.startKyc (Sample.env 200) "u1"
    (Sample.basic_with KycProvider.ONFIDO) None
    (Sample.world [Sample.pending_onfido])
  = KycService.resumeKyc (Sample.env 200) Sample.pending_onfido
      (Sample.world [Sample.pending_onfido]).
Proof.
  destruct (resume_goes_through_persona (Sample.env 200) Sample.pending_onfido
              "wfr-7" (Sample.world [Sample.pending_onfido]))
    as [Hcall [_ Hstart]].
  - reflexivity.
  - discriminate.
  - split; [reflexivity |]. split; [exact Hcall |].
    apply Hstart; [discriminate | reflexivity | reflexivity].
Defined.


Section Signature.

Variable env : Env.

(** The age of the webhook exceeds 300 seconds exactly when the clock, in
    milliseconds, is more than 300 000 past the timestamp. *)
Lemma webhookAge_over_300 t :
  PersonaProvider.Qgtb (PersonaProvider.webhookAge env t) (inject_Z 300) = true
  <-> 300 * 1000 < now env - 1000 * t.
Proof.
  unfold PersonaProvider.Qgtb. rewrite negb_true_iff.
  rewrite <- not_true_iff_false, Qle_bool_iff.
  unfold PersonaProvider.webhookAge, Qle, Qminus, Qplus, Qopp, Qdiv, Qmult,
    Qinv, inject_Z.
  cbn -[Z.mul Z.add Z.sub Z.opp]. lia.
Qed.

Lemma too_old_spec timestamp :
  PersonaProvider.too_old env timestamp = true <->
  exists t, Js.parseInt timestamp = Some t /\ 300 * 1000 < now env - 1000 * t.
Proof.
  unfold PersonaProvider.too_old.
  destruct (Js.parseInt timestamp) as [t |].
  - rewrite webhookAge_over_300. split.
    + intros H. now exists t.
    + intros [t' [Ht Hlt]]. now inversion Ht; subst.
  - split; [discriminate |]. intros [t [Ht _]]. discriminate.
Qed.

Lemma processPersonaWebhook_rejects rawBody signature payload w :
  PersonaProvider.verifyWebhookSignature env rawBody signature = false ->
  KycService.processPersonaWebhook env rawBody signature payload w
  = (inl (BadRequestException "Invalid webhook signature"), w).
Proof.
  intros Hbad. unfold KycService.processPersonaWebhook. now rewrite Hbad.
Qed.

End Signature.

(** The sample header carries the very digest the sample environment
    computes: inside the replay window it is accepted. *)
Lemma sample_signature_accepted_when_recent :
  PersonaProvider.verifyWebhookSignature (Sample.env 1300000) "{}"
    ("t=1000,v1=" ++ Sample.digest) = true.
Proof. reflexivity. Qed.

(** C7: a Persona signature header whose timestamp [t] lies more than 300
    seconds before the clock is rejected whatever the body, the signature part
    of the header and the HMAC are, hence also when the HMAC over the body is
    valid: the staleness test comes first and does not look at them.  Every
    rejection, be it for a stale timestamp, a malformed header or an HMAC
    mismatch, is the one answer [false] of the verification, on which the
    webhook handler throws the one exception "Invalid webhook signature" and
    leaves the world as it is; two rejected deliveries are answered alike. *)
Theorem stale_persona_webhook_rejected_generically
  (env : Env) (rawBody signatureHeader : string) :
  (forall timestamp t,
      Js.lookup "t" (map PersonaProvider.entry_of_part
                         (Js.split "," signatureHeader)) = Some timestamp ->
      Js.parseInt timestamp = Some t ->
      300 * 1000 < now env - 1000 * t ->
      forall otherBody hmac secret,
        PersonaProvider.verifyWebhookSignature
          {| now := now env; uuid := uuid env;
             persona_inquiries := persona_inquiries env;
             persona_resume := persona_resume env;
             onfido_applicants := onfido_applicants env;
             onfido_workflow_runs := onfido_workflow_runs env;
             onfido_sdk_token := onfido_sdk_token env;
             hmac_sha256_hex := hmac;
             PERSONA_WEBHOOK_SECRET := secret |}
          otherBody signatureHeader = false) /\
  (forall payload w,
      PersonaProvider.verifyWebhookSignature env rawBody signatureHeader = false ->
      KycService.processPersonaWebhook env rawBody signatureHeader payload w
      = (inl (BadRequestException "Invalid webhook signature"), w)) /\
  (forall rawBody' signatureHeader' payload payload' w,
      PersonaProvider.verifyWebhookSignature env rawBody signatureHeader = false ->
      PersonaProvider.verifyWebhookSignature env rawBody' signatureHeader' = false ->
      KycService.processPersonaWebhook env rawBody signatureHeader payload w
      = KycService.processPersonaWebhook env rawBody' signatureHeader' payload' w).
Proof.
  split; [| split].
  - intros timestamp t Hts Hparse Hold otherBody hmac secret.
    unfold PersonaProvider.verifyWebhookSignature. rewrite Hts.
    destruct (Js.lookup "v1" _) as [receivedSig |]; [| reflexivity].
    destruct (String.eqb timestamp "" || String.eqb receivedSig "");
      [reflexivity |].
    assert (Hstale : PersonaProvider.too_old
                       {| now := now env; uuid := uuid env;
                          persona_inquiries := persona_inquiries env;
                          persona_resume := persona_resume env;
                          onfido_applicants := onfido_applicants env;
                          onfido_workflow_runs := onfido_workflow_runs env;
                          onfido_sdk_token := onfido_sdk_token env;
                          hmac_sha256_hex := hmac;
                          PERSONA_WEBHOOK_SECRET := secret |}
                       timestamp = true).
    { apply too_old_spec. now exists t. }
    now rewrite Hstale.
  - intros payload w. apply processPersonaWebhook_rejects.
  - intros rawBody' signatureHeader' payload payload' w Hbad Hbad'.
    now rewrite !processPersonaWebhook_rejects.
Qed.

Lemma stale_persona_webhook_rejected_generically_witness :
  PersonaProvider.verifyWebhookSignature (Sample.env 1300001) "{}"
    ("t=1000,v1=" ++ Sample.digest) = false /\
  KycService.processPersonaWebhook (Sample.env 1300001) "{}"
    ("t=1000,v1=" ++ Sample.digest) None (Sample.world [Sample.pending_fresh])
  = (inl (BadRequestException "Invalid webhook signature"),
     Sample.world [Sample.pending_fresh]).
Proof.
  destruct (stale_persona_webhook_rejected_generically (Sample.env 1300001)
              "{}" ("t=1000,v1=" ++ Sample.digest)) as [Hstale [Hsame _]].
  assert (Hfalse : PersonaProvider.verifyWebhookSignature (Sample.env 1300001)
                     "{}" ("t=1000,v1=" ++ Sample.digest) = false).
  { apply (Hstale "1000" 1000 eq_refl eq_refl); cbn; lia. }
  split; [exact Hfalse |]. apply Hsame. exact Hfalse.
Defined.

(* ========================================================================= *)
(** * Further properties of the service *)

(* ------------------------------------------------------------------------- *)
(** ** Signatures: when a webhook is accepted *)

Lemma bytes_eqb_eq a : forall b, Js.bytes_eqb a b = true <-> a = b.
Proof.
  induction a as [| x a IH]; intros [| y b]; cbn; try (split; congruence).
  rewrite andb_true_iff, N.eqb_eq, IH. split.
  - intros [-> ->]. reflexivity.
  - intros H. inversion H. auto.
Qed.

Lemma timingSafeEqual_accepts a b :
  match Js.timingSafeEqual a b with Some equal => equal | None => false end
  = true <-> a = b.
Proof.
  unfold Js.timingSafeEqual.
  destruct (Nat.eqb (List.length a) (List.length b)) eqn:E.
  - apply bytes_eqb_eq.
  - split; [discriminate |]. intros ->. rewrite Nat.eqb_refl in E. discriminate.
Qed.

(** [parseInt] reads past leading white space, the no-break space U+00A0
    included, and stops at the first character that is no digit. *)
Lemma parseInt_skips_white_space :
  Js.parseInt (String (ascii_of_nat 160) (String (ascii_of_nat 9) " 1000ms"))
  = Some 1000
  /\ Js.parseInt (String (ascii_of_nat 133) "1000") = None.
Proof. split; reflexivity. Qed.

(** X1: the Persona verification accepts exactly the headers that carry a
    non-empty [t], a non-empty [v1], a timestamp that does not read as more
    than 300 seconds old, and a [v1] whose decoded bytes are those of the HMAC
    of [t.body] under the webhook secret. *)
Theorem persona_signature_accepted_iff
  (env : Env) (rawBody signatureHeader : string) :
  PersonaProvider.verifyWebhookSignature env rawBody signatureHeader = true <->
  exists timestamp receivedSig,
    Js.lookup "t" (map PersonaProvider.entry_of_part
                       (Js.split "," signatureHeader)) = Some timestamp /\
    Js.lookup "v1" (map PersonaProvider.entry_of_part
                        (Js.split "," signatureHeader)) = Some receivedSig /\
    timestamp <> EmptyString /\ receivedSig <> EmptyString /\
    ~ (exists t, Js.parseInt timestamp = Some t
                 /\ 300 * 1000 < now env - 1000 * t) /\
    Js.Buffer_from_hex
      (hmac_sha256_hex env (PERSONA_WEBHOOK_SECRET env)
         (timestamp ++ "." ++ rawBody))
    = Js.Buffer_from_hex receivedSig.
Proof.
  unfold PersonaProvider.verifyWebhookSignature.
  destruct (Js.lookup "t" _) as [timestamp |].
  2: { split; [discriminate |]. intros [ts [sg [H _]]]. discriminate. }
  destruct (Js.lookup "v1" _) as [receivedSig |].
  2: { split; [discriminate |]. intros [ts [sg [_ [H _]]]]. discriminate. }
  destruct (String.eqb_spec timestamp "") as [Hts | Hts].
  { cbn [orb]. split; [discriminate |].
    intros [ts [sg [H [_ [Hne _]]]]]. inversion H; subst. contradiction. }
  destruct (String.eqb_spec receivedSig "") as [Hsg | Hsg].
  { cbn [orb]. split; [discriminate |].
    intros [ts [sg [_ [H [_ [Hne _]]]]]]. inversion H; subst. contradiction. }
  cbn [orb].
  destruct (PersonaProvider.too_old env timestamp) eqn:Hold.
  - apply too_old_spec in Hold. split; [discriminate |].
    intros [ts [sg [H [_ [_ [_ [Hfresh _]]]]]]]. inversion H; subst. contradiction.
  - rewrite timingSafeEqual_accepts. split.
    + intros Heq. exists timestamp, receivedSig. repeat split; auto.
      intros Hstale. apply too_old_spec in Hstale. congruence.
    + intros [ts [sg [H [H' [_ [_ [_ Heq]]]]]]].
      inversion H; inversion H'; subst. exact Heq.
Qed.

(** X2: the replay window only binds a timestamp [parseInt] can read.  When
    the [t] of the header does not start with a number, the age is [NaN],
    the window test passes, and the verdict is the same at every instant. *)
Theorem persona_unreadable_timestamp_is_never_stale
  (env : Env) (rawBody signatureHeader timestamp : string) (later : Z) :
  Js.lookup "t" (map PersonaProvider.entry_of_part
                     (Js.split "," signatureHeader)) = Some timestamp ->
  Js.parseInt timestamp = None ->
  PersonaProvider.too_old env timestamp = false /\
  PersonaProvider.verifyWebhookSignature
    {| now := later; uuid := uuid env;
       persona_inquiries := persona_inquiries env;
       persona_resume := persona_resume env;
       onfido_applicants := onfido_applicants env;
       onfido_workflow_runs := onfido_workflow_runs env;
       onfido_sdk_token := onfido_sdk_token env;
       hmac_sha256_hex := hmac_sha256_hex env;
       PERSONA_WEBHOOK_SECRET := PERSONA_WEBHOOK_SECRET env |}
    rawBody signatureHeader
  = PersonaProvider.verifyWebhookSignature env rawBody signatureHeader.
Proof.
  intros Hts Hnan.
  unfold PersonaProvider.verifyWebhookSignature, PersonaProvider.too_old.
  rewrite Hts, Hnan. split; reflexivity.
Qed.

Lemma persona_unreadable_timestamp_is_never_stale_witness :
  PersonaProvider.verifyWebhookSignature (Sample.env 999999999999) "{}"
    ("t=soon,v1=" ++ Sample.digest) = true.
Proof.
  destruct (persona_unreadable_timestamp_is_never_stale (Sample.env 0) "{}"
              ("t=soon,v1=" ++ Sample.digest) "soon" 999999999999
              eq_refl eq_refl) as [_ Hsame].
  change (Sample.env 999999999999)
    with {| now := 999999999999; uuid := uuid (Sample.env 0);
            persona_inquiries := persona_inquiries (Sample.env 0);
            persona_resume := persona_resume (Sample.env 0);
            onfido_applicants := onfido_applicants (Sample.env 0);
            onfido_workflow_runs := onfido_workflow_runs (Sample.env 0);
            onfido_sdk_token := onfido_sdk_token (Sample.env 0);
            hmac_sha256_hex := hmac_sha256_hex (Sample.env 0);
            PERSONA_WEBHOOK_SECRET := PERSONA_WEBHOOK_SECRET (Sample.env 0) |}.
  rewrite Hsame. vm_compute. reflexivity.
Defined.

(** X3: the Onfido verification accepts exactly the headers whose decoded
    bytes are those of the HMAC of the body under the webhook token; a header
    that decodes to another number of bytes, the empty header included, is
    rejected and not an error. *)
Theorem onfido_signature_accepted_iff
  (env : Env) (webhookToken rawBody signatureHeader : string) :
  (OnfidoProvider.verifyWebhookSignature env webhookToken rawBody
     signatureHeader = true <->
   Js.Buffer_from_hex (hmac_sha256_hex env webhookToken rawBody)
   = Js.Buffer_from_hex signatureHeader) /\
  (List.length (Js.Buffer_from_hex signatureHeader)
   <> List.length (Js.Buffer_from_hex (hmac_sha256_hex env webhookToken rawBody)) ->
   OnfidoProvider.verifyWebhookSignature env webhookToken rawBody
     signatureHeader = false).
Proof.
  unfold OnfidoProvider.verifyWebhookSignature. split.
  - apply timingSafeEqual_accepts.
  - intros Hlen. unfold Js.timingSafeEqual.
    destruct (Nat.eqb_spec
                (List.length (Js.Buffer_from_hex
                           (hmac_sha256_hex env webhookToken rawBody)))
                (List.length (Js.Buffer_from_hex signatureHeader))) as [E | E];
      [| reflexivity].
    symmetry in E. contradiction.
Qed.

Lemma onfido_signature_accepted_iff_witness :
  OnfidoProvider.verifyWebhookSignature (Sample.env 0) "tok" "{}" "" = false /\
  OnfidoProvider.verifyWebhookSignature (Sample.env 0) "tok" "{}"
    "00112233445566778899AABBCCDDEEFF00112233445566778899AABBCCDDEEFF" = true.
Proof.
  destruct (onfido_signature_accepted_iff (Sample.env 0) "tok" "{}" "")
    as [_ Hshort].
  destruct (onfido_signature_accepted_iff (Sample.env 0) "tok" "{}"
    "00112233445566778899AABBCCDDEEFF00112233445566778899AABBCCDDEEFF")
    as [Hiff _].
  split.
  - apply Hshort. vm_compute. discriminate.
  - apply Hiff. vm_compute. reflexivity.
Defined.

(* ------------------------------------------------------------------------- *)
(** ** Webhooks: vocabulary, rejections, unknown sessions, a full delivery *)

(** X4: the outcome each provider status leads to, read backwards.  With
    Persona only "approved" and "completed" approve, only "declined" and
    "failed" decline, only "needs_review" asks for review; with Onfido only
    "approved" approves, only "declined" and "error" decline, only "review"
    asks for review.  With both, a status that is a property name inherited
    from [Object.prototype], and no other, maps to no canonical status: the
    lookup returns the inherited member under that name.  A run without
    status is pending. *)
Theorem provider_status_vocabularies (raw : string) :
  (PersonaProvider.statusMap raw = Canonical approved <->
   raw = "approved" \/ raw = "completed") /\
  (PersonaProvider.statusMap raw = Canonical declined <->
   raw = "declined" \/ raw = "failed") /\
  (PersonaProvider.statusMap raw = Canonical needs_review <->
   raw = "needs_review") /\
  (PersonaProvider.statusMap raw = Inherited raw <->
   Js.inherited_key raw = true) /\
  (OnfidoProvider.statusMap (Some raw) = Canonical approved <->
   raw = "approved") /\
  (OnfidoProvider.statusMap (Some raw) = Canonical declined <->
   raw = "declined" \/ raw = "error") /\
  (OnfidoProvider.statusMap (Some raw) = Canonical needs_review <->
   raw = "review") /\
  (OnfidoProvider.statusMap (Some raw) = Inherited raw <->
   Js.inherited_key raw = true) /\
  (forall key,
      PersonaProvider.statusMap raw = Inherited key
      \/ OnfidoProvider.statusMap (Some raw) = Inherited key ->
      key = raw /\ In raw Js.Object_prototype_keys) /\
  OnfidoProvider.statusMap None = Canonical pending.
Proof.
  assert (Hkeys : Js.inherited_key raw = true -> In raw Js.Object_prototype_keys).
  { unfold Js.inherited_key. intros H. apply existsb_exists in H.
    destruct H as [k [Hin Heq]]. apply String.eqb_eq in Heq. now subst k. }
  unfold PersonaProvider.statusMap, OnfidoProvider.statusMap.
  destruct (Js.inherited_key raw) eqn:Hinh;
    repeat match goal with
           | |- context [String.eqb raw ?s] =>
               destruct (String.eqb_spec raw s);
               [subst raw; try (vm_compute in Hinh; discriminate); cbn |]
           end;
    repeat split; intros; try discriminate; try congruence; auto;
    repeat match goal with
           | H : _ \/ _ |- _ => destruct H
           end; try discriminate; try congruence.
Qed.

Section Webhooks.

Variable env : Env.

Lemma processPersonaWebhook_accepted rawBody signature payload w :
  PersonaProvider.verifyWebhookSignature env rawBody signature = true ->
  KycService.processPersonaWebhook env rawBody signature payload w
  = match payload with
    | None =>
        (inl (BadRequestException "Invalid Persona webhook payload structure"),
         w)
    | Some data =>
        let result := PersonaProvider.mapInquiryToResult data in
        let logged :=
          match PersonaVerificationResult.referenceId result with
          | Some r =>
              add_audit
                {| log_userId := r;
                   log_verificationId := None;
                   log_action := KycAuditAction.WEBHOOK_RECEIVED;
                   log_details :=
                     [ ("provider", JString "persona");
                       ("inquiryId",
                        JString (PersonaVerificationResult.inquiryId result));
                       ("status",
                        KycService.JMappedStatus
                          (PersonaVerificationResult.status result)) ];
                   log_ipAddress := None;
                   log_createdAt := now env |} w
          | None => w
          end in
        match Repo.findOne
                (fun v =>
                   match inquiryId v with
                   | Some i =>
                       String.eqb i (PersonaVerificationResult.inquiryId result)
                   | None => false
                   end) (kycRepo w) with
        | None => (inr tt, logged)
        | Some v =>
            KycService.applyProviderResult env v
              (PersonaVerificationResult.status result)
              (PersonaVerificationResult.verificationId result)
              (PersonaVerificationResult.declinedReasons result)
              (PersonaVerificationResult.providerMetadata result)
              logged
        end
    end.
Proof.
  intros Hok. unfold KycService.processPersonaWebhook. rewrite Hok.
  cbn [negb]. destruct payload as [data |]; [| reflexivity].
  unfold PersonaProvider.parseWebhookPayload. run. cbv zeta.
  destruct (PersonaVerificationResult.referenceId
              (PersonaProvider.mapInquiryToResult data));
    cbn [kycRepo add_audit]; now destruct (Repo.findOne _ (kycRepo w)).
Qed.

Lemma processOnfidoWebhook_accepted token rawBody signature payload w :
  OnfidoProvider.verifyWebhookSignature env token rawBody signature = true ->
  resource_type payload = Some "workflow_run" ->
  KycService.processOnfidoWebhook env token rawBody signature payload w
  = let result :=
      OnfidoProvider.mapWorkflowRunToResult (payload_object payload) in
    match Repo.findOne
            (fun v =>
               match inquiryId v with
               | Some i =>
                   String.eqb i (OnfidoVerificationResult.workflowRunId result)
               | None => false
               end) (kycRepo w) with
    | None => (inr tt, w)
    | Some v =>
        KycService.applyProviderResult env v
          (OnfidoVerificationResult.status result)
          (OnfidoVerificationResult.checkId result)
          (OnfidoVerificationResult.declinedReasons result)
          (OnfidoVerificationResult.providerMetadata result)
          (add_audit
             {| log_userId := userId v;
                log_verificationId := Some (id v);
                log_action := KycAuditAction.WEBHOOK_RECEIVED;
                log_details :=
                  [ ("provider", JString "onfido");
                    ("workflowRunId",
                     JString (OnfidoVerificationResult.workflowRunId result));
                    ("status",
                     KycService.JMappedStatus
                       (OnfidoVerificationResult.status result)) ];
                log_ipAddress := None;
                log_createdAt := now env |} w)
    end.
Proof.
  intros Hok Hresource. unfold KycService.processOnfidoWebhook. rewrite Hok.
  cbn [negb]. unfold OnfidoProvider.parseWebhookPayload. rewrite Hresource.
  rewrite String.eqb_refl. run. cbn [kycRepo]. cbv zeta.
  destruct (Repo.findOne _ (kycRepo w)); reflexivity.
Qed.

End Webhooks.

(** X5: an Onfido webhook is refused in this order and without any trace:
    first for its signature, then for a resource type other than
    "workflow_run" (a missing one reads "undefined").  In both cases the
    handler throws a [BadRequestException] and the world is as before: no
    audit entry, no record touched. *)
Theorem onfido_webhook_refusals
  (env : Env) (token rawBody signature : string) (payload : OnfidoPayload)
  (w : World) :
  (OnfidoProvider.verifyWebhookSignature env token rawBody signature = false ->
   KycService.processOnfidoWebhook env token rawBody signature payload w
   = (inl (BadRequestException "Invalid webhook signature"), w)) /\
  (OnfidoProvider.verifyWebhookSignature env token rawBody signature = true ->
   resource_type payload <> Some "workflow_run" ->
   KycService.processOnfidoWebhook env token rawBody signature payload w
   = (inl (BadRequestException
             ("Unsupported Onfido webhook resource: "
                ++ match resource_type payload with
                   | Some r => r | None => "undefined" end)), w)).
Proof.
  split.
  - intros Hbad. unfold KycService.processOnfidoWebhook. now rewrite Hbad.
  - intros Hok Hresource. unfold KycService.processOnfidoWebhook.
    rewrite Hok. cbn [negb]. unfold OnfidoProvider.parseWebhookPayload. run.
    destruct (resource_type payload) as [r |]; [| reflexivity].
    destruct (String.eqb_spec r "workflow_run") as [-> | _];
      [contradiction | reflexivity].
Qed.

Lemma onfido_webhook_refusals_witness :
  KycService.processOnfidoWebhook (Sample.env 0) "tok" "{}" Sample.digest
    {| resource_type := Some "check"; payload_object := None |}
    (Sample.world [Sample.pending_onfido])
  = (inl (BadRequestException "Unsupported Onfido webhook resource: check"),
     Sample.world [Sample.pending_onfido]).
Proof.
  apply (proj2 (onfido_webhook_refusals (Sample.env 0) "tok" "{}" Sample.digest
                  {| resource_type := Some "check"; payload_object := None |}
                  (Sample.world [Sample.pending_onfido]))).
  - vm_compute. reflexivity.
  - discriminate.
Defined.



(* ------------------------------------------------------------------------- *)
(** ** Updates: what they keep, what repeating them does *)

Lemma touch_assign_idempotent t u v :
  Repo.touch t (Repo.assign (Repo.touch t (Repo.assign v u)) u)
  = Repo.touch t (Repo.assign v u).
Proof.
  destruct u as [[s |] [a |] [b |] [c |] [d |] [e |] [f |] [g |]]; reflexivity.
Qed.

Lemma update_idempotent t key u rows :
  Repo.update t key u (Repo.update t key u rows) = Repo.update t key u rows.
Proof.
  unfold Repo.update. rewrite map_map. apply map_ext. intros v.
  destruct (String.eqb (id v) key) eqn:E.
  - cbn [id Repo.touch Repo.assign]. rewrite E. apply touch_assign_idempotent.
  - now rewrite E.
Qed.

Lemma update_identity t key u rows :
  map identity_of (Repo.update t key u rows) = map identity_of rows.
Proof.
  unfold Repo.update. rewrite map_map. apply map_ext. intros v.
  now destruct (String.eqb (id v) key).
Qed.

Lemma fold_update_identity t u l : forall rows,
  map identity_of
    (fold_left (fun rows x => Repo.update t (id x) u rows) l rows)
  = map identity_of rows.
Proof.
  induction l as [| x l IH]; intros rows; cbn; [reflexivity |].
  now rewrite IH, update_identity.
Qed.

Lemma findOne_first where_ rows v :
  In v rows -> where_ v = true ->
  exists first, Repo.findOne where_ rows = Some first.
Proof.
  intros Hin Hv. destruct (Repo.findOne where_ rows) as [first |] eqn:E.
  - now exists first.
  - pose proof (proj1 (findOne_None _ _) E v Hin). congruence.
Qed.

Section Effects.

Variable env : Env.

(** All of one application of a provider result. *)
Lemma applyVerificationResult_effects verification result :
  exists entry events,
    (forall w,
        KycService.applyVerificationResult env verification result w
        = (inr tt,
           {| kycRepo :=
                Repo.update (now env) (id verification)
                  (KycService.resultUpdates env result) (kycRepo w);
              auditRepo := auditRepo w ++ [entry];
              emitted := emitted w ++ events;
              requests := requests w |})) /\
    log_action entry = KycAuditAction.STATUS_CHANGED /\
    log_userId entry = userId verification /\
    log_verificationId entry = Some (id verification) /\
    map fst events
    = match VerificationResult.status result with
      | approved => [KYC_EVENTS.APPROVED; KYC_EVENTS.LEVEL_CHANGED]
      | declined => [KYC_EVENTS.REJECTED]
      | needs_review | pending => []
      end.
Proof.
  unfold KycService.applyVerificationResult, KycService.resultUpdates. run.
  unfold add_event, add_audit, set_kycRepo.
  destruct (VerificationResult.status result);
    cbn [kycRepo auditRepo emitted requests Repo.u_status].
  - do 2 eexists.
    split; [intros w; rewrite <- app_assoc; reflexivity | repeat split].
  - do 2 eexists. split; [intros w; reflexivity | repeat split].
  - eexists. exists []. split; [intros w; now rewrite app_nil_r | repeat split].
  - eexists. exists []. split; [intros w; now rewrite app_nil_r | repeat split].
Qed.

(** All of one manual review of a record that exists. *)
Lemma manualReview_effects key dto ip w verification :
  Repo.findOne (fun v => String.eqb (id v) key) (kycRepo w)
  = Some verification ->
  KycService.manualReview env key dto ip w
  = (inr (Repo.assign verification (KycService.reviewUpdates env dto)),
     {| kycRepo :=
          Repo.update (now env) key (KycService.reviewUpdates env dto)
            (kycRepo w);
        auditRepo :=
          auditRepo w
            ++ [ {| log_userId := userId verification;
                    log_verificationId := Some key;
                    log_action := KycAuditAction.STATUS_CHANGED;
                    log_details :=
                      [ ("reviewedBy", JString (reviewedBy dto));
                        ("status",
                         JString (KycStatus.value (review_status dto)));
                        ("notes", match notes dto with
                                  | Some n => JString n
                                  | None => JUndefined end);
                        ("manual", JBool true) ];
                    log_ipAddress := ip;
                    log_createdAt := now env |} ];
        emitted :=
          emitted w
            ++ (if KycStatus.eqb (review_status dto) KycStatus.APPROVED
                then [ (KYC_EVENTS.APPROVED,
                        [ ("userId", JString (userId verification));
                          ("level",
                           JNumber (KycLevel.value (level verification)));
                          ("verificationId", JString key);
                          ("manual", JBool true) ]) ]
                else []);
        requests := requests w |}).
Proof.
  intros Hfound. unfold KycService.manualReview. run. rewrite Hfound.
  unfold add_event, add_audit, set_kycRepo.
  destruct (KycStatus.eqb (review_status dto) KycStatus.APPROVED);
    cbn [kycRepo auditRepo emitted requests]; [reflexivity |].
  now rewrite app_nil_r.
Qed.

End Effects.



(** X8: results are not deduplicated.  Applying the same provider result to
    the same record a second time at the same instant leaves the table as
    the first application left it, but writes the STATUS_CHANGED audit entry
    again and publishes the same events again: APPROVED and LEVEL_CHANGED
    twice for an approval, REJECTED twice for a refusal. *)
Theorem repeated_result_repeats_side_effects
  (env : Env) (verification : KycVerification) (result : VerificationResult.t)
  (w : World) :
  let once :=
    snd (KycService.applyVerificationResult env verification result w) in
  let twice :=
    snd (KycService.applyVerificationResult env verification result once) in
  kycRepo twice = kycRepo once /\
  exists entry events,
    auditRepo once = (auditRepo w ++ [entry])%list /\
    auditRepo twice = (auditRepo w ++ [entry; entry])%list /\
    emitted once = (emitted w ++ events)%list /\
    emitted twice = (emitted w ++ events ++ events)%list /\
    log_action entry = KycAuditAction.STATUS_CHANGED /\
    map fst events
    = match VerificationResult.status result with
      | approved => [KYC_EVENTS.APPROVED; KYC_EVENTS.LEVEL_CHANGED]
      | declined => [KYC_EVENTS.REJECTED]
      | needs_review | pending => []
      end.
Proof.
  intros once twice. subst twice once.
  destruct (applyVerificationResult_effects env verification result)
    as [entry [events [Hrun [Haction [_ [_ Hevents]]]]]].
  rewrite !Hrun. cbn [snd kycRepo auditRepo emitted].
  split; [apply update_idempotent |].
  exists entry, events. rewrite <- !app_assoc. repeat split; assumption.
Qed.

(** X9: the operations that change records never add, remove, reorder or
    re-key one, and never change its user, level, provider, attempt number
    or creation stamp.  This holds for applying a provider result, a manual
    review, the expiry sweep, a resume and both webhook handlers, whether
    they succeed or throw. *)
Theorem updates_keep_the_identity_of_records (env : Env) (w : World) :
  (forall verification result,
      map identity_of
        (kycRepo (snd (KycService.applyVerificationResult
                         env verification result w)))
      = map identity_of (kycRepo w)) /\
  (forall key dto ip,
      map identity_of
        (kycRepo (snd (KycService.manualReview env key dto ip w)))
      = map identity_of (kycRepo w)) /\
  map identity_of (kycRepo (snd (KycService.expireVerifications env w)))
  = map identity_of (kycRepo w) /\
  (forall verification,
      map identity_of (kycRepo (snd (KycService.resumeKyc env verification w)))
      = map identity_of (kycRepo w)) /\
  (forall rawBody signature payload,
      map identity_of
        (kycRepo (snd (KycService.processPersonaWebhook
                         env rawBody signature payload w)))
      = map identity_of (kycRepo w)) /\
  (forall token rawBody signature payload,
      map identity_of
        (kycRepo (snd (KycService.processOnfidoWebhook
                         env token rawBody signature payload w)))
      = map identity_of (kycRepo w)).
Proof.
  split; [| split; [| split; [| split; [| split]]]].
  - intros verification result.
    rewrite applyVerificationResult_kycRepo. apply update_identity.
  - intros key dto ip.
    destruct (Repo.findOne (fun v => String.eqb (id v) key) (kycRepo w))
      as [verification |] eqn:Hfound.
    + rewrite (manualReview_kycRepo env key dto ip w verification Hfound).
      apply update_identity.
    + now rewrite (manualReview_not_found env key dto ip w Hfound).
  - rewrite expireVerifications_run, for_of_expireOne. cbn [snd kycRepo].
    apply fold_update_identity.
  - intros verification. unfold KycService.resumeKyc.
    destruct (inquiryId verification) as [inquiry |] eqn:Hinquiry;
      [| reflexivity].
    destruct (String.eqb inquiry "") eqn:Hempty; [reflexivity |].
    unfold bind at 1. rewrite resumeInquiry_run. run.
    destruct (persona_resume env inquiry); cbn [snd kycRepo set_kycRepo add_request];
      try reflexivity.
    apply update_identity.
  - intros rawBody signature payload.
    destruct (PersonaProvider.verifyWebhookSignature env rawBody signature)
      eqn:Hok.
    + rewrite (processPersonaWebhook_accepted env rawBody signature payload w Hok).
      destruct payload as [data |]; [| reflexivity]. cbv zeta.
      destruct (Repo.findOne _ (kycRepo w)) as [v |];
        [| now destruct (PersonaVerificationResult.referenceId _)].
      match goal with
      | |- context [KycService.applyProviderResult env v ?m ?i ?r ?d ?x] =>
          destruct (applyProviderResult_kycRepo env v m i r d x) as [u ->]
      end.
      rewrite update_identity.
      now destruct (PersonaVerificationResult.referenceId _).
    + now rewrite (processPersonaWebhook_rejects env rawBody signature payload w Hok).
  - intros token rawBody signature payload.
    unfold KycService.processOnfidoWebhook.
    destruct (OnfidoProvider.verifyWebhookSignature env token rawBody signature);
      [| reflexivity].
    cbn [negb]. unfold OnfidoProvider.parseWebhookPayload.
    destruct (resource_type payload) as [resource |]; [| reflexivity].
    destruct (String.eqb resource "workflow_run"); [| reflexivity].
    run. cbn [kycRepo].
    destruct (Repo.findOne _ (kycRepo w)) as [v |]; [| reflexivity].
    match goal with
    | |- context [KycService.applyProviderResult env v ?m ?i ?r ?d ?x] =>
        destruct (applyProviderResult_kycRepo env v m i r d x) as [u ->]
    end.
    apply update_identity.
Qed.

(* ------------------------------------------------------------------------- *)
(** ** Manual review *)

(** X10: a manual review of an id no record has throws
    [EntityNotFoundError] and leaves no trace.  For an id that exists it
    returns, writes one STATUS_CHANGED audit entry carrying the caller's
    address, and publishes one APPROVED event when the decision is APPROVED
    and no event at all otherwise: never LEVEL_CHANGED, and no REJECTED for a
    manual rejection. *)
Theorem manual_review_trace
  (env : Env) (key : string) (dto : ManualReviewDto) (ip : option string)
  (w : World) :
  ((forall v, In v (kycRepo w) -> id v <> key) ->
   KycService.manualReview env key dto ip w = (inl EntityNotFoundError, w)) /\
  ((exists v, In v (kycRepo w) /\ id v = key) ->
   exists returned w' entry,
     KycService.manualReview env key dto ip w = (inr returned, w') /\
     auditRepo w' = (auditRepo w ++ [entry])%list /\
     log_action entry = KycAuditAction.STATUS_CHANGED /\
     log_verificationId entry = Some key /\
     log_ipAddress entry = ip /\
     map fst (emitted w')
     = (map fst (emitted w)
          ++ (if KycStatus.eqb (review_status dto) KycStatus.APPROVED
              then [KYC_EVENTS.APPROVED] else []))%list /\
     requests w' = requests w).
Proof.
  split.
  - intros Hnone. apply manualReview_not_found. apply findOne_None.
    intros v Hin. apply String.eqb_neq. now apply Hnone.
  - intros [v [Hin Hid]].
    destruct (findOne_first (fun r => String.eqb (id r) key) (kycRepo w) v Hin)
      as [first Hfirst]; [now apply String.eqb_eq |].
    rewrite (manualReview_effects env key dto ip w first Hfirst).
    do 3 eexists. split; [reflexivity |].
    cbn [auditRepo emitted requests log_action log_verificationId log_ipAddress].
    repeat split. rewrite map_app.
    now destruct (KycStatus.eqb (review_status dto) KycStatus.APPROVED).
Qed.

Lemma manual_review_trace_witness :
  KycService.manualReview (Sample.env 200) "v-missing"
    {| reviewedBy := "admin"; review_status := KycStatus.APPROVED;
       notes := None |} None (Sample.world [Sample.rejected_blurry])
  = (inl EntityNotFoundError, Sample.world [Sample.rejected_blurry]).
Proof.
  apply (proj1 (manual_review_trace (Sample.env 200) "v-missing"
                  {| reviewedBy := "admin"; review_status := KycStatus.APPROVED;
                     notes := None |} None
                  (Sample.world [Sample.rejected_blurry]))).
  intros v [<- | []]. discriminate.
Defined.

(** X11: what a manual review writes on the record.  The status becomes the
    decision.  The rejection reason becomes the notes when notes are given
    and not empty, and otherwise stays what it was: a record rejected with a
    reason and then approved by hand without notes is APPROVED and still
    carries that reason (an approval by a provider result clears it).  A
    decision other than APPROVED leaves [approvedAt] and [expiresAt] as they
    were; APPROVED sets them to now and now + 365 days. *)
Theorem manual_review_writes
  (env : Env) (key : string) (dto : ManualReviewDto) (ip : option string)
  (w : World) (r : KycVerification) :
  In r (kycRepo w) -> id r = key ->
  exists r',
    In r' (kycRepo (snd (KycService.manualReview env key dto ip w))) /\
    identity_of r' = identity_of r /\
    status r' = review_status dto /\
    (Js.truthy (notes dto) = true -> rejectionReason r' = notes dto) /\
    (Js.truthy (notes dto) = false -> rejectionReason r' = rejectionReason r) /\
    (review_status dto = KycStatus.APPROVED ->
     approvedAt r' = Some (now env) /\
     expiresAt r' = Some (now env + VERIFICATION_TTL_MS)) /\
    (review_status dto <> KycStatus.APPROVED ->
     approvedAt r' = approvedAt r /\ expiresAt r' = expiresAt r).
Proof.
  intros Hin Hid.
  destruct (findOne_first (fun v => String.eqb (id v) key) (kycRepo w) r Hin)
    as [first Hfirst]; [now apply String.eqb_eq |].
  rewrite (manualReview_kycRepo env key dto ip w first Hfirst).
  exists (Repo.touch (now env) (Repo.assign r (KycService.reviewUpdates env dto))).
  split; [now apply update_In_same |].
  unfold KycService.reviewUpdates.
  split; [reflexivity |]. split; [reflexivity |].
  cbn [rejectionReason approvedAt expiresAt Repo.touch Repo.assign
         Repo.u_rejectionReason Repo.u_approvedAt Repo.u_expiresAt].
  split; [| split; [| split]].
  - intros Hnotes. now rewrite Hnotes.
  - intros Hnotes. now rewrite Hnotes.
  - intros Hdec. rewrite Hdec. cbn. split; reflexivity.
  - intros Hdec.
    destruct (KycStatus_eqb_spec (review_status dto) KycStatus.APPROVED);
      [contradiction |]. split; reflexivity.
Qed.

Lemma manual_review_writes_witness :
  exists r',
    In r' (kycRepo (snd (KycService.manualReview (Sample.env 200) "v6"
                           {| reviewedBy := "admin";
                              review_status := KycStatus.APPROVED;
                              notes := None |} None
                           (Sample.world [Sample.rejected_blurry])))) /\
    status r' = KycStatus.APPROVED /\
    rejectionReason r' = Some "document blurry".
Proof.
  destruct (manual_review_writes (Sample.env 200) "v6"
              {| reviewedBy := "admin"; review_status := KycStatus.APPROVED;
                 notes := None |} None
              (Sample.world [Sample.rejected_blurry]) Sample.rejected_blurry)
    as [r' [Hin [_ [Hstatus [_ [Hkept _]]]]]].
  - cbn. auto.
  - reflexivity.
  - exists r'. split; [exact Hin |]. split; [exact Hstatus |].
    apply Hkept. reflexivity.
Defined.

(* ------------------------------------------------------------------------- *)
(** ** Starting a verification: the record created, the table kept *)

Lemma update_fresh t key u rows :
  ~ In key (map id rows) -> Repo.update t key u rows = rows.
Proof.
  intros Hfresh. unfold Repo.update.
  rewrite <- (map_id rows) at 2. apply map_ext_in. intros v Hin.
  destruct (String.eqb_spec (id v) key) as [E | E]; [| reflexivity].
  exfalso. apply Hfresh. rewrite <- E. now apply in_map.
Qed.

Lemma update_saved_fresh t u v rows :
  ~ In (id v) (map id rows) ->
  Repo.update t (id v) u (Repo.save v rows)
  = (rows ++ [Repo.touch t (Repo.assign v u)])%list.
Proof.
  intros Hfresh. unfold Repo.save, Repo.update. rewrite map_app. cbn [map].
  rewrite String.eqb_refl. f_equal. now apply update_fresh.
Qed.

Lemma ids_of_identity a b :
  map identity_of a = map identity_of b -> map id a = map id b.
Proof.
  intros H.
  assert (Hproj : forall l,
             map id l = map (fun x => fst (fst (fst (fst (fst x)))))
                            (map identity_of l)).
  { intros l. rewrite map_map. now apply map_ext. }
  now rewrite (Hproj a), (Hproj b), H.
Qed.

Lemma levels_of_identity a b :
  map identity_of a = map identity_of b -> map level a = map level b.
Proof.
  intros H.
  assert (Hproj : forall l,
             map level l = map (fun x => snd (fst (fst (fst x))))
                               (map identity_of l)).
  { intros l. rewrite map_map. now apply map_ext. }
  now rewrite (Hproj a), (Hproj b), H.
Qed.

Section Opening.

Variable env : Env.

(** The [try] block either throws before it has written to the table, or
    returns after one update of the record it was given. *)
Lemma openSession_table u dto ip p attempt verification w :
  (exists e w',
      KycService.openSession env u dto ip p attempt verification w = (inl e, w')
      /\ same_tables w w') \/
  (exists response updates w',
      KycService.openSession env u dto ip p attempt verification w
      = (inr response, w') /\
      kycRepo w'
      = Repo.update (now env) (id verification) updates (kycRepo w)).
Proof.
  destruct (KycService.openSession env u dto ip p attempt verification w)
    as [[e | response] w'] eqn:Hrun.
  - left. exists e, w'. split; [reflexivity |].
    unfold KycService.openSession, PersonaProvider.createInquiry,
      OnfidoProvider.createApplicantSession, PersonaProvider.request,
      OnfidoProvider.request in Hrun.
    run. destruct p.
    + destruct (persona_inquiries env u (targetLevel dto) (redirectUrl dto))
        as [[i t] | d | m]; inversion Hrun; now repeat split.
    + destruct (onfido_applicants env u) as [a | d | m];
        [| inversion Hrun; now repeat split | inversion Hrun; now repeat split].
      destruct (onfido_workflow_runs env a) as [r | d | m];
        [| inversion Hrun; now repeat split | inversion Hrun; now repeat split].
      destruct (onfido_sdk_token env a) as [t | d | m];
        inversion Hrun; now repeat split.
  - right. exists response.
    unfold KycService.openSession, PersonaProvider.createInquiry,
      OnfidoProvider.createApplicantSession, PersonaProvider.request,
      OnfidoProvider.request in Hrun.
    run. destruct p.
    + destruct (persona_inquiries env u (targetLevel dto) (redirectUrl dto))
        as [[i t] | d | m]; inversion Hrun.
      do 2 eexists. split; reflexivity.
    + destruct (onfido_applicants env u) as [a | d | m];
        [| inversion Hrun | inversion Hrun].
      destruct (onfido_workflow_runs env a) as [r | d | m];
        [| inversion Hrun | inversion Hrun].
      destruct (onfido_sdk_token env a) as [t | d | m]; inversion Hrun.
      do 2 eexists. split; reflexivity.
Qed.

End Opening.

Section Table.

Variable env : Env.

(** The record [startKyc] inserts for a request. *)
Let fresh_record (u : string) (dto : StartKycDto) (w : World)
  : KycVerification :=
  KycService.newVerification env u (targetLevel dto)
    (match dto_provider dto with Some p => p | None => KycProvider.PERSONA end)
    (Repo.count (fun v => String.eqb (userId v) u
                          && KycLevel.eqb (level v) (targetLevel dto))
                (kycRepo w) + 1).

Lemma createVerification_table u dto ip w :
  ~ In (uuid env) (map id (kycRepo w)) ->
  (exists e w',
      KycService.createVerification env u dto ip w = (inl e, w')
      /\ kycRepo w' = kycRepo w) \/
  (exists response updates w',
      KycService.createVerification env u dto ip w = (inr response, w') /\
      kycRepo w'
      = (kycRepo w
           ++ [Repo.touch (now env)
                 (Repo.assign (fresh_record u dto w) updates)])%list).
Proof.
  intros Hfresh.
  unfold KycService.createVerification, KycService.getAttemptCount. run.
  unfold fresh_record.
  destruct (openSession_table env u dto ip
              (match dto_provider dto with
               | Some p => p | None => KycProvider.PERSONA end)
              (Repo.count (fun v => String.eqb (userId v) u
                                    && KycLevel.eqb (level v) (targetLevel dto))
                          (kycRepo w))
              (fresh_record u dto w)
              (set_kycRepo (Repo.save (fresh_record u dto w)) w))
    as [[e [w' [Hrun [Hrepo _]]]] | [response [updates [w' [Hrun Hrepo]]]]];
    unfold fresh_record in Hrun, Hrepo; rewrite Hrun.
  - left. do 2 eexists. split; [reflexivity |].
    cbn [kycRepo set_kycRepo] in *. rewrite <- Hrepo.
    now apply (delete_save_fresh (fresh_record u dto w)).
  - right. exists response, updates, w'. split; [reflexivity |].
    rewrite Hrepo. cbn [kycRepo set_kycRepo].
    now apply (update_saved_fresh (now env) updates (fresh_record u dto w)).
Qed.

(** The paths of [startKyc]. *)
Lemma startKyc_run u dto ip w :
  KycService.startKyc env u dto ip w
  = if KycLevel.eqb (targetLevel dto) KycLevel.NONE
    then (inl (BadRequestException "Cannot initiate KYC for level 0"), w)
    else
      match fst (KycService.checkPrerequisite u (targetLevel dto) w) with
      | inl e => (inl e, w)
      | inr _ =>
          match Repo.findOne
                  (KycService.where_user_level_status u (targetLevel dto)
                     KycStatus.PENDING) (kycRepo w) with
          | Some existing =>
              if Js.truthy (inquiryId existing)
              then KycService.resumeKyc env existing w
              else KycService.createVerification env u dto ip w
          | None => KycService.createVerification env u dto ip w
          end
      end.
Proof.
  unfold KycService.startKyc.
  destruct (KycLevel.eqb (targetLevel dto) KycLevel.NONE); [reflexivity |].
  unfold bind at 1. rewrite checkPrerequisite_run. cbn [fst].
  destruct (match LEVEL_PREREQUISITES (targetLevel dto) with
            | Some prereq => _ | None => _ end) as [e | []];
    [reflexivity |].
  unfold KycService.resumeOrCreate. run.
  destruct (Repo.findOne _ (kycRepo w)) as [existing |]; [| reflexivity].
  now destruct (Js.truthy (inquiryId existing)).
Qed.

(** Every way through [startKyc] leaves the records it found in place, and
    adds at most the one it created. *)
Lemma startKyc_table u dto ip w :
  ~ In (uuid env) (map id (kycRepo w)) ->
  map identity_of (kycRepo (snd (KycService.startKyc env u dto ip w)))
  = map identity_of (kycRepo w) \/
  (targetLevel dto <> KycLevel.NONE /\
   exists response,
     fst (KycService.startKyc env u dto ip w) = inr response /\
     map identity_of (kycRepo (snd (KycService.startKyc env u dto ip w)))
     = (map identity_of (kycRepo w)
          ++ [identity_of (fresh_record u dto w)])%list).
Proof.
  intros Hfresh. rewrite startKyc_run.
  destruct (KycLevel.eqb (targetLevel dto) KycLevel.NONE) eqn:Hlevel;
    [now left |].
  assert (Hnot : targetLevel dto <> KycLevel.NONE).
  { intros E. apply KycLevel_eqb_eq in E. congruence. }
  destruct (fst (KycService.checkPrerequisite u (targetLevel dto) w))
    as [e | []]; [now left |].
  assert (Hcreate :
            map identity_of
              (kycRepo (snd (KycService.createVerification env u dto ip w)))
            = map identity_of (kycRepo w) \/
            (targetLevel dto <> KycLevel.NONE /\
             exists response,
               fst (KycService.createVerification env u dto ip w) = inr response /\
               map identity_of
                 (kycRepo (snd (KycService.createVerification env u dto ip w)))
               = (map identity_of (kycRepo w)
                    ++ [identity_of (fresh_record u dto w)])%list)).
  { destruct (createVerification_table u dto ip w Hfresh)
      as [[e [w' [Hrun Hrepo]]] | [response [updates [w' [Hrun Hrepo]]]]];
      rewrite Hrun; cbn [fst snd].
    - left. now rewrite Hrepo.
    - right. split; [exact Hnot |]. exists response. split; [reflexivity |].
      rewrite Hrepo, map_app. reflexivity. }
  destruct (Repo.findOne _ (kycRepo w)) as [existing |]; [| exact Hcreate].
  destruct (Js.truthy (inquiryId existing)); [| exact Hcreate].
  left. unfold KycService.resumeKyc.
  destruct (inquiryId existing) as [inquiry |]; [| reflexivity].
  destruct (String.eqb inquiry ""); [reflexivity |].
  unfold bind at 1. rewrite resumeInquiry_run. run.
  destruct (persona_resume env inquiry);
    cbn [snd kycRepo set_kycRepo add_request]; try reflexivity.
  apply update_identity.
Qed.

End Table.

(** X12: [startKyc] keeps the table sound.  On a table with a primary key,
    given a fresh generated key, every outcome of [startKyc], success or
    exception, leaves a table with a primary key in which every record found
    before is still in place with the same user, level, provider, attempt
    number and creation stamp; at most one record is added, and only by a
    successful call: its level is the requested one, which is not NONE, and
    its attempt number is the number of records the user had at that level
    plus one.  So no record of level NONE ever enters the table. *)
Theorem startKyc_keeps_the_table_sound
  (env : Env) (u : string) (dto : StartKycDto) (ip : option string)
  (w : World) :
  NoDup (map id (kycRepo w)) ->
  ~ In (uuid env) (map id (kycRepo w)) ->
  let w' := snd (KycService.startKyc env u dto ip w) in
  NoDup (map id (kycRepo w')) /\
  ((forall v, In v (kycRepo w) -> level v <> KycLevel.NONE) ->
   forall v, In v (kycRepo w') -> level v <> KycLevel.NONE) /\
  (map identity_of (kycRepo w') = map identity_of (kycRepo w) \/
   exists created response,
     fst (KycService.startKyc env u dto ip w) = inr response /\
     map identity_of (kycRepo w')
     = (map identity_of (kycRepo w) ++ [identity_of created])%list /\
     id created = uuid env /\ userId created = u /\
     level created = targetLevel dto /\
     targetLevel dto <> KycLevel.NONE /\
     attemptCount created
     = Repo.count (fun v => String.eqb (userId v) u
                            && KycLevel.eqb (level v) (targetLevel dto))
                  (kycRepo w) + 1).
Proof.
  intros Hkey Hfresh w'. subst w'.
  destruct (startKyc_table env u dto ip w Hfresh)
    as [Hsame | [Hnot [response [Hok Hadded]]]].
  - split; [| split].
    + now rewrite (ids_of_identity _ _ Hsame).
    + intros Hlevels v Hin. apply (in_map level) in Hin.
      rewrite (levels_of_identity _ _ Hsame) in Hin.
      apply in_map_iff in Hin. destruct Hin as [v0 [Hv0 Hin0]].
      rewrite <- Hv0. now apply Hlevels.
    + now left.
  - match type of Hadded with
    | _ = (_ ++ [identity_of ?c])%list => set (created := c) in *
    end.
    assert (Hwhole : map identity_of
                       (kycRepo (snd (KycService.startKyc env u dto ip w)))
                     = map identity_of (kycRepo w ++ [created])).
    { rewrite map_app. exact Hadded. }
    pose proof (ids_of_identity _ _ Hwhole) as Hids.
    pose proof (levels_of_identity _ _ Hwhole) as Hlevels'.
    rewrite map_app in Hids, Hlevels'. cbn [map] in Hids, Hlevels'.
    change (id created) with (uuid env) in Hids.
    change (level created) with (targetLevel dto) in Hlevels'.
    split; [| split].
    + rewrite Hids. apply NoDup_app_remove_l with (l := []).
      cbn [app]. apply Permutation_NoDup with (l := uuid env :: map id (kycRepo w)).
      * change (uuid env :: map id (kycRepo w))
          with ([uuid env] ++ map id (kycRepo w))%list.
        apply Permutation_app_comm.
      * now constructor.
    + intros Hlevels v Hin. apply (in_map level) in Hin.
      rewrite Hlevels' in Hin. apply in_app_or in Hin.
      destruct Hin as [Hin | [<- | []]].
      * apply in_map_iff in Hin. destruct Hin as [v0 [Hv0 Hin0]].
        rewrite <- Hv0. now apply Hlevels.
      * exact Hnot.
    + right. exists created, response. split; [exact Hok |].
      split; [exact Hadded |]. repeat split. exact Hnot.
Qed.

Lemma startKyc_keeps_the_table_sound_witness :
  NoDup (map id (kycRepo (snd (KycService.startKyc (Sample.env 200) "u1"
                                 Sample.enhanced_persona None
                                 (Sample.world
                                    [Sample.basic_until_100;
                                     Sample.pending_onfido]))))).
Proof.
  apply (startKyc_keeps_the_table_sound (Sample.env 200) "u1"
           Sample.enhanced_persona None
           (Sample.world [Sample.basic_until_100; Sample.pending_onfido])).
  - primary_key.
  - cbn. intuition discriminate.
Defined.

Section Created.

Variable env : Env.

Lemma createVerification_persona u dto ip inquiry token w :
  ~ In (uuid env) (map id (kycRepo w)) ->
  dto_provider dto <> Some KycProvider.ONFIDO ->
  persona_inquiries env u (targetLevel dto) (redirectUrl dto)
  = Ok (inquiry, token) ->
  let attempts :=
    Repo.count (fun v => String.eqb (userId v) u
                         && KycLevel.eqb (level v) (targetLevel dto))
               (kycRepo w) + 1 in
  KycService.createVerification env u dto ip w
  = (inr {| StartKycResponseDto.verificationRecordId := uuid env;
            StartKycResponseDto.inquiryId := inquiry;
            StartKycResponseDto.sessionToken := token;
            StartKycResponseDto.widgetUrl :=
              "https://withpersona.com/verify?inquiry-id=" ++ inquiry
                ++ "&session-token=" ++ token |},
     {| kycRepo :=
          kycRepo w
            ++ [ {| id := uuid env; userId := u; level := targetLevel dto;
                    status := KycStatus.PENDING;
                    provider := KycProvider.PERSONA;
                    verificationId := None; inquiryId := Some inquiry;
                    sessionToken := Some token; approvedAt := None;
                    expiresAt := None; rejectionReason := None;
                    providerMetadata := []; attemptCount := attempts;
                    createdAt := now env; updatedAt := now env |} ];
        auditRepo :=
          auditRepo w
            ++ [ {| log_userId := u;
                    log_verificationId := Some (uuid env);
                    log_action := KycAuditAction.INITIATED;
                    log_details :=
                      [ ("level", JNumber (KycLevel.value (targetLevel dto)));
                        ("provider", JString "persona");
                        ("attemptCount", JNumber attempts) ];
                    log_ipAddress := ip;
                    log_createdAt := now env |} ];
        emitted :=
          emitted w
            ++ [ (KYC_EVENTS.INITIATED,
                  [ ("userId", JString u);
                    ("level", JNumber (KycLevel.value (targetLevel dto)));
                    ("verificationId", JString (uuid env)) ]) ];
        requests :=
          requests w ++ [mkRequest KycProvider.PERSONA "POST" "/inquiries"] |}).
Proof.
  intros Hfresh Hprovider Hanswer attempts.
  assert (Hchosen : match dto_provider dto with
                    | Some p => p | None => KycProvider.PERSONA end
                    = KycProvider.PERSONA).
  { destruct (dto_provider dto) as [[|] |]; congruence. }
  unfold KycService.createVerification, KycService.getAttemptCount.
  rewrite Hchosen.
  unfold KycService.openSession, PersonaProvider.createInquiry,
    PersonaProvider.request.
  run. rewrite Hanswer.
  unfold add_event, add_audit, set_kycRepo, add_request.
  cbn [kycRepo auditRepo emitted requests PersonaInquirySession.inquiryId
         PersonaInquirySession.sessionToken PersonaInquirySession.widgetUrl
         id KycService.newVerification].
  f_equal. f_equal.
  change (uuid env)
    with (id (KycService.newVerification env u (targetLevel dto)
                KycProvider.PERSONA attempts)) at 1.
  rewrite update_saved_fresh; [reflexivity | exact Hfresh].
Qed.

End Created.

(** X13: what a successful start with Persona leaves behind.  When the call
    creates a record and Persona answers with an inquiry and a token, the
    response carries the new record id, the inquiry, the token and the
    widget URL; the table gains exactly one PENDING record holding the
    inquiry and the token, whose attempt number is the number of records the
    user already had at that level plus one; one INITIATED audit entry with
    the caller's address and one INITIATED event are written; one request,
    [POST /inquiries], was sent. *)
Theorem startKyc_with_persona_creates_the_record
  (env : Env) (u : string) (dto : StartKycDto) (ip : option string)
  (inquiry token : string) (w : World) :
  targetLevel dto <> KycLevel.NONE ->
  fst (KycService.checkPrerequisite u (targetLevel dto) w) = inr tt ->
  (forall v,
      Repo.findOne
        (KycService.where_user_level_status u (targetLevel dto) KycStatus.PENDING)
        (kycRepo w) = Some v ->
      Js.truthy (inquiryId v) = false) ->
  ~ In (uuid env) (map id (kycRepo w)) ->
  dto_provider dto <> Some KycProvider.ONFIDO ->
  persona_inquiries env u (targetLevel dto) (redirectUrl dto)
  = Ok (inquiry, token) ->
  let attempts :=
    Repo.count (fun v => String.eqb (userId v) u
                         && KycLevel.eqb (level v) (targetLevel dto))
               (kycRepo w) + 1 in
  exists w',
    KycService.startKyc env u dto ip w
    = (inr {| StartKycResponseDto.verificationRecordId := uuid env;
              StartKycResponseDto.inquiryId := inquiry;
              StartKycResponseDto.sessionToken := token;
              StartKycResponseDto.widgetUrl :=
                "https://withpersona.com/verify?inquiry-id=" ++ inquiry
                  ++ "&session-token=" ++ token |}, w') /\
    kycRepo w'
    = (kycRepo w
         ++ [ {| id := uuid env; userId := u; level := targetLevel dto;
                 status := KycStatus.PENDING;
                 provider := KycProvider.PERSONA;
                 verificationId := None; inquiryId := Some inquiry;
                 sessionToken := Some token; approvedAt := None;
                 expiresAt := None; rejectionReason := None;
                 providerMetadata := []; attemptCount := attempts;
                 createdAt := now env; updatedAt := now env |} ])%list /\
    (exists entry,
        auditRepo w' = (auditRepo w ++ [entry])%list /\
        log_action entry = KycAuditAction.INITIATED /\
        log_userId entry = u /\
        log_verificationId entry = Some (uuid env) /\
        log_ipAddress entry = ip) /\
    (exists payload,
        emitted w' = (emitted w ++ [(KYC_EVENTS.INITIATED, payload)])%list) /\
    requests w'
    = (requests w ++ [mkRequest KycProvider.PERSONA "POST" "/inquiries"])%list.
Proof.
  intros Hlevel Hpre Hnothing Hfresh Hprovider Hanswer attempts.
  rewrite startKyc_run.
  destruct (KycLevel.eqb (targetLevel dto) KycLevel.NONE) eqn:E;
    [apply KycLevel_eqb_eq in E; contradiction |].
  rewrite Hpre.
  assert (Hcreate :
            KycService.createVerification env u dto ip w
            = KycService.createVerification env u dto ip w) by reflexivity.
  rewrite (createVerification_persona env u dto ip inquiry token w
             Hfresh Hprovider Hanswer) in Hcreate at 2.
  cbv zeta in Hcreate. fold attempts in Hcreate.
  assert (Hpath :
            match Repo.findOne
                    (KycService.where_user_level_status u (targetLevel dto)
                       KycStatus.PENDING) (kycRepo w) with
            | Some existing =>
                if Js.truthy (inquiryId existing)
                then KycService.resumeKyc env existing w
                else KycService.createVerification env u dto ip w
            | None => KycService.createVerification env u dto ip w
            end = KycService.createVerification env u dto ip w).
  { destruct (Repo.findOne _ (kycRepo w)) as [existing |] eqn:Hfind;
      [| reflexivity].
    now rewrite (Hnothing existing eq_refl). }
  rewrite Hpath, Hcreate.
  eexists. split; [reflexivity |].
  cbn [kycRepo auditRepo emitted requests].
  split; [reflexivity |]. split; [| split; [| reflexivity]].
  - eexists. split; [reflexivity |]. repeat split.
  - eexists. reflexivity.
Qed.

Lemma startKyc_with_persona_creates_the_record_witness :
  exists w',
    fst (KycService.startKyc (Sample.env 200) "u1"
           (Sample.basic_with KycProvider.PERSONA) (Some "10.0.0.1")
           (Sample.world [Sample.rejected_blurry; Sample.pending_fresh]))
    = inr {| StartKycResponseDto.verificationRecordId := "v-new";
             StartKycResponseDto.inquiryId := "inq-1";
             StartKycResponseDto.sessionToken := "tok-1";
             StartKycResponseDto.widgetUrl :=
               "https://withpersona.com/verify?inquiry-id=inq-1&session-token=tok-1" |}
    /\ snd (KycService.startKyc (Sample.env 200) "u1"
              (Sample.basic_with KycProvider.PERSONA) (Some "10.0.0.1")
              (Sample.world [Sample.rejected_blurry; Sample.pending_fresh]))
       = w'
    /\ map attemptCount (kycRepo w') = [1; 1; 3].
Proof.
  destruct (startKyc_with_persona_creates_the_record (Sample.env 200) "u1"
              (Sample.basic_with KycProvider.PERSONA) (Some "10.0.0.1")
              "inq-1" "tok-1"
              (Sample.world [Sample.rejected_blurry; Sample.pending_fresh]))
    as [w' [Hrun [Hrepo _]]].
  - discriminate.
  - reflexivity.
  - intros v Hfind. vm_compute in Hfind. inversion Hfind. reflexivity.
  - cbn. intuition discriminate.
  - discriminate.
  - reflexivity.
  - exists w'. rewrite Hrun. split; [reflexivity |]. split; [reflexivity |].
    rewrite Hrepo. reflexivity.
Defined.

Section OnfidoStart.

Variable env : Env.

(** When nothing is there to resume, [startKyc] is the creation. *)
Lemma startKyc_creates u dto ip w :
  targetLevel dto <> KycLevel.NONE ->
  fst (KycService.checkPrerequisite u (targetLevel dto) w) = inr tt ->
  (forall v,
      Repo.findOne
        (KycService.where_user_level_status u (targetLevel dto) KycStatus.PENDING)
        (kycRepo w) = Some v ->
      Js.truthy (inquiryId v) = false) ->
  KycService.startKyc env u dto ip w
  = KycService.createVerification env u dto ip w.
Proof.
  intros Hlevel Hpre Hnothing. rewrite startKyc_run.
  destruct (KycLevel.eqb (targetLevel dto) KycLevel.NONE) eqn:E;
    [apply KycLevel_eqb_eq in E; contradiction |].
  rewrite Hpre.
  destruct (Repo.findOne _ (kycRepo w)) as [existing |] eqn:Hfind;
    [| reflexivity].
  now rewrite (Hnothing existing eq_refl).
Qed.

Lemma createVerification_onfido u dto ip applicant w :
  ~ In (uuid env) (map id (kycRepo w)) ->
  dto_provider dto = Some KycProvider.ONFIDO ->
  onfido_applicants env u = Ok applicant ->
  let attempts :=
    Repo.count (fun v => String.eqb (userId v) u
                         && KycLevel.eqb (level v) (targetLevel dto))
               (kycRepo w) + 1 in
  let sent paths :=
    (requests w ++ map (mkRequest KycProvider.ONFIDO "POST") paths)%list in
  let failed e paths :=
    (@inl Exception StartKycResponseDto.t e,
     {| kycRepo := kycRepo w; auditRepo := auditRepo w;
        emitted := emitted w; requests := sent paths |}) in
  KycService.createVerification env u dto ip w
  = match onfido_workflow_runs env applicant with
    | NotOk detail =>
        failed (BadRequestException ("Onfido API error: " ++ detail))
          ["/applicants"; "/workflow_runs"]
    | Rejected message =>
        failed (FetchError message) ["/applicants"; "/workflow_runs"]
    | Ok run =>
        match onfido_sdk_token env applicant with
        | NotOk detail =>
            failed (BadRequestException ("Onfido API error: " ++ detail))
              ["/applicants"; "/workflow_runs"; "/sdk_token"]
        | Rejected message =>
            failed (FetchError message)
              ["/applicants"; "/workflow_runs"; "/sdk_token"]
        | Ok sdk =>
            (inr {| StartKycResponseDto.verificationRecordId := uuid env;
                    StartKycResponseDto.inquiryId := run;
                    StartKycResponseDto.sessionToken := sdk;
                    StartKycResponseDto.widgetUrl := EmptyString |},
             {| kycRepo :=
                  kycRepo w
                    ++ [ {| id := uuid env; userId := u;
                            level := targetLevel dto;
                            status := KycStatus.PENDING;
                            provider := KycProvider.ONFIDO;
                            verificationId := Some applicant;
                            inquiryId := Some run;
                            sessionToken := Some sdk; approvedAt := None;
                            expiresAt := None; rejectionReason := None;
                            providerMetadata := []; attemptCount := attempts;
                            createdAt := now env; updatedAt := now env |} ];
                auditRepo :=
                  auditRepo w
                    ++ [ {| log_userId := u;
                            log_verificationId := Some (uuid env);
                            log_action := KycAuditAction.INITIATED;
                            log_details :=
                              [ ("level",
                                 JNumber (KycLevel.value (targetLevel dto)));
                                ("provider", JString "onfido");
                                ("attemptCount", JNumber attempts) ];
                            log_ipAddress := ip;
                            log_createdAt := now env |} ];
                emitted :=
                  emitted w
                    ++ [ (KYC_EVENTS.INITIATED,
                          [ ("userId", JString u);
                            ("level",
                             JNumber (KycLevel.value (targetLevel dto)));
                            ("verificationId", JString (uuid env)) ]) ];
                requests :=
                  sent ["/applicants"; "/workflow_runs"; "/sdk_token"] |})
        end
    end.
Proof.
  intros Hfresh Hprovider Happlicant attempts sent failed.
  subst failed sent attempts. cbv beta.
  unfold KycService.createVerification, KycService.getAttemptCount.
  rewrite Hprovider.
  unfold KycService.openSession, OnfidoProvider.createApplicantSession,
    OnfidoProvider.request.
  run. rewrite Happlicant.
  unfold add_event, add_audit, set_kycRepo, add_request.
  pose proof (delete_save_fresh
                (KycService.newVerification env u (targetLevel dto)
                   KycProvider.ONFIDO
                   (Repo.count
                      (fun v => String.eqb (userId v) u
                                && KycLevel.eqb (level v) (targetLevel dto))
                      (kycRepo w) + 1)) (kycRepo w) Hfresh) as Hdelete.
  cbn [id KycService.newVerification] in Hdelete.
  destruct (onfido_workflow_runs env applicant) as [run | d | m];
    cbn [kycRepo auditRepo emitted requests map id
           KycService.newVerification];
    [| rewrite Hdelete, <- app_assoc; reflexivity
     | rewrite Hdelete, <- app_assoc; reflexivity].
  destruct (onfido_sdk_token env applicant) as [sdk | d | m];
    cbn [kycRepo auditRepo emitted requests map id
           KycService.newVerification OnfidoApplicantSession.applicantId
           OnfidoApplicantSession.workflowRunId
           OnfidoApplicantSession.sdkToken];
    [| rewrite Hdelete, <- !app_assoc; reflexivity
     | rewrite Hdelete, <- !app_assoc; reflexivity].
  rewrite <- !app_assoc. cbn [app]. f_equal. f_equal.
  change (uuid env)
    with (id (KycService.newVerification env u (targetLevel dto)
                KycProvider.ONFIDO
                (Repo.count
                   (fun v => String.eqb (userId v) u
                             && KycLevel.eqb (level v) (targetLevel dto))
                   (kycRepo w) + 1))) at 1.
  rewrite update_saved_fresh; [reflexivity | exact Hfresh].
Qed.

End OnfidoStart.

(** X14: a start with Onfido talks to the provider in three steps,
    [POST /applicants], [POST /workflow_runs], [POST /sdk_token], and stops
    at the first that fails.  When the applicant is created but the workflow
    run is refused, the call throws, the local record is rolled back with no
    audit entry and no event, the SDK token is never asked for, and no
    request is sent to undo the applicant.  When all three succeed, the new
    PENDING record stores the applicant as [verificationId], the workflow run
    as [inquiryId] and the SDK token, and the response has an empty widget
    URL. *)
Theorem startKyc_with_onfido_goes_step_by_step
  (env : Env) (u : string) (dto : StartKycDto) (ip : option string)
  (applicant : string) (w : World) :
  targetLevel dto <> KycLevel.NONE ->
  fst (KycService.checkPrerequisite u (targetLevel dto) w) = inr tt ->
  (forall v,
      Repo.findOne
        (KycService.where_user_level_status u (targetLevel dto) KycStatus.PENDING)
        (kycRepo w) = Some v ->
      Js.truthy (inquiryId v) = false) ->
  ~ In (uuid env) (map id (kycRepo w)) ->
  dto_provider dto = Some KycProvider.ONFIDO ->
  onfido_applicants env u = Ok applicant ->
  let sent paths :=
    (requests w ++ map (mkRequest KycProvider.ONFIDO "POST") paths)%list in
  ((forall run, onfido_workflow_runs env applicant <> Ok run) ->
   exists e w',
     KycService.startKyc env u dto ip w = (inl e, w') /\
     kycRepo w' = kycRepo w /\ auditRepo w' = auditRepo w /\
     emitted w' = emitted w /\
     requests w' = sent ["/applicants"; "/workflow_runs"]) /\
  (forall run sdk,
      onfido_workflow_runs env applicant = Ok run ->
      onfido_sdk_token env applicant = Ok sdk ->
      exists created w',
        KycService.startKyc env u dto ip w
        = (inr {| StartKycResponseDto.verificationRecordId := uuid env;
                  StartKycResponseDto.inquiryId := run;
                  StartKycResponseDto.sessionToken := sdk;
                  StartKycResponseDto.widgetUrl := EmptyString |}, w') /\
        kycRepo w' = (kycRepo w ++ [created])%list /\
        id created = uuid env /\
        status created = KycStatus.PENDING /\
        provider created = KycProvider.ONFIDO /\
        verificationId created = Some applicant /\
        inquiryId created = Some run /\
        sessionToken created = Some sdk /\
        requests w' = sent ["/applicants"; "/workflow_runs"; "/sdk_token"]).
Proof.
  intros Hlevel Hpre Hnothing Hfresh Hprovider Happlicant sent.
  rewrite (startKyc_creates env u dto ip w Hlevel Hpre Hnothing).
  rewrite (createVerification_onfido env u dto ip applicant w Hfresh Hprovider
             Happlicant).
  cbv zeta beta. split.
  - intros Hfail.
    destruct (onfido_workflow_runs env applicant) as [run | d | m].
    + exfalso. now apply (Hfail run).
    + do 2 eexists. split; [reflexivity |]. now repeat split.
    + do 2 eexists. split; [reflexivity |]. now repeat split.
  - intros run sdk Hrun Hsdk. rewrite Hrun, Hsdk.
    do 2 eexists. split; [reflexivity |]. now repeat split.
Qed.

Lemma startKyc_with_onfido_goes_step_by_step_witness :
  exists e w',
    KycService.startKyc
      (Sample.env_with (Ok ("inq-1", "tok-1")) (Rejected "timeout") 200)
      "u2" (Sample.basic_with KycProvider.ONFIDO) None
      (Sample.world [Sample.basic_until_100])
    = (inl e, w') /\
    kycRepo w' = [Sample.basic_until_100] /\
    requests w'
    = [mkRequest KycProvider.ONFIDO "POST" "/applicants";
       mkRequest KycProvider.ONFIDO "POST" "/workflow_runs"].
Proof.
  destruct (startKyc_with_onfido_goes_step_by_step
              (Sample.env_with (Ok ("inq-1", "tok-1")) (Rejected "timeout") 200)
              "u2" (Sample.basic_with KycProvider.ONFIDO) None "app-1"
              (Sample.world [Sample.basic_until_100]))
    as [Hfail _].
  - discriminate.
  - reflexivity.
  - intros v Hfind. vm_compute in Hfind. discriminate.
  - cbn. intuition discriminate.
  - reflexivity.
  - reflexivity.
  - destruct Hfail as [e [w' [Hrun [Hrepo [_ [_ Hsent]]]]]];
      [intros run; discriminate |].
    exists e, w'. split; [exact Hrun |]. split; [exact Hrepo | exact Hsent].
Defined.

(** X15: a resume is silent.  Resuming a record that has an inquiry writes
    no audit entry and publishes no event, whether Persona answers or not.
    When Persona does not answer with a token the call throws and the table
    is as before; when it does, the record keeps its status, its inquiry and
    its identity, and only its session token (and update stamp) change. *)
Theorem resume_is_silent
  (env : Env) (verification : KycVerification) (inquiry : string) (w : World) :
  inquiryId verification = Some inquiry ->
  inquiry <> EmptyString ->
  let outcome := KycService.resumeKyc env verification w in
  auditRepo (snd outcome) = auditRepo w /\
  emitted (snd outcome) = emitted w /\
  ((forall token, persona_resume env inquiry <> Ok token) ->
   (exists e, fst outcome = inl e) /\ kycRepo (snd outcome) = kycRepo w) /\
  (forall token r,
      persona_resume env inquiry = Ok token ->
      In r (kycRepo w) -> id r = id verification ->
      exists r',
        In r' (kycRepo (snd outcome)) /\
        sessionToken r' = Some token /\ updatedAt r' = now env /\
        identity_of r' = identity_of r /\ status r' = status r /\
        inquiryId r' = inquiryId r /\ verificationId r' = verificationId r /\
        approvedAt r' = approvedAt r /\ expiresAt r' = expiresAt r /\
        rejectionReason r' = rejectionReason r).
Proof.
  intros Hinquiry Hne outcome. subst outcome.
  rewrite (resumeKyc_run env verification inquiry w Hinquiry Hne). cbv zeta.
  split; [now destruct (persona_resume env inquiry) |].
  split; [now destruct (persona_resume env inquiry) |].
  split.
  - intros Hfail. destruct (persona_resume env inquiry) as [token | d | m].
    + exfalso. now apply (Hfail token).
    + split; [eexists |]; reflexivity.
    + split; [eexists |]; reflexivity.
  - intros token r Hanswer Hin Hid. rewrite Hanswer.
    cbn [snd kycRepo set_kycRepo add_request]. eexists. split.
    + apply update_In_same; [exact Hin | exact Hid].
    + now repeat split.
Qed.

Lemma resume_is_silent_witness :
  auditRepo (snd (KycService.resumeKyc (Sample.env 200) Sample.pending_onfido
                    (Sample.world [Sample.pending_onfido]))) = [] /\
  emitted (snd (KycService.resumeKyc (Sample.env 200) Sample.pending_onfido
                  (Sample.world [Sample.pending_onfido]))) = [].
Proof.
  destruct (resume_is_silent (Sample.env 200) Sample.pending_onfido "wfr-7"
              (Sample.world [Sample.pending_onfido]))
    as [Haudit [Hevents _]].
  - reflexivity.
  - discriminate.
  - split; [exact Haudit | exact Hevents].
Defined.

(* ------------------------------------------------------------------------- *)
(** ** The active level, across operations *)

Section ActiveAcross.

Variable env : Env.

(** The level [getActiveKycLevel] computes from a table. *)
Let active (u : string) (rows : list KycVerification) : KycLevel.t :=
  KycService.highestUnexpired env
    (Repo.order_by_level_desc
       (Repo.find (KycService.where_user_status u KycStatus.APPROVED) rows)).

Lemma active_is_an_upper_bound u rows v :
  In v rows -> userId v = u -> status v = KycStatus.APPROVED ->
  KycService.unexpired env v = true ->
  KycLevel.value (level v) <= KycLevel.value (active u rows).
Proof.
  intros Hin Hu Hs Hvalid. unfold active. rewrite highestUnexpired_find.
  assert (Hsorted : In v (Repo.order_by_level_desc
                            (Repo.find (KycService.where_user_status
                                          u KycStatus.APPROVED) rows))).
  { apply (Permutation_in _ (Permutation_sym (order_by_level_desc_perm _))).
    apply filter_In. split; [assumption |].
    apply where_user_status_spec. now split. }
  destruct (find (KycService.unexpired env) _) as [top |] eqn:Hfind.
  - exact (first_hit_ranks_highest _ _ (order_by_level_desc_sorted _) top Hfind
             v Hsorted Hvalid).
  - pose proof (find_none _ _ Hfind v Hsorted). congruence.
Qed.

Lemma active_is_attained u rows :
  active u rows = KycLevel.NONE \/
  exists v, In v rows /\ userId v = u /\ status v = KycStatus.APPROVED /\
            KycService.unexpired env v = true /\ level v = active u rows.
Proof.
  unfold active. rewrite highestUnexpired_find.
  destruct (find (KycService.unexpired env) _) as [top |] eqn:Hfind;
    [| now left].
  right. destruct (find_some _ _ Hfind) as [Hin Hvalid].
  apply (Permutation_in _ (order_by_level_desc_perm _)) in Hin.
  apply filter_In in Hin. destruct Hin as [Hin Hw].
  apply where_user_status_spec in Hw. exists top. tauto.
Qed.

Lemma level_value_injective a b :
  KycLevel.value a = KycLevel.value b -> a = b.
Proof. destruct a, b; cbn; congruence. Qed.

Lemma level_value_nonneg a : 0 <= KycLevel.value a.
Proof. destruct a; cbn; lia. Qed.

(** Two tables that hold valid approvals of the same levels for a user give
    that user the same active level. *)
Lemma active_depends_on_valid_approvals u rows rows' :
  (forall v, In v rows -> userId v = u -> status v = KycStatus.APPROVED ->
             KycService.unexpired env v = true ->
             exists v', In v' rows' /\ userId v' = u /\
                        status v' = KycStatus.APPROVED /\
                        KycService.unexpired env v' = true /\
                        level v' = level v) ->
  KycLevel.value (active u rows) <= KycLevel.value (active u rows').
Proof.
  intros Hsub. destruct (active_is_attained u rows) as [-> | [v Hv]].
  - apply level_value_nonneg.
  - destruct Hv as [Hin [Hu [Hs [Hvalid <-]]]].
    destruct (Hsub v Hin Hu Hs Hvalid) as [v' [Hin' [Hu' [Hs' [Hvalid' <-]]]]].
    now apply active_is_an_upper_bound.
Qed.

Lemma getActiveKycLevel_active u w :
  KycService.getActiveKycLevel env u w = (inr (active u (kycRepo w)), w).
Proof. reflexivity. Qed.

End ActiveAcross.

(** X16: an approval counts at once.  After an "approved" provider result is
    applied to a record of the table, the active level of the record's user,
    looked up at the same instant, is at least the record's level. *)
Theorem approval_raises_the_active_level
  (env : Env) (verification : KycVerification) (result : VerificationResult.t)
  (w : World) (r : KycVerification) :
  VerificationResult.status result = approved ->
  In r (kycRepo w) -> id r = id verification ->
  let w' :=
    snd (KycService.applyVerificationResult env verification result w) in
  exists lvl,
    KycService.getActiveKycLevel env (userId r) w' = (inr lvl, w') /\
    KycLevel.value (level r) <= KycLevel.value lvl.
Proof.
  intros Hstatus Hin Hid w'. eexists. split; [reflexivity |].
  apply (active_is_an_upper_bound env (userId r) (kycRepo w')
           (Repo.touch (now env)
              (Repo.assign r (KycService.resultUpdates env result)))).
  - subst w'. rewrite applyVerificationResult_kycRepo.
    now apply update_In_same.
  - reflexivity.
  - unfold KycService.resultUpdates. now rewrite Hstatus.
  - unfold KycService.resultUpdates, KycService.unexpired. rewrite Hstatus.
    cbn. apply Z.ltb_lt. unfold VERIFICATION_TTL_MS. lia.
Qed.

Lemma approval_raises_the_active_level_witness :
  exists lvl,
    fst (KycService.getActiveKycLevel (Sample.env 200)
           (userId Sample.pending_fresh)
           (snd (KycService.applyVerificationResult (Sample.env 200)
                   Sample.pending_fresh (Sample.result approved [])
                   (Sample.world [Sample.pending_fresh]))))
    = inr lvl /\ 1 <= KycLevel.value lvl.
Proof.
  destruct (approval_raises_the_active_level (Sample.env 200)
              Sample.pending_fresh (Sample.result approved [])
              (Sample.world [Sample.pending_fresh]) Sample.pending_fresh)
    as [lvl [Hrun Hle]].
  - reflexivity.
  - cbn. auto.
  - reflexivity.
  - exists lvl. rewrite Hrun. split; [reflexivity | exact Hle].
Defined.

(** X17: the expiry sweep changes nobody's active level.  On a table with a
    primary key, every user's active level looked up right after the sweep,
    at the instant of the sweep, is the one looked up right before it: the
    records the sweep turns to EXPIRED had already stopped counting. *)
Theorem sweep_keeps_every_active_level (env : Env) (w : World) (u : string) :
  NoDup (map id (kycRepo w)) ->
  fst (KycService.getActiveKycLevel env u
         (snd (KycService.expireVerifications env w)))
  = fst (KycService.getActiveKycLevel env u w).
Proof.
  intros Hkey. rewrite !getActiveKycLevel_active. cbn [fst]. f_equal.
  assert (Hrows : kycRepo (snd (KycService.expireVerifications env w))
                  = map (fun r =>
                           if KycService.where_approved_expired env r
                           then Repo.touch (now env)
                                  (Repo.assign r KycService.toExpired)
                           else r) (kycRepo w)).
  { rewrite sweep_kycRepo. apply map_ext_in. intros r Hr.
    now rewrite (found_by_key env (kycRepo w) r Hkey Hr). }
  rewrite Hrows.
  assert (Hskip : forall v, KycService.unexpired env v = true ->
                            KycService.where_approved_expired env v = false).
  { intros v Hvalid. unfold KycService.where_approved_expired.
    unfold KycService.unexpired in Hvalid.
    destruct (expiresAt v) as [e |]; [| apply andb_false_r].
    apply Z.ltb_lt in Hvalid.
    assert (Z.ltb e (now env) = false) as -> by (apply Z.ltb_ge; lia).
    apply andb_false_r. }
  apply level_value_injective. apply Z.le_antisymm.
  - apply active_depends_on_valid_approvals.
    intros v' Hin Hu Hs Hvalid. apply in_map_iff in Hin.
    destruct Hin as [r [Hr Hin]].
    destruct (KycService.where_approved_expired env r) eqn:E.
    + subst v'. discriminate.
    + subst v'. exists r. now repeat split.
  - apply active_depends_on_valid_approvals.
    intros v Hin Hu Hs Hvalid. exists v. repeat split; try assumption.
    apply in_map_iff. exists v. split; [| assumption].
    now rewrite (Hskip v Hvalid).
Qed.

Lemma sweep_keeps_every_active_level_witness :
  fst (KycService.getActiveKycLevel (Sample.env 300) "u1"
         (snd (KycService.expireVerifications (Sample.env 300)
                 (Sample.world
                    [Sample.basic_until_100; Sample.enhanced_until_500]))))
  = inr KycLevel.ENHANCED.
Proof.
  rewrite (sweep_keeps_every_active_level (Sample.env 300)
             (Sample.world [Sample.basic_until_100; Sample.enhanced_until_500])
             "u1").
  - reflexivity.
  - primary_key.
Defined.

(* ------------------------------------------------------------------------- *)
(** ** Limits and the guard *)

(** X18: a user who holds a valid APPROVED record of level ENHANCED is never
    stopped by the monthly limit, whatever the amount: the check returns with
    a null limit and a null remaining amount. *)
Theorem enhanced_is_never_limited
  (env : Env) (u : string) (requested : Z) (w : World) (v : KycVerification) :
  In v (kycRepo w) -> userId v = u -> status v = KycStatus.APPROVED ->
  level v = KycLevel.ENHANCED ->
  KycService.unexpired env v = true ->
  exists w',
    KycService.checkMonthlyLimit env u requested w
    = (inr {| limit_level := KycLevel.ENHANCED;
              monthlyLimitUsd := None;
              currentMonthUsageUsd := 0;
              remainingUsd := None;
              isLimitReached := false |}, w').
Proof.
  intros Hin Hu Hs Hlevel Hvalid.
  pose proof (active_is_an_upper_bound env u (kycRepo w) v Hin Hu Hs Hvalid)
    as Hbound.
  rewrite Hlevel in Hbound.
  rewrite (checkMonthlyLimit_run env u requested w _
             (getActiveKycLevel_run env u w)).
  destruct (KycService.highestUnexpired env _) eqn:Hactive;
    cbn in Hbound; try lia.
  eexists. reflexivity.
Qed.

Lemma enhanced_is_never_limited_witness :
  exists w',
    KycService.checkMonthlyLimit (Sample.env 300) "u1" 1000000000
      (Sample.world [Sample.basic_until_100; Sample.enhanced_until_500])
    = (inr {| limit_level := KycLevel.ENHANCED;
              monthlyLimitUsd := None;
              currentMonthUsageUsd := 0;
              remainingUsd := None;
              isLimitReached := false |}, w').
Proof.
  apply (enhanced_is_never_limited (Sample.env 300) "u1" 1000000000
           (Sample.world [Sample.basic_until_100; Sample.enhanced_until_500])
           Sample.enhanced_until_500).
  - cbn. auto.
  - reflexivity.
  - reflexivity.
  - reflexivity.
  - reflexivity.
Defined.

(** X19: no user is stopped below the lowest limit.  A request of at most
    1000 passes for every user in every state of the table, and whenever an
    amount passes every smaller amount passes too.  In particular the limits
    endpoint, which checks the amount 0, never throws; each call of it
    appends a LIMIT_CHECKED audit entry and reports the whole limit as
    remaining. *)
Theorem small_requests_always_pass
  (env : Env) (u : string) (w : World) :
  (forall requested,
      requested <= 1000 ->
      exists dto w',
        KycService.checkMonthlyLimit env u requested w = (inr dto, w')) /\
  (forall requested smaller dto w',
      KycService.checkMonthlyLimit env u requested w = (inr dto, w') ->
      smaller <= requested ->
      exists dto' w'',
        KycService.checkMonthlyLimit env u smaller w = (inr dto', w'')) /\
  (exists dto entry,
      KycController.getMyLimits env u w = (inr dto, add_audit entry w) /\
      log_action entry = KycAuditAction.LIMIT_CHECKED /\
      log_userId entry = u /\
      isLimitReached dto = false /\
      remainingUsd dto = monthlyLimitUsd dto /\
      monthlyLimitUsd dto = KYC_MONTHLY_LIMITS (limit_level dto)).
Proof.
  unfold KycController.getMyLimits.
  pose proof (fun requested =>
                checkMonthlyLimit_run env u requested w _
                  (getActiveKycLevel_run env u w)) as Hrun.
  split; [| split].
  - intros requested Hsmall. rewrite Hrun.
    destruct (KycService.highestUnexpired env _); cbn [KYC_MONTHLY_LIMITS].
    + assert (Z.gtb (0 + requested) 1000 = false) as ->
        by (rewrite Z.gtb_ltb; apply Z.ltb_ge; lia).
      do 2 eexists. reflexivity.
    + assert (Z.gtb (0 + requested) 10000 = false) as ->
        by (rewrite Z.gtb_ltb; apply Z.ltb_ge; lia).
      do 2 eexists. reflexivity.
    + do 2 eexists. reflexivity.
  - intros requested smaller dto w' Hpass Hle. rewrite Hrun in *.
    destruct (KYC_MONTHLY_LIMITS _) as [l |]; [| do 2 eexists; reflexivity].
    destruct (Z.gtb (0 + requested) l) eqn:E; [discriminate |].
    rewrite Z.gtb_ltb in E. apply Z.ltb_ge in E.
    assert (Z.gtb (0 + smaller) l = false) as ->
      by (rewrite Z.gtb_ltb; apply Z.ltb_ge; lia).
    do 2 eexists. reflexivity.
  - rewrite Hrun.
    destruct (KycService.highestUnexpired env _); cbn [KYC_MONTHLY_LIMITS];
      cbn [Z.add Z.gtb Z.compare]; do 2 eexists;
      (split; [reflexivity | now repeat split]).
Qed.

Lemma small_requests_always_pass_witness :
  exists dto w',
    KycService.checkMonthlyLimit (Sample.env 300) "nobody" 1000
      (Sample.world []) = (inr dto, w').
Proof.
  apply (proj1 (small_requests_always_pass (Sample.env 300) "nobody"
                  (Sample.world []))).
  lia.
Defined.

Lemma canActivate_run env route userId w :
  KycGuard.canActivate env route userId w
  = match KycGuard.RequireKycLevel (KycGuard.on_class route),
          KycGuard.RequireKycAmount (KycGuard.on_class route) with
    | None, None => (inr true, w)
    | requiredLevel, requiredAmount =>
        if negb (Js.truthy userId) then (inr true, w)
        else
          let u := match userId with Some u => u | None => EmptyString end in
          (activeLevel <- KycService.getActiveKycLevel env u ;;
           match requiredLevel with
           | Some required =>
               if Z.ltb (KycLevel.value activeLevel) (KycLevel.value required)
               then throw (ForbiddenException
                             (KycGuard.level_message required activeLevel))
               else ret tt
           | None => ret tt
           end ;;;
           match requiredAmount with
           | Some amount =>
               _ <- KycService.checkMonthlyLimit env u amount ;; ret tt
           | None => ret tt
           end ;;;
           ret true)%kyc w
    end.
Proof.
  unfold KycGuard.canActivate, KycGuard.getAllAndOverride,
    KycGuard.handler_metadata, KycGuard.class_metadata.
  destruct (KycGuard.RequireKycLevel (KycGuard.on_class route)),
    (KycGuard.RequireKycAmount (KycGuard.on_class route));
    cbv zeta; now destruct (negb (Js.truthy userId)).
Qed.

(** X20: what the route guard decides.  Only the decorators written on the
    controller class count: those written on the handler method are recorded
    where the guard does not look, so a route whose class carries none passes
    whatever its method requires.  With the requirements of the class: a
    route without requirement, or a request without a user id, passes
    untouched.  For a user below the required level the guard throws a
    [ForbiddenException] naming both levels, before any amount is checked, so
    that nothing is written.  For a user at or above the required level (or a
    class without one) the guard passes when no amount is required, and
    otherwise passes or throws as the monthly limit check of that amount
    does, audit entry included. *)
Theorem guard_decisions
  (env : Env) (route : KycGuard.Route) (userId : option string) (w : World) :
  let requiredLevel := KycGuard.RequireKycLevel (KycGuard.on_class route) in
  let requiredAmount := KycGuard.RequireKycAmount (KycGuard.on_class route) in
  (forall on_method,
      KycGuard.canActivate env
        {| KycGuard.on_handler := on_method;
           KycGuard.on_class := KycGuard.on_class route |} userId w
      = KycGuard.canActivate env route userId w) /\
  (requiredLevel = None -> requiredAmount = None ->
   KycGuard.canActivate env route userId w = (inr true, w)) /\
  (Js.truthy userId = false ->
   KycGuard.canActivate env route userId w = (inr true, w)) /\
  (forall u active,
      userId = Some u -> u <> EmptyString ->
      KycService.getActiveKycLevel env u w = (inr active, w) ->
      (forall required,
          requiredLevel = Some required ->
          KycLevel.value active < KycLevel.value required ->
          KycGuard.canActivate env route userId w
          = (inl (ForbiddenException (KycGuard.level_message required active)),
             w)) /\
      ((forall required, requiredLevel = Some required ->
                         KycLevel.value required <= KycLevel.value active) ->
       (requiredAmount = None ->
        KycGuard.canActivate env route userId w = (inr true, w)) /\
       (forall amount,
           requiredAmount = Some amount ->
           KycGuard.canActivate env route userId w
           = (match fst (KycService.checkMonthlyLimit env u amount w) with
              | inl e => inl e
              | inr _ => inr true
              end,
              snd (KycService.checkMonthlyLimit env u amount w))))).
Proof.
  intros requiredLevel requiredAmount.
  split; [intros on_method; now rewrite !canActivate_run |].
  rewrite canActivate_run. fold requiredLevel requiredAmount.
  clearbody requiredLevel requiredAmount.
  split; [| split].
  - intros -> ->. reflexivity.
  - intros Hnobody. rewrite Hnobody.
    now destruct requiredLevel, requiredAmount.
  - intros u active -> Hu Hactive.
    assert (Htruthy : Js.truthy (Some u) = true).
    { cbn. apply String.eqb_neq in Hu. now rewrite Hu. }
    split.
    + intros required -> Hbelow.
      rewrite Htruthy. cbn [negb]. cbv zeta. unfold bind at 1. rewrite Hactive.
      apply Z.ltb_lt in Hbelow. run. rewrite Hbelow.
      now destruct requiredAmount.
    + intros Habove. split.
      * intros ->.
        destruct requiredLevel as [required |]; [| reflexivity].
        rewrite Htruthy. cbn [negb]. cbv zeta. unfold bind at 1. rewrite Hactive.
        run.
        assert (Z.ltb (KycLevel.value active) (KycLevel.value required) = false)
          as -> by (apply Z.ltb_ge; now apply Habove).
        reflexivity.
      * intros amount ->.
        assert (Hpass :
                  forall required,
                    requiredLevel = Some required ->
                    Z.ltb (KycLevel.value active) (KycLevel.value required)
                    = false).
        { intros required Hr. apply Z.ltb_ge. now apply Habove. }
        destruct requiredLevel as [required |];
          rewrite Htruthy; cbn [negb]; cbv zeta; unfold bind at 1;
          rewrite Hactive; run;
          [rewrite (Hpass required eq_refl) |]; cbv beta iota zeta;
          destruct (KycService.checkMonthlyLimit env u amount w) as [[e | dto] w'];
          reflexivity.
Qed.

Lemma guard_decisions_witness :
  KycGuard.canActivate (Sample.env 300)
    {| KycGuard.on_handler :=
         {| KycGuard.RequireKycLevel := None;
            KycGuard.RequireKycAmount := None |};
       KycGuard.on_class :=
         {| KycGuard.RequireKycLevel := Some KycLevel.ENHANCED;
            KycGuard.RequireKycAmount := Some 5 |} |}
    (Some "u1") (Sample.world [Sample.basic_until_100])
  = (inl (ForbiddenException
            (KycGuard.level_message KycLevel.ENHANCED KycLevel.NONE)),
     Sample.world [Sample.basic_until_100]) /\
  KycGuard.canActivate (Sample.env 300)
    {| KycGuard.on_handler :=
         {| KycGuard.RequireKycLevel := Some KycLevel.ENHANCED;
            KycGuard.RequireKycAmount := Some 5 |};
       KycGuard.on_class :=
         {| KycGuard.RequireKycLevel := None;
            KycGuard.RequireKycAmount := None |} |}
    (Some "u1") (Sample.world [Sample.basic_until_100])
  = (inr true, Sample.world [Sample.basic_until_100]).
Proof.
  split.
  - destruct (guard_decisions (Sample.env 300)
                {| KycGuard.on_handler :=
                     {| KycGuard.RequireKycLevel := None;
                        KycGuard.RequireKycAmount := None |};
                   KycGuard.on_class :=
                     {| KycGuard.RequireKycLevel := Some KycLevel.ENHANCED;
                        KycGuard.RequireKycAmount := Some 5 |} |}
                (Some "u1") (Sample.world [Sample.basic_until_100]))
      as [_ [_ [_ Hdecide]]].
    destruct (Hdecide "u1" KycLevel.NONE) as [Hbelow _].
    + reflexivity.
    + discriminate.
    + reflexivity.
    + apply (Hbelow KycLevel.ENHANCED); [reflexivity | cbn; lia].
  - destruct (guard_decisions (Sample.env 300)
                {| KycGuard.on_handler :=
                     {| KycGuard.RequireKycLevel := Some KycLevel.ENHANCED;
                        KycGuard.RequireKycAmount := Some 5 |};
                   KycGuard.on_class :=
                     {| KycGuard.RequireKycLevel := None;
                        KycGuard.RequireKycAmount := None |} |}
                (Some "u1") (Sample.world [Sample.basic_until_100]))
      as [_ [Hnone _]].
    apply Hnone; reflexivity.
Defined.

(* ------------------------------------------------------------------------- *)
(** ** Queries: the status list and the compliance report *)

Section Listing.

Lemma stands_before_spec a b :
  Repo.stands_before a b = true <-> listed_before a b.
Proof.
  unfold Repo.stands_before, listed_before, KycLevel.eqb.
  rewrite orb_true_iff, andb_true_iff, Z.ltb_lt, Z.eqb_eq, Z.leb_le.
  reflexivity.
Qed.

Lemma listed_before_total a b : listed_before a b \/ listed_before b a.
Proof. unfold listed_before. lia. Qed.

Lemma listed_before_trans a b c :
  listed_before a b -> listed_before b c -> listed_before a c.
Proof. unfold listed_before. lia. Qed.

Lemma insert_by_level_created_desc_perm v l :
  Permutation (Repo.insert_by_level_created_desc v l) (v :: l).
Proof.
  induction l as [| x l IH]; cbn [Repo.insert_by_level_created_desc].
  - apply Permutation_refl.
  - destruct (Repo.stands_before v x).
    + apply Permutation_refl.
    + eapply perm_trans; [apply perm_skip, IH | apply perm_swap].
Qed.

Lemma order_by_level_created_desc_perm rows :
  Permutation (Repo.order_by_level_created_desc rows) rows.
Proof.
  induction rows as [| v rows IH]; cbn; [constructor |].
  eapply perm_trans; [apply insert_by_level_created_desc_perm |].
  now apply perm_skip.
Qed.

Lemma insert_by_level_created_desc_sorted v l :
  StronglySorted listed_before l ->
  StronglySorted listed_before (Repo.insert_by_level_created_desc v l).
Proof.
  induction 1 as [| x l Hsorted IH Hall];
    cbn [Repo.insert_by_level_created_desc].
  - repeat constructor.
  - destruct (Repo.stands_before v x) eqn:E.
    + apply stands_before_spec in E. constructor; [now constructor |].
      constructor; [exact E |].
      eapply Forall_impl; [| exact Hall].
      intros b Hb. now apply (listed_before_trans v x b).
    + constructor; [exact IH |].
      eapply Permutation_Forall;
        [apply Permutation_sym, insert_by_level_created_desc_perm |].
      constructor; [| exact Hall].
      destruct (listed_before_total x v) as [H | H]; [exact H |].
      apply stands_before_spec in H. congruence.
Qed.

Lemma order_by_level_created_desc_sorted rows :
  StronglySorted listed_before (Repo.order_by_level_created_desc rows).
Proof.
  induction rows as [| v rows IH]; cbn; [constructor |].
  now apply insert_by_level_created_desc_sorted.
Qed.

End Listing.

(** X21: the status list of a user holds the user's records and no one
    else's, each as often as the table holds it, the highest level first and
    within a level the most recently created first; reading it changes
    nothing. *)
Theorem getUserKycStatus_lists_the_users_records (u : string) (w : World) :
  exists listed,
    KycService.getUserKycStatus u w = (inr listed, w) /\
    Permutation listed
      (filter (fun v => String.eqb (userId v) u) (kycRepo w)) /\
    (forall v, In v listed <-> In v (kycRepo w) /\ userId v = u) /\
    StronglySorted listed_before listed.
Proof.
  eexists. split; [reflexivity |].
  split; [apply order_by_level_created_desc_perm |].
  split; [| apply order_by_level_created_desc_sorted].
  intros v. split.
  - intros Hin.
    apply (Permutation_in _ (order_by_level_created_desc_perm _)) in Hin.
    apply filter_In in Hin. now rewrite String.eqb_eq in Hin.
  - intros [Hin Hu].
    apply (Permutation_in _
             (Permutation_sym (order_by_level_created_desc_perm _))).
    apply filter_In. now rewrite String.eqb_eq.
Qed.

Section Counting.

Lemma count_cons where_ v rows :
  Repo.count where_ (v :: rows)
  = (if where_ v then 1 else 0) + Repo.count where_ rows.
Proof.
  unfold Repo.count. cbn [filter]. destruct (where_ v); cbn [List.length]; lia.
Qed.

Lemma count_nonneg where_ rows : 0 <= Repo.count where_ rows.
Proof. unfold Repo.count. lia. Qed.

Lemma count_le (p q : KycVerification -> bool) rows :
  (forall v, p v = true -> q v = true) ->
  Repo.count p rows <= Repo.count q rows.
Proof.
  intros Himp. induction rows as [| v rows IH]; [reflexivity |].
  rewrite !count_cons. specialize (Himp v).
  destruct (p v), (q v); try lia; discriminate (Himp eq_refl).
Qed.

Lemma count_all rows :
  Repo.count (fun _ => true) rows = Z.of_nat (List.length rows).
Proof.
  unfold Repo.count. f_equal. f_equal.
  induction rows as [| v rows IH]; cbn; congruence.
Qed.

Lemma total_of_countByLevel rows :
  total_of (KycService.countByLevel rows)
  = Repo.count (KycService.where_status KycStatus.APPROVED) rows.
Proof.
  unfold KycService.countByLevel, total_of. cbn [flat_map].
  assert (Hsplit :
            Repo.count (KycService.where_status KycStatus.APPROVED) rows
            = Repo.count (fun v => KycService.where_status KycStatus.APPROVED v
                                   && KycLevel.eqb (level v) KycLevel.NONE) rows
              + Repo.count (fun v => KycService.where_status KycStatus.APPROVED v
                                     && KycLevel.eqb (level v) KycLevel.BASIC) rows
              + Repo.count (fun v => KycService.where_status KycStatus.APPROVED v
                                     && KycLevel.eqb (level v) KycLevel.ENHANCED)
                           rows).
  { induction rows as [| v rows IH]; [reflexivity |].
    rewrite !count_cons, IH. cbv beta.
    destruct (KycService.where_status KycStatus.APPROVED v), (level v);
      cbn -[Z.add Repo.count]; lia. }
  rewrite Hsplit.
  repeat match goal with
         | |- context [Z.eqb ?n 0] => destruct (Z.eqb_spec n 0)
         end; cbn [app map snd fold_right]; lia.
Qed.

Lemma total_of_countByProvider rows :
  total_of (KycService.countByProvider rows)
  = Repo.count (fun _ => true) rows.
Proof.
  unfold KycService.countByProvider, total_of. cbn [flat_map].
  assert (Hsplit :
            Repo.count (fun _ => true) rows
            = Repo.count (fun v => KycService.provider_eqb (provider v)
                                     KycProvider.PERSONA) rows
              + Repo.count (fun v => KycService.provider_eqb (provider v)
                                       KycProvider.ONFIDO) rows).
  { induction rows as [| v rows IH]; [reflexivity |].
    rewrite !count_cons, IH. cbv beta.
    destruct (provider v); cbn -[Z.add Repo.count]; lia. }
  rewrite Hsplit.
  repeat match goal with
         | |- context [Z.eqb ?n 0] => destruct (Z.eqb_spec n 0)
         end; cbn [app map snd fold_right]; lia.
Qed.

Lemma counts_by_status rows :
  Repo.count (fun _ => true) rows
  = Repo.count (KycService.where_status KycStatus.APPROVED) rows
    + Repo.count (KycService.where_status KycStatus.PENDING) rows
    + Repo.count (KycService.where_status KycStatus.REJECTED) rows
    + Repo.count (KycService.where_status KycStatus.EXPIRED) rows
    + Repo.count (KycService.where_status KycStatus.UNDER_REVIEW) rows
    + Repo.count (KycService.where_status KycStatus.REQUIRES_ACTION) rows.
Proof.
  induction rows as [| v rows IH]; [reflexivity |].
  rewrite !count_cons, IH. unfold KycService.where_status.
  destruct (status v); cbn -[Z.add Repo.count]; lia.
Qed.

End Counting.

(** X22: the compliance report adds up.  The total is the number of records;
    the four status counts it shows never exceed the total and fall short of
    it exactly by the records UNDER_REVIEW or REQUIRES_ACTION, which the
    report does not show.  The per-level counts sum to the approved count,
    the per-provider counts to the total.  The renewals due are approved
    records, and they include every approved record already past its expiry
    that the sweep has not yet turned to EXPIRED.  The report changes
    nothing. *)
Theorem compliance_report_adds_up (env : Env) (w : World) :
  exists report,
    KycService.generateComplianceReport env w = (inr report, w) /\
    totalVerifications report = Z.of_nat (List.length (kycRepo w)) /\
    totalVerifications report
    = report_approved report + report_pending report
      + report_rejected report + report_expired report
      + Repo.count (KycService.where_status KycStatus.UNDER_REVIEW) (kycRepo w)
      + Repo.count (KycService.where_status KycStatus.REQUIRES_ACTION)
                   (kycRepo w) /\
    report_approved report + report_pending report
      + report_rejected report + report_expired report
    <= totalVerifications report /\
    total_of (byLevel report) = report_approved report /\
    total_of (byProvider report) = totalVerifications report /\
    renewalsDue report <= report_approved report /\
    Repo.count (KycService.where_approved_expired env) (kycRepo w)
    <= renewalsDue report.
Proof.
  eexists. split; [reflexivity |].
  cbn [totalVerifications report_approved report_pending report_rejected
         report_expired byLevel byProvider renewalsDue].
  split; [apply count_all |].
  split; [apply counts_by_status |].
  split.
  { rewrite (counts_by_status (kycRepo w)).
    pose proof (count_nonneg (KycService.where_status KycStatus.UNDER_REVIEW)
                  (kycRepo w)).
    pose proof (count_nonneg (KycService.where_status KycStatus.REQUIRES_ACTION)
                  (kycRepo w)).
    lia. }
  split; [apply total_of_countByLevel |].
  split; [apply total_of_countByProvider |].
  split.
  - apply count_le. intros v Hv. unfold KycService.where_renewal_due in Hv.
    now apply andb_true_iff in Hv.
  - apply count_le. intros v Hv.
    unfold KycService.where_approved_expired, KycService.where_renewal_due,
      KycService.where_status in *.
    apply andb_true_iff in Hv. destruct Hv as [Hs He]. rewrite Hs. cbn [andb].
    destruct (expiresAt v) as [e |]; [| discriminate].
    apply Z.ltb_lt in He. apply Z.ltb_lt. lia.
Qed.

(* ------------------------------------------------------------------------- *)
(** ** Later results on a record *)

(** X23: what a provider result leaves on the record.  A result that is not
    an approval leaves [approvedAt] and [expiresAt] as they were, so a record
    once approved keeps its dates when a later result moves it to REJECTED,
    UNDER_REVIEW or back to PENDING; needs_review and pending also leave the
    rejection reason.  Every result overwrites the provider's verification id
    and metadata, and none touches the inquiry or the session token. *)
Theorem provider_result_keeps_the_dates
  (env : Env) (verification : KycVerification) (result : VerificationResult.t)
  (w : World) (r : KycVerification) :
  In r (kycRepo w) -> id r = id verification ->
  exists r',
    In r' (kycRepo (snd (KycService.applyVerificationResult
                           env verification result w))) /\
    identity_of r' = identity_of r /\
    inquiryId r' = inquiryId r /\ sessionToken r' = sessionToken r /\
    verificationId r' = Some (VerificationResult.verificationId result) /\
    providerMetadata r' = VerificationResult.providerMetadata result /\
    (VerificationResult.status result <> approved ->
     approvedAt r' = approvedAt r /\ expiresAt r' = expiresAt r /\
     status r' <> KycStatus.APPROVED) /\
    (VerificationResult.status result = needs_review \/
     VerificationResult.status result = pending ->
     rejectionReason r' = rejectionReason r).
Proof.
  intros Hin Hid. rewrite applyVerificationResult_kycRepo.
  exists (Repo.touch (now env)
            (Repo.assign r (KycService.resultUpdates env result))).
  split; [now apply update_In_same |].
  unfold KycService.resultUpdates.
  destruct (VerificationResult.status result); cbn;
    repeat split; try congruence; try discriminate;
    intros [H | H]; discriminate.
Qed.

Lemma provider_result_keeps_the_dates_witness :
  exists r',
    In r' (kycRepo (snd (KycService.applyVerificationResult (Sample.env 50)
                           Sample.basic_until_100 (Sample.result pending [])
                           (Sample.world [Sample.basic_until_100])))) /\
    status r' <> KycStatus.APPROVED /\ expiresAt r' = Some 100.
Proof.
  destruct (provider_result_keeps_the_dates (Sample.env 50)
              Sample.basic_until_100 (Sample.result pending [])
              (Sample.world [Sample.basic_until_100]) Sample.basic_until_100)
    as [r' [Hin [_ [_ [_ [_ [_ [Hdates _]]]]]]]].
  - cbn. auto.
  - reflexivity.
  - exists r'. split; [exact Hin |].
    destruct Hdates as [_ [Hexpires Hstatus]]; [discriminate |].
    split; [exact Hstatus | exact Hexpires].
Defined.

(** X24: an Onfido webhook with a good signature for the workflow run of a
    record, whose run ended in "error" or "declined", rejects the record: it
    becomes REJECTED with the reasons of the run joined by "; ", or
    "Verification declined" when the run names none; the audit log gains a
    WEBHOOK_RECEIVED entry under the record's user and id and then a
    STATUS_CHANGED entry, and one REJECTED event is published. *)
Theorem onfido_rejection_delivery
  (env : Env) (token rawBody signature : string) (payload : OnfidoPayload)
  (run : OnfidoWorkflowRun) (raw : string) (v : KycVerification) (w : World) :
  OnfidoProvider.verifyWebhookSignature env token rawBody signature = true ->
  resource_type payload = Some "workflow_run" ->
  payload_object payload = Some run ->
  run_status run = Some raw -> raw = "error" \/ raw = "declined" ->
  Repo.findOne
    (fun r => match inquiryId r with
              | Some i => String.eqb i (OnfidoProvider.or_empty (run_id run))
              | None => false
              end) (kycRepo w) = Some v ->
  let reasons :=
    match run_output run with
    | Some o => match output_reasons o with Some rs => rs | None => [] end
    | None => []
    end in
  exists w' received changed,
    KycService.processOnfidoWebhook env token rawBody signature payload w
    = (inr tt, w') /\
    (forall v', In v' (kycRepo w') -> id v' = id v ->
                status v' = KycStatus.REJECTED /\
                rejectionReason v'
                = Some (if String.eqb (Js.join "; " reasons) ""
                        then "Verification declined"
                        else Js.join "; " reasons)) /\
    auditRepo w' = (auditRepo w ++ [received; changed])%list /\
    log_action received = KycAuditAction.WEBHOOK_RECEIVED /\
    log_userId received = userId v /\
    log_verificationId received = Some (id v) /\
    log_action changed = KycAuditAction.STATUS_CHANGED /\
    map fst (emitted w') = (map fst (emitted w) ++ [KYC_EVENTS.REJECTED])%list.
Proof.
  intros Hok Hresource Hobject Hraw Hended Hfind reasons.
  rewrite (processOnfidoWebhook_accepted env token rawBody signature payload w
             Hok Hresource).
  cbv zeta. rewrite Hobject.
  change (OnfidoVerificationResult.workflowRunId
            (OnfidoProvider.mapWorkflowRunToResult (Some run)))
    with (OnfidoProvider.or_empty (run_id run)).
  rewrite Hfind.
  assert (Hdeclined : OnfidoVerificationResult.status
                        (OnfidoProvider.mapWorkflowRunToResult (Some run))
                      = Canonical declined).
  { cbn. rewrite Hraw. destruct Hended as [-> | ->]; reflexivity. }
  rewrite Hdeclined. unfold KycService.applyProviderResult.
  destruct (applyVerificationResult_effects env v
              {| VerificationResult.status := declined;
                 VerificationResult.verificationId :=
                   OnfidoVerificationResult.checkId
                     (OnfidoProvider.mapWorkflowRunToResult (Some run));
                 VerificationResult.declinedReasons :=
                   OnfidoVerificationResult.declinedReasons
                     (OnfidoProvider.mapWorkflowRunToResult (Some run));
                 VerificationResult.providerMetadata :=
                   OnfidoVerificationResult.providerMetadata
                     (OnfidoProvider.mapWorkflowRunToResult (Some run)) |})
    as [changed [events [Hrun [Haction [_ [_ Hevents]]]]]].
  rewrite Hrun. do 3 eexists. split; [reflexivity |].
  cbn [kycRepo auditRepo emitted requests add_audit VerificationResult.status]
    in *.
  split; [| split; [| split; [| split; [| split; [| split]]]]].
  - intros v' Hin Hid.
    destruct (update_In_key _ _ _ _ _ Hin Hid) as [r [_ [_ ->]]].
    unfold KycService.resultUpdates.
    cbn [VerificationResult.status].
    split; reflexivity.
  - rewrite <- app_assoc. reflexivity.
  - reflexivity.
  - reflexivity.
  - reflexivity.
  - exact Haction.
  - rewrite map_app. f_equal. exact Hevents.
Qed.

Lemma onfido_rejection_delivery_witness :
  exists w',
    KycService.processOnfidoWebhook (Sample.env 0) "tok" "{}" Sample.digest
      (Sample.onfido_payload "wfr-7" "error" None)
      (Sample.world [Sample.pending_onfido])
    = (inr tt, w') /\
    map (fun r => (status r, rejectionReason r)) (kycRepo w')
    = [(KycStatus.REJECTED, Some "Verification declined")].
Proof.
  destruct (onfido_rejection_delivery (Sample.env 0) "tok" "{}" Sample.digest
              (Sample.onfido_payload "wfr-7" "error" None)
              {| run_id := Some "wfr-7";
                 run_applicant_id := Some "app-1";
                 run_status := Some "error";
                 run_workflow_id := Some "wf-1";
                 run_completed_at := None;
                 run_output :=
                   Some {| output_result := None;
                           output_reasons := None;
                           output_json := JObject [] |} |}
              "error" Sample.pending_onfido
              (Sample.world [Sample.pending_onfido]))
    as [w' [received [changed [Hrun _]]]].
  - vm_compute. reflexivity.
  - reflexivity.
  - reflexivity.
  - reflexivity.
  - now left.
  - reflexivity.
  - exists w'. split; [exact Hrun |].
    vm_compute in Hrun. inversion Hrun. reflexivity.
Defined.

(* ------------------------------------------------------------------------- *)
(** ** Webhooks: a status that is an inherited property name *)




